(** * crypto-bnb-bot: the ledger and the withdrawal workflow of [bot.py]

    A shallow embedding of the parts of [src/bot.py] that hold the ledger
    (the tables [users] and [withdrawals], the dict [pending_rejects]) and of
    the handlers that read and write it, followed by the properties of the
    specification, each stated over these definitions.

    Conventions.
    - A Python [str] is a [string]; a character is a code point below 256.
    - A [decimal.Decimal] is a sign, a coefficient and an exponent, as in
      Python; only finite values are modelled (no NaN, no Infinity), and the
      exponent range of the context (Emin/Emax) is taken as unbounded.
    - The TEXT column [balance] holds [str(d)] for a Decimal [d] and is read
      back with [Decimal(str(text))], which returns [d] itself (the last
      section proves it); the column is modelled by [d].
    - The INTEGER columns are modelled by unbounded integers. [sqlite3]
      binds a Python int as a signed 64-bit integer and raises OverflowError
      for any other, in which case the handler stops and nothing is written;
      the ids Telegram sends are in that range. A statement that asserts a
      write under an id read from the text of a user (the referrer of
      [/start]) therefore assumes that the id is in range
      ([sqlite_integer]).
    - A handler is a function from the database and the in-memory state of
      the process to their new values and to what it sends. Handlers run one
      at a time.
    - What the outside world answers during a handler is an argument of it:
      the clock readings, the status returned by the membership lookup, and
      [sent], the id Telegram gives to the message posted by
      [safe_send_and_store] ([None] when posting raised, in which case the
      handler stops there).
    - The text of a message is not modelled: a reply is a value carrying the
      data shown in it. [format_bnb] is modelled on its own. *)

From Stdlib Require Import ZArith NArith List String Ascii Bool Lia.
From stdpp Require Import base option list gmap.

Local Open Scope Z_scope.

(** ** Python's [decimal.Decimal], finite values, context precision 28 *)

Module PyDecimal.

Record Decimal : Type := mkDec { dsign : bool; dcoef : N; dexp : Z }.

(** [getcontext().prec = 28] *)
Definition prec : Z := 28.

Definition pow10 (k : Z) : N := (10 ^ Z.to_N k)%N.

(** [len(self._int)]: the number of decimal digits of the coefficient;
    the coefficient 0 is the one-digit string "0". *)
Fixpoint ndigits_fuel (fuel : nat) (n : N) : Z :=
  match fuel with
  | O => 1
  | S f => if (n <? 10)%N then 1 else 1 + ndigits_fuel f (n / 10)%N
  end.

Definition ndigits (n : N) : Z := ndigits_fuel (N.to_nat (N.log2 n)) n.

(** The signed coefficient of [d] at the exponent [e <= dexp d]. *)
Definition signed_at (e : Z) (d : Decimal) : Z :=
  let m := Z.of_N (dcoef d * pow10 (dexp d - e)) in
  if dsign d then - m else m.

(** Comparison is exact: both operands are aligned on the smaller
    exponent and compared as integers ([Decimal._cmp]). *)
Definition Dcompare (a b : Decimal) : comparison :=
  let e := Z.min (dexp a) (dexp b) in
  Z.compare (signed_at e a) (signed_at e b).

Definition Dlt (a b : Decimal) : bool :=
  match Dcompare a b with Lt => true | _ => false end.

Definition Dle (a b : Decimal) : bool :=
  match Dcompare a b with Gt => false | _ => true end.

Definition Deq (a b : Decimal) : bool :=
  match Dcompare a b with Eq => true | _ => false end.

(** [Decimal._fix]: round to [prec] significant digits, ROUND_HALF_EVEN
    (the context's default rounding). *)
Definition fix_ (d : Decimal) : Decimal :=
  let n := ndigits (dcoef d) in
  if (dcoef d =? 0)%N then d
  else if n <=? prec then d
  else
    let k := n - prec in
    let q := (dcoef d / pow10 k)%N in
    let r := (dcoef d mod pow10 k)%N in
    let half := (pow10 k / 2)%N in
    let up := ((half <? r) || ((r =? half) && N.odd q))%N in
    let c := if up then (q + 1)%N else q in
    if (c =? pow10 prec)%N
    then mkDec (dsign d) (c / 10)%N (dexp d + k + 1)
    else mkDec (dsign d) c (dexp d + k).

(** [Decimal.__add__]: the exact sum at the smaller exponent, then
    [_fix]. A zero sum is negative only when both operands are. *)
Definition Dadd (a b : Decimal) : Decimal :=
  let e := Z.min (dexp a) (dexp b) in
  let s := signed_at e a + signed_at e b in
  let sg := if s =? 0 then dsign a && dsign b else s <? 0 in
  fix_ (mkDec sg (Z.to_N (Z.abs s)) e).

(** [Decimal("0")] *)
Definition Dzero : Decimal := mkDec false 0 0.

(** [not (d < 0)] *)
Definition Dnonneg (d : Decimal) : Prop := Dlt d Dzero = false.

(** [abs(d)] *)
Definition Dabs (d : Decimal) : Decimal := mkDec false (dcoef d) (dexp d).

(** [d.quantize(exp, rounding=ROUND_DOWN)] for a target exponent [e]:
    [None] stands for the InvalidOperation raised when the result would
    need more than [prec] digits. *)
Definition quantize_down (e : Z) (d : Decimal) : option Decimal :=
  if (dcoef d =? 0)%N then Some (mkDec (dsign d) 0 e)
  else if prec <? ndigits (dcoef d) + dexp d - e then None
  else if e <=? dexp d
    then Some (mkDec (dsign d) (dcoef d * pow10 (dexp d - e)) e)
    else Some (mkDec (dsign d) (dcoef d / pow10 (e - dexp d)) e).

(** [d.normalize()]: strip the trailing zeros of the coefficient; a zero
    becomes [0E+0] with its sign. *)
Fixpoint strip_zeros (fuel : nat) (c : N) (e : Z) : N * Z :=
  match fuel with
  | O => (c, e)
  | S f => if (c mod 10 =? 0)%N then strip_zeros f (c / 10)%N (e + 1) else (c, e)
  end.

Definition normalize (d : Decimal) : Decimal :=
  let d := fix_ d in
  if (dcoef d =? 0)%N then mkDec (dsign d) 0 0
  else let '(c, e) := strip_zeros (N.to_nat (N.log2 (dcoef d))) (dcoef d) (dexp d) in
       mkDec (dsign d) c e.

End PyDecimal.

(** ** Python's [str] operations used by the bot *)

Module PyStr.

Local Open Scope string_scope.

Definition len (s : string) : Z := Z.of_nat (String.length s).

Fixpoint repeat_char (c : ascii) (n : nat) : string :=
  match n with
  | O => EmptyString
  | S k => String c (repeat_char c k)
  end.

Fixpoint take (n : nat) (s : string) : string :=
  match n, s with
  | S k, String c r => String c (take k r)
  | _, _ => EmptyString
  end.

Fixpoint drop (n : nat) (s : string) : string :=
  match n, s with
  | S k, String _ r => drop k r
  | _, _ => s
  end.

Fixpoint rev_onto (s acc : string) : string :=
  match s with
  | EmptyString => acc
  | String c r => rev_onto r (String c acc)
  end.

Definition rev (s : string) : string := rev_onto s EmptyString.

(** [str.isspace] on the code points below 256. *)
Definition is_space (c : ascii) : bool :=
  let n := N_of_ascii c in
  (((9 <=? n) && (n <=? 13)) || ((28 <=? n) && (n <=? 32))
   || (n =? 133) || (n =? 160))%N.

Fixpoint lstrip (s : string) : string :=
  match s with
  | String c r => if is_space c then lstrip r else s
  | EmptyString => EmptyString
  end.

(** [s.strip()] *)
Definition strip (s : string) : string := rev (lstrip (rev (lstrip s))).

(** [s.startswith(p)] *)
Fixpoint startswith (p s : string) : bool :=
  match p, s with
  | EmptyString, _ => true
  | String a p', String b s' => Ascii.eqb a b && startswith p' s'
  | String _ _, EmptyString => false
  end.

Definition lower_char (c : ascii) : ascii :=
  let n := N_of_ascii c in
  if ((65 <=? n) && (n <=? 90))%N then ascii_of_N (n + 32) else c.

Definition upper_char (c : ascii) : ascii :=
  let n := N_of_ascii c in
  if ((97 <=? n) && (n <=? 122))%N then ascii_of_N (n - 32) else c.

Fixpoint map_chars (f : ascii -> ascii) (s : string) : string :=
  match s with
  | EmptyString => EmptyString
  | String c r => String (f c) (map_chars f r)
  end.

(** [s.lower()] and [s.upper()], on ASCII letters. *)
Definition lower : string -> string := map_chars lower_char.
Definition upper : string -> string := map_chars upper_char.

(** The truth value of a string: [bool(s)]. *)
Definition truthy (s : string) : bool :=
  match s with EmptyString => false | _ => true end.

(** The decimal digits of a natural number, most significant first. *)
Definition digit_char (n : N) : ascii := ascii_of_N (48 + n).

Fixpoint digits_fuel (fuel : nat) (n : N) (acc : string) : string :=
  match fuel with
  | O => String (digit_char (n mod 10)) acc
  | S f =>
      if (n <? 10)%N then String (digit_char n) acc
      else digits_fuel f (n / 10)%N (String (digit_char (n mod 10)) acc)
  end.

Definition digits (n : N) : string :=
  digits_fuel (N.to_nat (N.log2 n)) n EmptyString.

End PyStr.

(** ** Display of an amount *)

Module Display.
Import PyDecimal PyStr.
Local Open Scope string_scope.

(** [format(d, "f")]: fixed-point notation without an exponent. *)
Definition format_f (d : Decimal) : string :=
  let d := if (dcoef d =? 0)%N && (0 <? dexp d)%Z then mkDec (dsign d) 0 0 else d in
  let ds := digits (dcoef d) in
  let dotplace := dexp d + len ds in
  let '(intpart, fracpart) :=
    if (dotplace <? 0)%Z then
      ("0", repeat_char "0" (Z.to_nat (- dotplace)) ++ ds)
    else if (len ds <? dotplace)%Z then
      (ds ++ repeat_char "0" (Z.to_nat (dotplace - len ds)), EmptyString)
    else
      (let i := take (Z.to_nat dotplace) ds in if truthy i then i else "0",
       drop (Z.to_nat dotplace) ds) in
  (if dsign d then "-" else EmptyString) ++ intpart ++
  (if truthy fracpart then "." ++ fracpart else EmptyString).

(** [DECIMALS_DISPLAY = Decimal("0.000001")] *)
Definition DECIMALS_DISPLAY : Decimal := mkDec false 1 (-6).

(** [format_bnb]: [None] when [quantize] raises. *)
Definition format_bnb (d : Decimal) : option string :=
  match quantize_down (dexp DECIMALS_DISPLAY) d with
  | None => None
  | Some q => Some (format_f (normalize q) ++ " BNB")
  end.

End Display.

(** ** Keccak-256 and the EIP-55 checksum

    [eth_utils.to_checksum_address] is not part of the repository. It is
    written out here (Keccak-f[1600] on 64-bit lanes, rate 136 bytes, the
    original Keccak padding) so that the address validator can be run on
    real addresses. *)

Module Keccak.

Definition mask64 : Z := 2 ^ 64 - 1.

Definition rotl (x n : Z) : Z :=
  Z.land (Z.lor (Z.shiftl x n) (Z.shiftr x (64 - n))) mask64.

Definition lane (st : list Z) (x y : Z) : Z :=
  nth (Z.to_nat (x mod 5 + 5 * (y mod 5))) st 0.

Definition build (f : Z -> Z -> Z) : list Z :=
  map (fun i => let i := Z.of_nat i in f (i mod 5) (i / 5)) (seq 0 25).

Definition column (st : list Z) (x : Z) : Z :=
  fold_left Z.lxor (map (lane st x) [1; 2; 3; 4]) (lane st x 0).

Definition theta (st : list Z) : list Z :=
  let c := map (fun x => column st (Z.of_nat x)) (seq 0 5) in
  let cx x := nth (Z.to_nat (x mod 5)) c 0 in
  build (fun x y => Z.lxor (lane st x y) (Z.lxor (cx (x - 1)) (rotl (cx (x + 1)) 1))).

Definition rotation_offsets : list Z :=
  [ 0;  1; 62; 28; 27;
   36; 44;  6; 55; 20;
    3; 10; 43; 25; 39;
   41; 45; 15; 21;  8;
   18;  2; 61; 56; 14].

Definition rho_pi (st : list Z) : list Z :=
  build (fun x y => let x0 := (x + 3 * y) mod 5 in
                    rotl (lane st x0 x) (lane rotation_offsets x0 x)).

Definition chi (st : list Z) : list Z :=
  build (fun x y =>
    Z.lxor (lane st x y)
           (Z.land (Z.lxor (lane st (x + 1) y) mask64) (lane st (x + 2) y))).

Definition round_constants : list Z :=
  [0x0000000000000001; 0x0000000000008082; 0x800000000000808A;
   0x8000000080008000; 0x000000000000808B; 0x0000000080000001;
   0x8000000080008081; 0x8000000000008009; 0x000000000000008A;
   0x0000000000000088; 0x0000000080008009; 0x000000008000000A;
   0x000000008000808B; 0x800000000000008B; 0x8000000000008089;
   0x8000000000008003; 0x8000000000008002; 0x8000000000000080;
   0x000000000000800A; 0x800000008000000A; 0x8000000080008081;
   0x8000000000008080; 0x0000000080000001; 0x8000000080008008].

Definition iota (rc : Z) (st : list Z) : list Z :=
  match st with
  | a :: r => Z.lxor a rc :: r
  | [] => []
  end.

Definition keccak_f (st : list Z) : list Z :=
  fold_left (fun s rc => iota rc (chi (rho_pi (theta s)))) round_constants st.

(** Little-endian bytes to lanes and back. *)
Fixpoint lane_of_bytes (bs : list Z) : Z :=
  match bs with
  | [] => 0
  | b :: r => b + 256 * lane_of_bytes r
  end.

Fixpoint lanes_of_bytes (n : nat) (bs : list Z) : list Z :=
  match n with
  | O => []
  | S k => lane_of_bytes (firstn 8 bs) :: lanes_of_bytes k (skipn 8 bs)
  end.

Definition bytes_of_lane (l : Z) : list Z :=
  map (fun i => Z.land (Z.shiftr l (8 * Z.of_nat i)) 255) (seq 0 8).

Definition rate : nat := 136.

(** pad10*1 with no domain bits: 0x01, zeros, 0x80 (0x81 when they
    fall on the same byte). *)
Definition pad (len : nat) : list Z :=
  let q := (rate - len mod rate)%nat in
  match q with
  | 1%nat => [0x81]
  | _ => 0x01 :: repeat 0 (q - 2) ++ [0x80]
  end.

Fixpoint xor_into (st blk : list Z) : list Z :=
  match st, blk with
  | a :: st', b :: blk' => Z.lxor a b :: xor_into st' blk'
  | _, [] => st
  | [], _ => []
  end.

Fixpoint absorb (blocks : nat) (bs st : list Z) : list Z :=
  match blocks with
  | O => st
  | S k =>
      let st' := keccak_f (xor_into st (lanes_of_bytes 17 (firstn rate bs))) in
      absorb k (skipn rate bs) st'
  end.

Definition keccak256 (msg : list Z) : list Z :=
  let padded := msg ++ pad (length msg) in
  let st := absorb (length padded / rate) padded (repeat 0 25) in
  firstn 32 (concat (map bytes_of_lane st)).

Definition nibbles (bs : list Z) : list Z :=
  concat (map (fun b => [b / 16; b mod 16]) bs).

End Keccak.

Module Eip55.
Import PyStr.

Definition is_hex_digit (c : ascii) : bool :=
  let n := N_of_ascii c in
  (((48 <=? n) && (n <=? 57)) || ((65 <=? n) && (n <=? 70))
   || ((97 <=? n) && (n <=? 102)))%N.

Fixpoint all_chars (p : ascii -> bool) (s : string) : bool :=
  match s with
  | EmptyString => true
  | String c r => p c && all_chars p r
  end.

Definition bytes_of_string (s : string) : list Z :=
  map (fun c => Z.of_N (N_of_ascii c)) (list_ascii_of_string s).

Fixpoint apply_case (hex : list ascii) (hash : list Z) : list ascii :=
  match hex, hash with
  | c :: hex', h :: hash' =>
      (if 7 <? h then upper_char c else c) :: apply_case hex' hash'
  | _, _ => []
  end.

(** [to_checksum_address]: [None] stands for the ValueError raised on a
    value that is not 40 hexadecimal digits after an optional prefix. *)
Definition to_checksum_address (value : string) : option string :=
  let body := if startswith "0x" value || startswith "0X" value
              then drop 2 value else value in
  if (String.length body =? 40)%nat && all_chars is_hex_digit body then
    let norm := lower body in
    let hash := Keccak.nibbles (Keccak.keccak256 (bytes_of_string norm)) in
    Some ("0x" ++ string_of_list_ascii (apply_case (list_ascii_of_string norm) hash))%string
  else None.

End Eip55.

(** ** Time: [datetime] and [timedelta] *)

Module PyTime.

(** A [datetime] is an instant in microseconds since the epoch (UTC for
    an aware one); [now_utc()] always returns an aware one. *)
Inductive datetime : Type :=
| Aware (us : Z)
| Naive (us : Z).

(** A [timedelta] is a number of microseconds. *)
Definition timedelta : Type := Z.

Definition td_hours (h : Z) : timedelta := h * 3600 * 1000000.

(** [td.seconds]: the seconds field of the normalised triple (days,
    seconds, microseconds), between 0 and 86399. *)
Definition td_seconds (d : timedelta) : Z := (d / 1000000) mod 86400.

(** [td.days] *)
Definition td_days (d : timedelta) : Z := d / 86400000000.

(** [a - b]: [None] stands for the TypeError raised when one operand is
    aware and the other naive. *)
Definition dt_sub (a b : datetime) : option timedelta :=
  match a, b with
  | Aware x, Aware y => Some (x - y)
  | Naive x, Naive y => Some (x - y)
  | _, _ => None
  end.

End PyTime.

(** ** The library functions the bot calls

    [int], [datetime.fromisoformat], [datetime.isoformat] and the optional
    [eth_utils] are not code of the repository: the handlers take them as a
    record, and every general statement below holds for any such record.
    [None] stands for a raised exception. *)

Record Library : Type := mkLibrary {
  py_int : string -> option Z;
  fromisoformat : string -> option PyTime.datetime;
  isoformat : Z -> string;
  (** [Some f] when [from eth_utils import ...] succeeded
      ([ETH_UTILS_AVAILABLE]), [f] being [to_checksum_address]. *)
  eth_utils : option (string -> option string)
}.

(** A concrete library, used to run the handlers on examples. *)

Module Concrete.
Import PyStr PyTime.

Definition is_digit (c : ascii) : bool :=
  let n := N_of_ascii c in ((48 <=? n) && (n <=? 57))%N.

Fixpoint read_digits (s : string) (acc : Z) : Z :=
  match s with
  | EmptyString => acc
  | String c r => read_digits r (10 * acc + (Z.of_N (N_of_ascii c) - 48))
  end.

Definition number (s : string) : option Z :=
  if truthy s && Eip55.all_chars is_digit s then Some (read_digits s 0) else None.

(** [int(s)] on an optional sign followed by ASCII digits, with white
    space around. The other texts that Python reads as an integer (digits
    grouped by underscores, digits of other scripts) give [None] here. *)
Definition int_of_string (s : string) : option Z :=
  match strip s with
  | String "-" r => option_map Z.opp (number r)
  | String "+" r => number r
  | r => number r
  end.

(** Exactly [n] digits at the head of [s]. *)
Definition field (n : nat) (s : string) : option (Z * string) :=
  match number (take n s) with
  | Some v => if (String.length (take n s) =? n)%nat then Some (v, drop n s) else None
  | None => None
  end.

Definition expect (c : ascii) (s : string) : option string :=
  match s with
  | String a r => if Ascii.eqb a c then Some r else None
  | EmptyString => None
  end.

Definition is_leap (y : Z) : bool :=
  ((y mod 4 =? 0) && negb (y mod 100 =? 0)) || (y mod 400 =? 0).

Definition days_in_month (y m : Z) : Z :=
  if m =? 2 then (if is_leap y then 29 else 28)
  else if (m =? 4) || (m =? 6) || (m =? 9) || (m =? 11) then 30 else 31.

(** Days since 1970-01-01 of a date of the proleptic Gregorian calendar. *)
Definition days_from_civil (y m d : Z) : Z :=
  let y := if m <=? 2 then y - 1 else y in
  let era := y / 400 in
  let yoe := y - era * 400 in
  let doy := (153 * (if 2 <? m then m - 3 else m + 9) + 2) / 5 + d - 1 in
  let doe := yoe * 365 + yoe / 4 - yoe / 100 + doy in
  era * 146097 + doe - 719468.

Definition civil_from_days (z : Z) : Z * Z * Z :=
  let z := z + 719468 in
  let era := z / 146097 in
  let doe := z - era * 146097 in
  let yoe := (doe - doe / 1460 + doe / 36524 - doe / 146096) / 365 in
  let doy := doe - (365 * yoe + yoe / 4 - yoe / 100) in
  let mp := (5 * doy + 2) / 153 in
  let d := doy - (153 * mp + 2) / 5 + 1 in
  let m := if mp <? 10 then mp + 3 else mp - 9 in
  (yoe + era * 400 + (if m <=? 2 then 1 else 0), m, d).

Definition pad_num (width : nat) (v : Z) : string :=
  let ds := digits (Z.to_N v) in
  repeat_char "0" (width - String.length ds) ++ ds.

(** [dt.isoformat()] of the aware UTC datetime at [us] microseconds. *)
Definition iso_print (us : Z) : string :=
  let '(y, m, d) := civil_from_days (us / 86400000000) in
  let sec := td_seconds us in
  let frac := us mod 1000000 in
  pad_num 4 y ++ "-" ++ pad_num 2 m ++ "-" ++ pad_num 2 d ++ "T" ++
  pad_num 2 (sec / 3600) ++ ":" ++ pad_num 2 (sec mod 3600 / 60) ++ ":" ++
  pad_num 2 (sec mod 60) ++
  (if frac =? 0 then EmptyString else "." ++ pad_num 6 frac) ++ "+00:00".

(** The fraction of a second: ".fff" or ".ffffff". *)
Definition read_fraction (s : string) : option (Z * string) :=
  match expect "." s with
  | None => Some (0, s)
  | Some r =>
      match field 6 r with
      | Some v => Some v
      | None => match field 3 r with
                | Some (v, r') => Some (v * 1000, r')
                | None => None
                end
      end
  end.

(** The UTC offset: nothing (naive), or [+HH:MM] or [-HH:MM]. *)
Definition read_offset (s : string) : option (option Z) :=
  match s with
  | EmptyString => Some None
  | String sg r =>
      if Ascii.eqb sg "+" || Ascii.eqb sg "-" then
        '(h, r) ← field 2 r; r ← expect ":" r; '(mi, r) ← field 2 r;
        if truthy r || negb ((h <? 24) && (mi <? 60)) then None
        else
          let off := (h * 3600 + mi * 60) * 1000000 in
          Some (Some (if Ascii.eqb sg "-" then - off else off))
      else None
  end.

(** [datetime.fromisoformat] on the strings [isoformat] emits:
    [YYYY-MM-DD], then optionally a separator, [HH:MM:SS], a fraction
    and an offset. The other ISO 8601 forms that Python reads (a [Z]
    suffix, a time without seconds, the basic format, a fraction of other
    than three or six digits) give [None] here. *)
Definition iso_parse (s : string) : option datetime :=
  '(y, s) ← field 4 s; s ← expect "-" s;
  '(m, s) ← field 2 s; s ← expect "-" s;
  '(d, s) ← field 2 s;
  if negb ((1 <=? y) && (1 <=? m) && (m <=? 12) && (1 <=? d)
           && (d <=? days_in_month y m)) then None
  else
    let day := days_from_civil y m d * 86400000000 in
    match s with
    | EmptyString => Some (Naive day)
    | String _ s =>
        '(hh, s) ← field 2 s; s ← expect ":" s;
        '(mi, s) ← field 2 s; s ← expect ":" s;
        '(ss, s) ← field 2 s;
        '(fr, s) ← read_fraction s;
        if negb ((hh <? 24) && (mi <? 60) && (ss <? 60)) then None
        else
          let t := day + ((hh * 3600 + mi * 60 + ss) * 1000000 + fr) in
          off ← read_offset s;
          Some (match off with
                | None => Naive t
                | Some o => Aware (t - o)
                end)
    end.

Definition pylib : Library :=
  mkLibrary int_of_string iso_parse iso_print (Some Eip55.to_checksum_address).

(** The same interpreter without [eth_utils] installed. *)
Definition pylib_no_eth : Library :=
  mkLibrary int_of_string iso_parse iso_print None.

End Concrete.

(** ** Configuration and storage *)

Import PyDecimal PyStr PyTime Display.

(** The environment options read at start-up. *)
Record Config : Type := mkConfig {
  ADMIN_ID : Z;
  REF_BONUS : Decimal;
  DAILY_BONUS : Decimal;
  MIN_WITHDRAW : Decimal
}.

(** A row of the table [users]; the key [telegram_id] is the key of the map. *)
Record User : Type := mkUser {
  username : option string;
  balance : Decimal;
  referrals : Z;
  referred_by : option Z;
  wallet : option string;
  last_bonus : option string;
  joined_channel : Z;
  subscribed_yt : Z;
  last_bot_message_id : option Z
}.

Inductive Status : Type := pending | approved | rejected.

(** A row of the table [withdrawals]; the AUTOINCREMENT [id] of the row at
    position [i] of the list is [i + 1] (rows are never deleted). *)
Record Withdrawal : Type := mkWithdrawal {
  w_telegram_id : Z;
  amount : Decimal;
  w_wallet : string;
  status : Status;
  created_at : Z
}.

Record Db : Type := mkDb {
  users : gmap Z User;
  withdrawals : list Withdrawal
}.

(** The database together with the in-memory state of the process: the
    module-level dict [pending_rejects] and the users whose
    [context.user_data["awaiting_wallet"]] is set. *)
Record World : Type := mkWorld {
  db : Db;
  pending_rejects : gmap Z Z;
  awaiting_wallet : gset Z
}.

Definition empty_db : Db := mkDb ∅ [].
Definition empty_world : World := mkWorld empty_db ∅ ∅.

Global Instance Status_eq_dec : EqDecision Status.
Proof. solve_decision. Defined.

Definition set_users (d : Db) (us : gmap Z User) : Db := mkDb us (withdrawals d).

Definition update_user (f : User -> User) (tid : Z) (d : Db) : Db :=
  set_users d (alter f tid (users d)).

Definition with_balance (b : Decimal) (u : User) : User :=
  mkUser (username u) b (referrals u) (referred_by u) (wallet u) (last_bonus u)
         (joined_channel u) (subscribed_yt u) (last_bot_message_id u).

Definition with_referrals (n : Z) (u : User) : User :=
  mkUser (username u) (balance u) n (referred_by u) (wallet u) (last_bonus u)
         (joined_channel u) (subscribed_yt u) (last_bot_message_id u).

Definition with_wallet (a : option string) (u : User) : User :=
  mkUser (username u) (balance u) (referrals u) (referred_by u) a (last_bonus u)
         (joined_channel u) (subscribed_yt u) (last_bot_message_id u).

Definition with_last_bonus (t : option string) (u : User) : User :=
  mkUser (username u) (balance u) (referrals u) (referred_by u) (wallet u) t
         (joined_channel u) (subscribed_yt u) (last_bot_message_id u).

Definition with_joined_channel (v : Z) (u : User) : User :=
  mkUser (username u) (balance u) (referrals u) (referred_by u) (wallet u)
         (last_bonus u) v (subscribed_yt u) (last_bot_message_id u).

Definition with_subscribed_yt (v : Z) (u : User) : User :=
  mkUser (username u) (balance u) (referrals u) (referred_by u) (wallet u)
         (last_bonus u) (joined_channel u) v (last_bot_message_id u).

Definition with_last_bot_message_id (m : option Z) (u : User) : User :=
  mkUser (username u) (balance u) (referrals u) (referred_by u) (wallet u)
         (last_bonus u) (joined_channel u) (subscribed_yt u) m.

Definition with_status (st : Status) (w : Withdrawal) : Withdrawal :=
  mkWithdrawal (w_telegram_id w) (amount w) (w_wallet w) st (created_at w).

(** *** DB helpers *)

Definition get_user_row (d : Db) (tid : Z) : option User := users d !! tid.

(** [x or None] on an optional string. *)
Definition or_none (x : option string) : option string :=
  match x with
  | Some s => if truthy s then Some s else None
  | None => None
  end.

(** [INSERT OR IGNORE]: the row is created with the defaults of the table
    when the key is free, and nothing changes otherwise. *)
Definition ensure_user (d : Db) (tid : Z) (uname : option string)
    (ref : option Z) : Db :=
  match users d !! tid with
  | Some _ => d
  | None =>
      set_users d (<[tid := mkUser (or_none uname) Dzero 0 ref None None 0 0 None]>
                     (users d))
  end.

Definition add_balance (d : Db) (tid : Z) (amt : Decimal) : Db :=
  let d := ensure_user d tid None None in
  let cur := match get_user_row d tid with
             | Some row => balance row
             | None => Dzero
             end in
  update_user (with_balance (Dadd cur amt)) tid d.

Definition set_balance (d : Db) (tid : Z) (amt : Decimal) : Db :=
  update_user (with_balance amt) tid (ensure_user d tid None None).

Definition inc_referrals (d : Db) (tid : Z) : Db :=
  update_user (fun u => with_referrals (referrals u + 1) u) tid d.

Definition set_wallet (d : Db) (tid : Z) (addr : string) : Db :=
  update_user (with_wallet (Some addr)) tid (ensure_user d tid None None).

Definition record_last_bonus (lib : Library) (d : Db) (tid : Z) (dt : Z) : Db :=
  update_user (with_last_bonus (Some (isoformat lib dt))) tid
              (ensure_user d tid None None).

Definition set_joined_flag (d : Db) (tid : Z) (val : Z) : Db :=
  update_user (with_joined_channel val) tid (ensure_user d tid None None).

Definition set_subscribed_flag (d : Db) (tid : Z) (val : Z) : Db :=
  update_user (with_subscribed_yt val) tid (ensure_user d tid None None).

(** Returns the new database and [lastrowid]. *)
Definition create_withdrawal (d : Db) (tid : Z) (amt : Decimal) (addr : string)
    (now : Z) : Db * Z :=
  (mkDb (users d) (withdrawals d ++ [mkWithdrawal tid amt addr pending now]),
   Z.of_nat (length (withdrawals d)) + 1).

Definition get_withdrawal (d : Db) (wid : Z) : option Withdrawal :=
  if 1 <=? wid then withdrawals d !! Z.to_nat (wid - 1) else None.

Definition mark_withdrawal (d : Db) (wid : Z) (st : Status) : Db :=
  if 1 <=? wid
  then mkDb (users d) (alter (with_status st) (Z.to_nat (wid - 1)) (withdrawals d))
  else d.

Definition user_is_verified (d : Db) (tid : Z) : bool :=
  match get_user_row d tid with
  | None => false
  | Some row => (joined_channel row =? 1) && (subscribed_yt row =? 1)
  end.

Definition save_last_bot_message (d : Db) (tid : Z) (message_id : Z) : Db :=
  update_user (with_last_bot_message_id (Some message_id)) tid d.

(** [safe_send_and_store]: [sent] is the id Telegram gave to the message,
    [None] when sending failed (nothing is stored then). *)
Definition safe_send_and_store (d : Db) (chat_id : Z) (sent : option Z) : Db :=
  match sent with
  | Some mid => save_last_bot_message d chat_id mid
  | None => d
  end.

(** ** The address validator *)

Definition is_valid_bsc_address (lib : Library) (addr : string) : bool :=
  let addr := strip addr in
  if negb (startswith "0x" addr && (len addr =? 42)) then false
  else
    match eth_utils lib with
    | Some to_checksum_address =>
        match to_checksum_address addr with
        | Some checksum =>
            if String.eqb addr checksum || String.eqb (lower addr) addr
               || String.eqb (upper addr) addr
            then true else true
        | None => false
        end
    | None => true
    end.

(** ** Handlers

    [reply] is the answer of a handler to the actor, [notices] are the
    messages it sends to other chats; failures of those sends are caught by
    the handlers and change nothing. *)

Inductive Reply : Type :=
| Welcome                                  (* asks to join and subscribe *)
| MainMenu
| NotMemberYet
| CouldNotVerify
| VerificationComplete
| NotVerified
| CooldownActive (hours minutes : Z)       (* "Already claimed. Try again in ..." *)
| BonusGranted
| AskWallet
| WalletSaved (addr : string)
| InvalidAddressFormat
| UseMenu
| BelowMinimum (minimum bal : Decimal)
| NoPayoutAddress
| WithdrawalSubmitted
| WithdrawalNotSent                        (* the operator could not be reached *)
| Unauthorized
| InvalidCallback
| NotFound
| AlreadyTerminal (current : Status)       (* "Withdrawal already ..." *)
| Approved (wid tid : Z) (amt : Decimal)
| AskRejectReason (wid : Z)
| RejectNotFound                           (* "not found or already processed" *)
| RejectionProcessed (wid : Z)
| AccountSummary (bal : Decimal) (refs : Z) (addr last : option string)
| ReferralLink (tid : Z)
| AdminStats (total_users total_refs pending_count : Z)
| Raised.                                  (* an exception left the handler *)

Inductive Notice : Type :=
| ReferralEarned (amt : Decimal)
| NewUserStarted (tid : Z)
| WithdrawRequest (wid tid : Z) (amt : Decimal) (addr : string) (refs : Z)
| WithdrawalApproved (amt : Decimal)
| WithdrawalRejected (wid : Z) (reason : string).

Record Result : Type := mkResult {
  world : World;
  reply : Reply;
  notices : list (Z * Notice)
}.

Definition set_db (w : World) (d : Db) : World :=
  mkWorld d (pending_rejects w) (awaiting_wallet w).

Section Handlers.

Variable lib : Library.
Variable cfg : Config.

Definition parse_ref_arg (args : list string) : option Z :=
  match args with
  | a :: _ =>
      let token := strip a in
      if startswith "ref=" token then py_int lib (drop 4 token)
      else if startswith "ref" token then py_int lib (drop 3 token)
      else None
  | [] => None
  end.

(** The referrer to credit, if any: [ref_id and ref_id != tid]. *)
Definition credited_referrer (ref_id : option Z) (tid : Z) : option Z :=
  match ref_id with
  | Some r => if negb (r =? 0) && negb (r =? tid) then Some r else None
  | None => None
  end.

Definition verified_menu (d : Db) (tid : Z) : Reply :=
  if user_is_verified d tid then MainMenu else Welcome.

(** [/start] *)
Definition start_cmd (w : World) (tid : Z) (uname : option string)
    (args : list string) (sent : option Z) : Result :=
  let ref_id := parse_ref_arg args in
  let d := ensure_user (db w) tid uname ref_id in
  match credited_referrer ref_id tid with
  | Some r =>
      let d := ensure_user d r None None in
      let d := add_balance d r (REF_BONUS cfg) in
      let d := inc_referrals d r in
      mkResult (set_db w (safe_send_and_store d tid sent)) (verified_menu d tid)
               [(r, ReferralEarned (REF_BONUS cfg)); (ADMIN_ID cfg, NewUserStarted tid)]
  | None =>
      mkResult (set_db w (safe_send_and_store d tid sent)) (verified_menu d tid)
               [(ADMIN_ID cfg, NewUserStarted tid)]
  end.

(** The button "I Joined & Subscribed": [member] is the status returned
    by [get_chat_member], [None] when the lookup raised. *)
Definition check_both_callback (w : World) (tid : Z) (member : option string)
    (sent : option Z) : Result :=
  match member with
  | None => mkResult w CouldNotVerify []
  | Some st =>
      if String.eqb st "member" || String.eqb st "administrator"
         || String.eqb st "creator" then
        let d := set_joined_flag (db w) tid 1 in
        let d := set_subscribed_flag d tid 1 in
        mkResult (set_db w (safe_send_and_store d tid sent)) VerificationComplete []
      else mkResult w NotMemberYet []
  end.

(** [/balance] *)
Definition my_balance_action (w : World) (tid : Z) (sent : option Z) : Result :=
  mkResult (set_db w (safe_send_and_store (db w) tid sent))
    (if negb (user_is_verified (db w) tid) then NotVerified
     else match get_user_row (db w) tid with
          | Some row => AccountSummary (balance row) (referrals row)
                                       (or_none (wallet row)) (or_none (last_bonus row))
          | None => AccountSummary Dzero 0 None None
          end) [].

(** [/referral] and the main menu only answer in the chat. *)
Definition referral_action (w : World) (tid : Z) (sent : option Z) : Result :=
  mkResult (set_db w (safe_send_and_store (db w) tid sent)) (ReferralLink tid) [].

Definition main_menu_callback (w : World) (tid : Z) (sent : option Z) : Result :=
  mkResult (set_db w (safe_send_and_store (db w) tid sent)) MainMenu [].

(** [/admin_stats]: the counts are read from both tables (the sum of the
    pending amounts, computed by SQLite in floating point, is left out). *)
Definition admin_stats_cmd (w : World) (uid : Z) (sent : option Z) : Result :=
  if negb (uid =? ADMIN_ID cfg) then mkResult w Unauthorized []
  else
    let rows := map_to_list (users (db w)) in
    let pend := filter (fun x => status x = pending) (withdrawals (db w)) in
    mkResult (set_db w (safe_send_and_store (db w) (ADMIN_ID cfg) sent))
             (AdminStats (Z.of_nat (length rows))
                         (foldr (fun r acc => referrals (snd r) + acc) 0 rows)
                         (Z.of_nat (length pend))) [].

(** [/claim]: [now] is the clock read for the cooldown test, [now'] the
    clock read when the grant is recorded. *)
Definition claim_daily_action (w : World) (tid : Z) (now now' : Z)
    (sent : option Z) : Result :=
  if negb (user_is_verified (db w) tid) then
    mkResult (set_db w (safe_send_and_store (db w) tid sent)) NotVerified []
  else
    let d := ensure_user (db w) tid None None in
    let row := get_user_row d tid in
    let last :=
      match row with
      | Some r =>
          match last_bonus r with
          | Some s => if truthy s then fromisoformat lib s else None
          | None => None
          end
      | None => None
      end in
    let grant :=
      let d := add_balance d tid (DAILY_BONUS cfg) in
      let d := record_last_bonus lib d tid now' in
      mkResult (set_db w (safe_send_and_store d tid sent)) BonusGranted [] in
    match last with
    | Some l =>
        match dt_sub (Aware now) l with
        | None => mkResult (set_db w d) Raised []
        | Some diff =>
            if diff <? td_hours 24 then
              let remaining := td_hours 24 - diff in
              let hours := td_seconds remaining / 3600 in
              let minutes := td_seconds remaining mod 3600 / 60 in
              mkResult (set_db w (safe_send_and_store d tid sent))
                       (CooldownActive hours minutes) []
            else grant
        end
    | None => grant
    end.

(** [/setwallet]: the flag is set after the prompt has been sent, so it
    stays unset when sending fails. *)
Definition set_wallet_prompt (w : World) (tid : Z) (sent : option Z) : Result :=
  mkResult (mkWorld (safe_send_and_store (db w) tid sent) (pending_rejects w)
                    (match sent with
                     | Some _ => {[tid]} ∪ awaiting_wallet w
                     | None => awaiting_wallet w
                     end))
           AskWallet [].

(** A text message that is not a command. *)
Definition message_handler (w : World) (tid : Z) (text : string)
    (sent : option Z) : Result :=
  let text := strip text in
  match (if tid =? ADMIN_ID cfg then pending_rejects w !! ADMIN_ID cfg else None) with
  | Some wid =>
      let w := mkWorld (db w) (delete (ADMIN_ID cfg) (pending_rejects w))
                       (awaiting_wallet w) in
      let reason := strip text in
      match get_withdrawal (db w) wid with
      | None =>
          mkResult (set_db w (safe_send_and_store (db w) (ADMIN_ID cfg) sent))
                   RejectNotFound []
      | Some row =>
          let d := mark_withdrawal (db w) wid rejected in
          mkResult (set_db w (safe_send_and_store d (ADMIN_ID cfg) sent))
                   (RejectionProcessed wid)
                   [(w_telegram_id row, WithdrawalRejected wid reason)]
      end
  | None =>
      if decide (tid ∈ awaiting_wallet w) then
        let w := mkWorld (db w) (pending_rejects w) (awaiting_wallet w ∖ {[tid]}) in
        if is_valid_bsc_address lib text then
          let d := set_wallet (db w) tid text in
          mkResult (set_db w (safe_send_and_store d tid sent)) (WalletSaved text) []
        else
          mkResult (set_db w (safe_send_and_store (db w) tid sent))
                   InvalidAddressFormat []
      else
        mkResult (set_db w (safe_send_and_store (db w) tid sent))
                 (if user_is_verified (db w) tid then UseMenu else NotVerified) []
  end.

(** [/withdraw]: [now] is the CURRENT_TIMESTAMP of the insert,
    [admin_ok] tells whether the request reached the operator. *)
Definition withdraw_action (w : World) (tid : Z) (now : Z) (admin_ok : bool)
    (sent : option Z) : Result :=
  if negb (user_is_verified (db w) tid) then
    mkResult (set_db w (safe_send_and_store (db w) tid sent)) NotVerified []
  else
    let d := ensure_user (db w) tid None None in
    let row := get_user_row d tid in
    let bal := match row with Some r => balance r | None => Dzero end in
    let addr := match row with Some r => or_none (wallet r) | None => None end in
    let refs := match row with Some r => referrals r | None => 0 end in
    if Dlt bal (MIN_WITHDRAW cfg) then
      mkResult (set_db w (safe_send_and_store d tid sent))
               (BelowMinimum (MIN_WITHDRAW cfg) bal) []
    else
      match addr with
      | None =>
          mkResult (set_db w (safe_send_and_store d tid sent)) NoPayoutAddress []
      | Some a =>
          let '(d, wid) := create_withdrawal d tid bal a now in
          if admin_ok then
            mkResult (set_db w (safe_send_and_store d tid sent)) WithdrawalSubmitted
                     [(ADMIN_ID cfg, WithdrawRequest wid tid bal a refs)]
          else
            mkResult (set_db w (safe_send_and_store d tid sent)) WithdrawalNotSent []
      end.

(** [data.split(":")] *)
Fixpoint split_colon (s cur : string) : list string :=
  match s with
  | EmptyString => [rev cur]
  | String c r =>
      if Ascii.eqb c ":" then rev cur :: split_colon r EmptyString
      else split_colon r (String c cur)
  end.

(** [action, wid_s = data.split(":"); wid = int(wid_s)] *)
Definition parse_callback (data : string) : option (string * Z) :=
  match split_colon data EmptyString with
  | [action; wid_s] =>
      match py_int lib wid_s with
      | Some wid => Some (action, wid)
      | None => None
      end
  | _ => None
  end.

(** The buttons [approve:<id>] and [reject:<id>]. *)
Definition approve_reject_callback (w : World) (operator : Z) (data : string)
    : Result :=
  if negb (operator =? ADMIN_ID cfg) then mkResult w Unauthorized []
  else
    match parse_callback data with
    | None => mkResult w InvalidCallback []
    | Some (action, wid) =>
        match get_withdrawal (db w) wid with
        | None => mkResult w NotFound []
        | Some row =>
            if negb (bool_decide (status row = pending)) then
              mkResult w (AlreadyTerminal (status row)) []
            else
              let tid := w_telegram_id row in
              if String.eqb action "approve" then
                let d := mark_withdrawal (db w) wid approved in
                let d := set_balance d tid Dzero in
                mkResult (set_db w d) (Approved wid tid (amount row))
                         [(tid, WithdrawalApproved (amount row))]
              else
                mkResult (mkWorld (db w) (<[ADMIN_ID cfg := wid]> (pending_rejects w))
                                  (awaiting_wallet w))
                         (AskRejectReason wid) []
        end
    end.

End Handlers.

(** ** The bot as a transition system *)

(** One update delivered to the bot, with what the outside world answers
    while it is handled. *)
Inductive Event : Type :=
| EvStart (tid : Z) (uname : option string) (args : list string) (sent : option Z)
| EvCheckBoth (tid : Z) (member : option string) (sent : option Z)
| EvBalance (tid : Z) (sent : option Z)
| EvReferral (tid : Z) (sent : option Z)
| EvMainMenu (tid : Z) (sent : option Z)
| EvAdminStats (uid : Z) (sent : option Z)
| EvClaim (tid now now' : Z) (sent : option Z)
| EvSetWallet (tid : Z) (sent : option Z)
| EvMessage (tid : Z) (text : string) (sent : option Z)
| EvWithdraw (tid now : Z) (admin_ok : bool) (sent : option Z)
| EvCallback (operator : Z) (data : string).

Definition step (lib : Library) (cfg : Config) (w : World) (e : Event) : Result :=
  match e with
  | EvStart tid uname args sent => start_cmd lib cfg w tid uname args sent
  | EvCheckBoth tid member sent => check_both_callback w tid member sent
  | EvBalance tid sent => my_balance_action w tid sent
  | EvReferral tid sent => referral_action w tid sent
  | EvMainMenu tid sent => main_menu_callback w tid sent
  | EvAdminStats uid sent => admin_stats_cmd cfg w uid sent
  | EvClaim tid now now' sent => claim_daily_action lib cfg w tid now now' sent
  | EvSetWallet tid sent => set_wallet_prompt w tid sent
  | EvMessage tid text sent => message_handler lib cfg w tid text sent
  | EvWithdraw tid now admin_ok sent => withdraw_action cfg w tid now admin_ok sent
  | EvCallback operator data => approve_reject_callback lib cfg w operator data
  end.

(** The world after a sequence of updates, handled one at a time. *)
Definition run (lib : Library) (cfg : Config) (w : World) (es : list Event) : World :=
  fold_left (fun w e => world (step lib cfg w e)) es w.

(** The configuration of the defaults of [bot.py]: REF_BONUS 0.01,
    DAILY_BONUS 0.001, MIN_WITHDRAW 0.5; the operator has id 1000. *)
Definition default_config : Config :=
  mkConfig 1000 (mkDec false 1 (-2)) (mkDec false 1 (-3)) (mkDec false 5 (-1)).

(** ** Vocabulary of the statements *)

(** No stored balance is negative. *)
Definition balances_nonneg (d : Db) : Prop :=
  forall tid u, users d !! tid = Some u -> Dnonneg (balance u).

(** The row a successful request appends. *)
Definition requested (d : Db) (tid : Z) (u : User) (a : string) (now : Z) : Db :=
  mkDb (users d) (withdrawals d ++ [mkWithdrawal tid (balance u) a pending now]).

(** The columns of the ledger: a row of [users] without the id of the last
    message the bot posted in the chat. *)
Definition ledger_part (u : User) : User := with_last_bot_message_id None u.

(** What [/claim] reads from the column [last_bonus]. *)
Definition read_last_bonus (lib : Library) (u : User) : option datetime :=
  match last_bonus u with
  | Some s => if truthy s then fromisoformat lib s else None
  | None => None
  end.

(** The row of a user after a grant of the daily bonus recorded at [now']. *)
Definition bonus_granted (lib : Library) (cfg : Config) (now' : Z) (u : User) : User :=
  with_last_bonus (Some (isoformat lib now'))
                  (with_balance (Dadd (balance u) (DAILY_BONUS cfg)) u).

Definition stamp (sent : option Z) (u : User) : User :=
  match sent with
  | Some mid => with_last_bot_message_id (Some mid) u
  | None => u
  end.

(** The replies by which [/withdraw] refuses a request. *)
Definition refusal (r : Reply) : Prop :=
  match r with
  | NotVerified | BelowMinimum _ _ | NoPayoutAddress => True
  | _ => False
  end.

(** Rule 2 of the specification, in its words: with the checksum form
    [c] of the address, accept when the input equals [c], or is entirely
    lowercase, or is entirely uppercase. *)
Definition checksum_rule (addr c : string) : bool :=
  String.eqb addr c || String.eqb (lower addr) addr || String.eqb (upper addr) addr.

(** Alice's address with the case of its first letter flipped. *)
Definition flipped_address : string := "0x5AAeb6053F3E94C9b9A09f33669435E7Ef1BeAed".

(** The coefficient of the amount cut at the sixth decimal. *)
Definition cut6 (d : Decimal) : N :=
  if -6 <=? dexp d then (dcoef d * pow10 (dexp d + 6))%N
  else (dcoef d / pow10 (-6 - dexp d))%N.

(** The number written by a string of decimal digits. *)
Fixpoint digits_value (s : string) : N :=
  match s with
  | EmptyString => 0
  | String c r =>
      ((N_of_ascii c - 48) * 10 ^ N.of_nat (String.length r) + digits_value r)%N
  end.

Fixpoint before_dot (s : string) : string :=
  match s with
  | EmptyString => EmptyString
  | String c r => if Ascii.eqb c "." then EmptyString else String c (before_dot r)
  end.

Fixpoint after_dot (s : string) : option string :=
  match s with
  | EmptyString => None
  | String c r => if Ascii.eqb c "." then Some r else after_dot r
  end.

Definition all_digits (s : string) : bool := Eip55.all_chars Concrete.is_digit s.

(** Digits, then optionally a point and more digits: the coefficient and
    the exponent written. *)
Definition read_unsigned (s : string) : option (N * Z) :=
  let ip := before_dot s in
  match after_dot s with
  | None =>
      if truthy ip && all_digits ip then Some (digits_value ip, 0) else None
  | Some fp =>
      if truthy ip && all_digits ip && truthy fp && all_digits fp
      then Some (digits_value (ip ++ fp), - len fp) else None
  end.

(** The Decimal a fixed-point text denotes. *)
Definition read_fixed (s : string) : option Decimal :=
  match s with
  | EmptyString => None
  | String c r =>
      if Ascii.eqb c "-"
      then match read_unsigned r with
           | Some (n, e) => Some (mkDec true n e)
           | None => None
           end
      else match read_unsigned s with
           | Some (n, e) => Some (mkDec false n e)
           | None => None
           end
  end.

(** ** Scenarios *)

(** The set-up of the scenarios: Alice starts the bot, is verified, saves a
    checksummed address, and fifty new users arrive through her link. *)
Definition alice : Z := 42.
Definition alice_address : string := "0x5aAeb6053F3E94C9b9A09f33669435E7Ef1BeAed".

Definition onboarding : list Event :=
  [EvStart alice (Some "alice"%string) [] (Some 1);
   EvCheckBoth alice (Some "member"%string) (Some 2);
   EvSetWallet alice (Some 3);
   EvMessage alice alice_address (Some 4)].

Definition fifty_referrals : list Event :=
  map (fun i => EvStart (100 + Z.of_nat i) None ["ref42"%string] None) (seq 0 50).

Definition funded_world : World :=
  run Concrete.pylib default_config empty_world (onboarding ++ fifty_referrals).

(** Alice has asked for a withdrawal at time 1000. *)
Definition requested_world : World :=
  world (withdraw_action default_config funded_world alice 1000 true (Some 5)).

(** Alice verified and with an address, but without any credit yet. *)
Definition unfunded_world : World :=
  run Concrete.pylib default_config empty_world onboarding.

(** Bob is verified and has fifty referrals, but has stored no address. *)
Definition bob : Z := 43.

Definition bob_world : World :=
  run Concrete.pylib default_config empty_world
    ([EvStart bob (Some "bob"%string) [] (Some 1);
      EvCheckBoth bob (Some "creator"%string) (Some 2)]
     ++ map (fun i => EvStart (100 + Z.of_nat i) None ["ref=43"%string] None) (seq 0 50)).

(** Carol is verified, and has neither a balance nor an address. *)
Definition carol : Z := 44.

Definition carol_world : World :=
  run Concrete.pylib default_config empty_world
    [EvStart carol (Some "carol"%string) [] (Some 1);
     EvCheckBoth carol (Some "member"%string) (Some 2)].

(** Alice's row with a text in [last_bonus] that is not a timestamp. *)
Definition corrupted_world : World :=
  set_db unfunded_world
         (update_user (with_last_bonus (Some "yesterday"%string)) alice (db unfunded_world)).

(** Request 1 approved. *)
Definition approved_world : World :=
  world (approve_reject_callback Concrete.pylib default_config requested_world
                                 1000 "approve:1").

(** ** Further definitions: the rest of the storage layer *)

(** [get_last_bot_message_id] *)
Definition get_last_bot_message_id (d : Db) (tid : Z) : option Z :=
  match get_user_row d tid with
  | Some row => last_bot_message_id row
  | None => None
  end.

(** The row [ensure_user] inserts. *)
Definition new_user (uname : option string) (ref : option Z) : User :=
  mkUser (or_none uname) Dzero 0 ref None None 0 0 None.

(** Every row of [d] is still there in [d'], changed at most as [R] allows. *)
Definition rows_related (R : User -> User -> Prop) (d d' : Db) : Prop :=
  forall t u, users d !! t = Some u -> exists u', users d' !! t = Some u' /\ R u u'.

(** The two flags of a row that make its user verified. *)
Definition row_verified (u : User) : bool :=
  (joined_channel u =? 1) && (subscribed_yt u =? 1).

(** The columns of a withdrawal that are written once, at its creation. *)
Definition request_of (r : Withdrawal) : Z * Decimal * string * Z :=
  (w_telegram_id r, amount r, w_wallet r, created_at r).

(** An update sent by the operator that can adjudicate a request: a
    button press or a text message. *)
Definition operator_event (cfg : Config) (e : Event) : Prop :=
  match e with
  | EvCallback operator _ => operator = ADMIN_ID cfg
  | EvMessage tid _ _ => tid = ADMIN_ID cfg
  | _ => False
  end.

(** The statuses of [get_chat_member] that count as membership. *)
Definition is_member_status (st : string) : bool :=
  String.eqb st "member" || String.eqb st "administrator" || String.eqb st "creator".

(** The ways one update changes the ledger columns of the row of user [t]:
    not at all; a referral credit, when a [/start] names [t] as referrer; a
    grant of the daily bonus, on a [/claim] of [t]; the balance set to zero,
    when the operator approves a pending request of [t]; an address stored,
    on a text message of [t]; both flags set, on the verification button. *)
Inductive row_change (lib : Library) (cfg : Config) (w : World) (e : Event) (t : Z)
    : User -> User -> Prop :=
| rc_same u : row_change lib cfg w e t u u
| rc_credit u tid un args sent :
    e = EvStart tid un args sent ->
    credited_referrer (parse_ref_arg lib args) tid = Some t ->
    row_change lib cfg w e t u
      (with_referrals (referrals u + 1)
         (with_balance (Dadd (balance u) (REF_BONUS cfg)) u))
| rc_grant u now now' sent :
    e = EvClaim t now now' sent ->
    row_verified u = true ->
    row_change lib cfg w e t u (bonus_granted lib cfg now' u)
| rc_zero u data wid row :
    e = EvCallback (ADMIN_ID cfg) data ->
    parse_callback lib data = Some ("approve"%string, wid) ->
    get_withdrawal (db w) wid = Some row ->
    status row = pending ->
    w_telegram_id row = t ->
    row_change lib cfg w e t u (with_balance Dzero u)
| rc_wallet u text sent :
    e = EvMessage t text sent ->
    is_valid_bsc_address lib (strip text) = true ->
    row_change lib cfg w e t u (with_wallet (Some (strip text)) u)
| rc_verify u st sent :
    e = EvCheckBoth t (Some st) sent ->
    is_member_status st = true ->
    row_change lib cfg w e t u (with_subscribed_yt 1 (with_joined_channel 1 u)).

(** The row of [t] before an update, for a row found after it: the row
    stored, or the row [ensure_user] creates. *)
Definition row_before (d : Db) (t : Z) (u : User) : Prop :=
  users d !! t = Some u \/
  (users d !! t = None /\ exists un r, u = new_user un r).

(** The balance [add_balance] starts from: the stored one, zero for a
    user without a row. *)
Definition balance_before (d : Db) (t : Z) : Decimal :=
  match users d !! t with Some u => balance u | None => Dzero end.

(** The shape the validator asks for: [0x] and forty more characters. *)
Definition well_formed_address (a : string) : Prop :=
  startswith "0x" a = true /\ len a = 42.

(** Every stored payout address went through the validator. *)
Definition wallets_well_formed (lib : Library) (d : Db) : Prop :=
  forall t u a, users d !! t = Some u -> wallet u = Some a ->
    well_formed_address a /\ is_valid_bsc_address lib a = true.

(** Every request on file belongs to a verified user, is for an amount
    not below the minimum, and carries an address that went through the
    validator. *)
Definition requests_sound (lib : Library) (cfg : Config) (d : Db) : Prop :=
  forall wid r, get_withdrawal d wid = Some r ->
    user_is_verified d (w_telegram_id r) = true /\
    Dlt (amount r) (MIN_WITHDRAW cfg) = false /\
    well_formed_address (w_wallet r) /\
    is_valid_bsc_address lib (w_wallet r) = true.

(** The arguments of [/start] name no referrer to credit: none is read,
    or it is 0, or it is the sender. *)
Definition names_no_referrer (lib : Library) (args : list string) (tid : Z) : Prop :=
  parse_ref_arg lib args = None \/ parse_ref_arg lib args = Some 0 \/
  parse_ref_arg lib args = Some tid.

(** The row [add_balance] and [inc_referrals] leave for a referrer who
    had none. *)
Definition first_credit (cfg : Config) : User :=
  mkUser None (Dadd Dzero (REF_BONUS cfg)) 1 None None None 0 0 None.

(** Every entry of [pending_rejects] is the operator's and names a
    request on file. *)
Definition intents_sound (cfg : Config) (w : World) : Prop :=
  forall k wid, pending_rejects w !! k = Some wid ->
    k = ADMIN_ID cfg /\ exists row, get_withdrawal (db w) wid = Some row.

(** The updates that only show something. *)
Definition display_event (e : Event) : bool :=
  match e with
  | EvBalance _ _ | EvReferral _ _ | EvMainMenu _ _ | EvAdminStats _ _ => true
  | _ => false
  end.

(** The sender's text is not awaited as the reason of a rejection. *)
Definition no_reject_intent (cfg : Config) (w : World) (tid : Z) : Prop :=
  tid = ADMIN_ID cfg -> pending_rejects w !! ADMIN_ID cfg = None.

(** An address of the right shape that is not hexadecimal. *)
Definition not_hex_address : string := "0xzzzzzzzzzzzzzzzzzzzzzzzzzzzzzzzzzzzzzzzz".

(** [str(z)] on an integer, as the f-strings of the handlers write it. *)
Definition str_int (z : Z) : string :=
  if z <? 0 then String "-" (digits (Z.to_N (- z))) else digits (Z.to_N z).

(** The start parameter of the link shown by [referral_action]:
    [f"...?start=ref{tid}"]; Telegram hands it to [/start] as its first
    argument. *)
Definition referral_token (tid : Z) : string := ("ref" ++ str_int tid)%string.

(** The data of the buttons under a request: [f"approve:{wid}"] and
    [f"reject:{wid}"]. *)
Definition callback_data (action : string) (wid : Z) : string :=
  (action ++ ":" ++ str_int wid)%string.

Definition no_space (s : string) : bool :=
  Eip55.all_chars (fun c => negb (is_space c)) s.

(** The updates that are answered only to verified users: [/balance],
    [/claim] and [/withdraw] of [tid]. *)
Definition gated_event (e : Event) (tid : Z) : Prop :=
  match e with
  | EvBalance t _ | EvClaim t _ _ _ | EvWithdraw t _ _ _ => t = tid
  | _ => False
  end.

(** ** The balance as text

    The columns [balance] and [amount] are TEXT: the helpers write
    [str(d)] and the handlers read the text back through [to_decimal]. *)

(** ["%+d" % z] *)
Definition signed_int (z : Z) : string :=
  if z <? 0 then String "-" (digits (Z.to_N (- z))) else String "+" (digits (Z.to_N z)).

(** [str(d)]: [Decimal.__str__] with [context.capitals = 1]. *)
Definition Dstr (d : Decimal) : string :=
  let ds := digits (dcoef d) in
  let leftdigits := dexp d + len ds in
  let dotplace := if (dexp d <=? 0) && (-6 <? leftdigits) then leftdigits else 1 in
  let '(intpart, fracpart) :=
    if dotplace <=? 0 then
      ("0"%string, ("." ++ repeat_char "0" (Z.to_nat (- dotplace)) ++ ds)%string)
    else if len ds <=? dotplace then
      ((ds ++ repeat_char "0" (Z.to_nat (dotplace - len ds)))%string, EmptyString)
    else
      (take (Z.to_nat dotplace) ds, ("." ++ drop (Z.to_nat dotplace) ds)%string) in
  let exp := if leftdigits =? dotplace then EmptyString
             else String "E" (signed_int (leftdigits - dotplace)) in
  ((if dsign d then "-" else EmptyString) ++ intpart ++ fracpart ++ exp)%string.

(** What [Decimal(text)] gives: a finite number, an infinity or a NaN
    (values outside this model of Decimal), or the exception
    InvalidOperation. *)
Inductive Parsed : Type :=
| Finite (d : Decimal)
| Special
| Invalid.

(** [s.replace("_", "")] *)
Fixpoint remove_underscores (s : string) : string :=
  match s with
  | EmptyString => EmptyString
  | String c r => if Ascii.eqb c "_" then remove_underscores r
                  else String c (remove_underscores r)
  end.

Definition is_e (c : ascii) : bool := Ascii.eqb c "E" || Ascii.eqb c "e".

Fixpoint before_e (s : string) : string :=
  match s with
  | EmptyString => EmptyString
  | String c r => if is_e c then EmptyString else String c (before_e r)
  end.

Fixpoint after_e (s : string) : option string :=
  match s with
  | EmptyString => None
  | String c r => if is_e c then Some r else after_e r
  end.

(** The exponent: an optional sign and at least one digit. *)
Definition read_exponent (s : string) : option Z :=
  let body := match s with
              | String "-" r => r
              | String "+" r => r
              | _ => s
              end in
  if truthy body && all_digits body then Concrete.int_of_string s else None.

(** [inf], [infinity], [nan] or [snan] followed by digits, in any case. *)
Definition is_special (s : string) : bool :=
  let l := lower s in
  String.eqb l "inf" || String.eqb l "infinity"
  || (startswith "nan" l && all_digits (drop 3 l))
  || (startswith "snan" l && all_digits (drop 4 l)).

(** The exponents of a 64-bit build: [decimal.MAX_EMAX],
    [decimal.MIN_ETINY], [decimal.MAX_PREC]. *)
Definition MAX_EMAX : Z := 999999999999999999.
Definition MIN_ETINY : Z := -1999999999999999997.
Definition MAX_PREC : Z := 999999999999999999.

(** The finite values a Decimal can hold: the construction from text is
    exact, and raises InvalidOperation where it would have to round or to
    clamp. *)
Definition representable (d : Decimal) : bool :=
  (MIN_ETINY <=? dexp d) && (ndigits (dcoef d) <=? MAX_PREC) &&
  (if (dcoef d =? 0)%N then dexp d <=? MAX_EMAX
   else dexp d + ndigits (dcoef d) - 1 <=? MAX_EMAX).

(** An optional sign at the head of the text. *)
Definition split_sign (t : string) : bool * string :=
  match t with
  | String "-" r => (true, r)
  | String "+" r => (false, r)
  | _ => (false, t)
  end.

(** The text after the sign: a special value, or digits with at most
    one point and an optional exponent, with a digit before the exponent. *)
Definition decimal_of_unsigned (sg : bool) (rest : string) : Parsed :=
  if is_special rest then Special
  else
    let m := before_e rest in
    let ip := before_dot m in
    let fp := match after_dot m with Some f => f | None => EmptyString end in
    let e := match after_e rest with
             | Some x => read_exponent x
             | None => Some 0
             end in
    if all_digits ip && all_digits fp && (truthy ip || truthy fp) then
      match e with
      | Some e =>
          let d := mkDec sg (digits_value (ip ++ fp)) (e - len fp) in
          if representable d then Finite d else Invalid
      | None => Invalid
      end
    else Invalid.

(** [Decimal(text)]: white space is stripped and underscores are
    dropped before the text is read. *)
Definition decimal_of_string (s : string) : Parsed :=
  let '(sg, rest) := split_sign (remove_underscores (strip s)) in
  decimal_of_unsigned sg rest.

(** The text of a number in its parts: sign, digits before the point,
    digits after it, exponent. *)
Definition numeral (sg : bool) (ip : string) (fp : option string) (ex : option Z)
    : string :=
  ((if sg then "-" else EmptyString) ++ ip
   ++ match fp with Some f => String "." f | None => EmptyString end
   ++ match ex with Some k => String "E" (signed_int k) | None => EmptyString end)%string.

(** A value handed to [to_decimal]: a Decimal, or the text of a column. *)
Inductive Stored : Type :=
| ADecimal (d : Decimal)
| AText (s : string).

(** [to_decimal]: a Decimal is returned as it is; a text is converted,
    and gives [Decimal("0")] when the conversion raises. [None]: the text
    denotes an infinity or a NaN. *)
Definition to_decimal (x : Stored) : option Decimal :=
  match x with
  | ADecimal d => Some d
  | AText s =>
      match decimal_of_string s with
      | Finite d => Some d
      | Special => None
      | Invalid => Some Dzero
      end
  end.

(** The integers an INTEGER column takes: [sqlite3] binds a Python int
    as a signed 64-bit integer and raises OverflowError for any other, so a
    statement execution with such a parameter writes nothing. The ids
    Telegram sends are in this range; a referrer id typed after [/start]
    need not be. *)
Definition sqlite_integer (z : Z) : Prop :=
  -9223372036854775808 <= z <= 9223372036854775807.

(** * Properties *)

(** ** Decimal arithmetic *)

Section DecimalFacts.

Lemma pow10_pos (k : Z) : (0 < pow10 k)%N.
Proof. unfold pow10. apply N.neq_0_lt_0, N.pow_nonzero. discriminate. Qed.

(** A Decimal is below zero exactly when its sign is set and its
    coefficient is not zero. *)
Lemma Dlt_zero (d : Decimal) :
  Dlt d Dzero = dsign d && negb (dcoef d =? 0)%N.
Proof.
  unfold Dlt, Dcompare, signed_at, Dzero; simpl.
  set (e := Z.min (dexp d) 0).
  pose proof (pow10_pos (dexp d - e)) as Hp.
  destruct (dsign d); simpl.
  - destruct (N.eqb_spec (dcoef d) 0) as [->|Hc]; simpl.
    + reflexivity.
    + assert (0 < dcoef d * pow10 (dexp d - e))%N by (apply N.mul_pos_pos; lia).
      destruct (Z.compare_spec (- Z.of_N (dcoef d * pow10 (dexp d - e))) 0); lia.
  - destruct (Z.compare_spec (Z.of_N (dcoef d * pow10 (dexp d - e))) 0); try reflexivity; lia.
Qed.

Lemma Dnonneg_iff (d : Decimal) : Dnonneg d <-> dsign d = false \/ dcoef d = 0%N.
Proof.
  unfold Dnonneg. rewrite Dlt_zero.
  destruct (dsign d); simpl; destruct (N.eqb_spec (dcoef d) 0); simpl; intuition congruence.
Qed.

Lemma Dnonneg_zero : Dnonneg Dzero.
Proof. reflexivity. Qed.

Lemma signed_at_nonneg (e : Z) (d : Decimal) : Dnonneg d -> 0 <= signed_at e d.
Proof.
  intros [Hs|Hc]%Dnonneg_iff; unfold signed_at.
  - rewrite Hs. lia.
  - rewrite Hc, N.mul_0_l. destruct (dsign d); simpl; lia.
Qed.

Lemma fix_sign (d : Decimal) : dsign (fix_ d) = dsign d.
Proof.
  unfold fix_. repeat match goal with |- context [if ?b then _ else _] => destruct b end;
    reflexivity.
Qed.

Lemma fix_zero (d : Decimal) : dcoef d = 0%N -> fix_ d = d.
Proof. intros H. unfold fix_. rewrite H. reflexivity. Qed.

Lemma fix_nonneg (d : Decimal) : Dnonneg d -> Dnonneg (fix_ d).
Proof.
  intros [Hs|Hc]%Dnonneg_iff.
  - apply Dnonneg_iff. left. rewrite fix_sign. exact Hs.
  - rewrite fix_zero by exact Hc. apply Dnonneg_iff. right. exact Hc.
Qed.

(** The sum of two amounts that are not negative is not negative,
    whatever the rounding to 28 digits does. *)
Lemma Dadd_nonneg (a b : Decimal) : Dnonneg a -> Dnonneg b -> Dnonneg (Dadd a b).
Proof.
  intros Ha Hb. unfold Dadd.
  set (e := Z.min (dexp a) (dexp b)).
  pose proof (signed_at_nonneg e a Ha). pose proof (signed_at_nonneg e b Hb).
  apply fix_nonneg, Dnonneg_iff; simpl.
  destruct (Z.eqb_spec (signed_at e a + signed_at e b) 0) as [Hz|Hz].
  - right. rewrite Hz. reflexivity.
  - left. apply Z.ltb_ge. lia.
Qed.

End DecimalFacts.

(** ** The users table under the DB helpers *)

Section LedgerInvariant.

Variable lib : Library.
Variable cfg : Config.
Hypothesis ref_bonus_nonneg : Dnonneg (REF_BONUS cfg).
Hypothesis daily_bonus_nonneg : Dnonneg (DAILY_BONUS cfg).

Lemma update_user_lookup (f : User -> User) (tid t : Z) (d : Db) :
  users (update_user f tid d) !! t
  = if decide (tid = t) then f <$> users d !! tid else users d !! t.
Proof. unfold update_user; simpl. apply lookup_alter. Qed.

Lemma update_user_nonneg (f : User -> User) (tid : Z) (d : Db) :
  (forall u, users d !! tid = Some u -> Dnonneg (balance (f u))) ->
  balances_nonneg d -> balances_nonneg (update_user f tid d).
Proof.
  intros Hf Hd t u. rewrite update_user_lookup.
  case_decide as Ht.
  - subst t. destruct (users d !! tid) as [u0|] eqn:E; simpl; [|discriminate].
    intros [= <-]. apply Hf. reflexivity.
  - apply Hd.
Qed.

Lemma ensure_user_nonneg (d : Db) (tid : Z) (un : option string) (r : option Z) :
  balances_nonneg d -> balances_nonneg (ensure_user d tid un r).
Proof.
  intros Hd. unfold ensure_user.
  destruct (users d !! tid) eqn:E; [exact Hd|].
  intros t u; simpl. rewrite lookup_insert.
  case_decide; [intros [= <-]; apply Dnonneg_zero | apply Hd].
Qed.

Lemma add_balance_nonneg (d : Db) (tid : Z) (amt : Decimal) :
  Dnonneg amt -> balances_nonneg d -> balances_nonneg (add_balance d tid amt).
Proof.
  intros Ha Hd. unfold add_balance.
  pose proof (ensure_user_nonneg d tid None None Hd) as He.
  apply update_user_nonneg; [|exact He].
  intros u Hu; simpl. apply Dadd_nonneg; [|exact Ha].
  unfold get_user_row. destruct (users (ensure_user d tid None None) !! tid) eqn:E.
  - eapply He; eauto.
  - apply Dnonneg_zero.
Qed.

Lemma set_balance_nonneg (d : Db) (tid : Z) (amt : Decimal) :
  Dnonneg amt -> balances_nonneg d -> balances_nonneg (set_balance d tid amt).
Proof.
  intros Ha Hd. unfold set_balance.
  apply update_user_nonneg; [intros; exact Ha | apply ensure_user_nonneg, Hd].
Qed.

(** An update of a column other than [balance]. *)
Lemma update_other_nonneg (f : User -> User) (tid : Z) (d : Db) :
  (forall u, balance (f u) = balance u) ->
  balances_nonneg d -> balances_nonneg (update_user f tid d).
Proof.
  intros Hf Hd. apply update_user_nonneg; [|exact Hd].
  intros u Hu. rewrite Hf. eapply Hd; eauto.
Qed.

Lemma safe_send_nonneg (d : Db) (chat : Z) (sent : option Z) :
  balances_nonneg d -> balances_nonneg (safe_send_and_store d chat sent).
Proof.
  intros Hd. destruct sent; [|exact Hd].
  apply update_other_nonneg; [reflexivity | exact Hd].
Qed.

Lemma mark_withdrawal_users (d : Db) (wid : Z) (st : Status) :
  users (mark_withdrawal d wid st) = users d.
Proof. unfold mark_withdrawal. destruct (1 <=? wid); reflexivity. Qed.

Create HintDb ledger.

Hint Resolve ensure_user_nonneg add_balance_nonneg set_balance_nonneg
  safe_send_nonneg update_other_nonneg Dnonneg_zero : ledger.

(** Every handler keeps all balances non-negative. *)
Lemma step_nonneg (w : World) (e : Event) :
  balances_nonneg (db w) -> balances_nonneg (db (world (step lib cfg w e))).
Proof.
  intros Hw. destruct e; simpl.
  - (* /start *)
    unfold start_cmd.
    destruct (credited_referrer _ tid) as [r|]; simpl; [|auto with ledger].
    apply safe_send_nonneg, update_other_nonneg; [reflexivity|].
    auto 10 with ledger.
  - (* verification *)
    unfold check_both_callback.
    destruct member as [st|]; [|exact Hw].
    destruct (_ || _); [|exact Hw]. simpl.
    apply safe_send_nonneg.
    unfold set_subscribed_flag, set_joined_flag.
    apply update_other_nonneg; [reflexivity|]. apply ensure_user_nonneg.
    apply update_other_nonneg; [reflexivity|]. auto with ledger.
  - simpl. auto with ledger.
  - simpl. auto with ledger.
  - simpl. auto with ledger.
  - unfold admin_stats_cmd. destruct (negb _); simpl; auto with ledger.
  - (* /claim *)
    unfold claim_daily_action.
    assert (Hgrant : balances_nonneg
              (safe_send_and_store
                 (record_last_bonus lib
                    (add_balance (ensure_user (db w) tid None None) tid (DAILY_BONUS cfg))
                    tid now') tid sent)).
    { apply safe_send_nonneg. unfold record_last_bonus.
      apply update_other_nonneg; [reflexivity|]. auto 10 with ledger. }
    destruct (negb _); simpl; [auto with ledger|].
    destruct (get_user_row _ tid) as [row|]; [|exact Hgrant].
    destruct (last_bonus row) as [s|]; [|exact Hgrant].
    destruct (truthy s); [|exact Hgrant].
    destruct (fromisoformat lib s) as [l|]; [|exact Hgrant].
    destruct l as [t|t]; simpl; [|auto with ledger].
    destruct (now - t <? td_hours 24); simpl; [auto with ledger | exact Hgrant].
  - (* /setwallet *)
    unfold set_wallet_prompt. simpl. auto with ledger.
  - (* text message *)
    unfold message_handler.
    destruct (if tid =? ADMIN_ID cfg then _ else _) as [wid|]; simpl.
    + destruct (get_withdrawal (db w) wid); simpl; [|auto with ledger].
      apply safe_send_nonneg. intros t u. rewrite mark_withdrawal_users. apply Hw.
    + case_decide; simpl; [|auto with ledger].
      destruct (is_valid_bsc_address lib (strip text)); simpl; [|auto with ledger].
      apply safe_send_nonneg. unfold set_wallet.
      apply update_other_nonneg; [reflexivity|]. auto with ledger.
  - (* /withdraw *)
    unfold withdraw_action.
    destruct (negb _); simpl; [auto with ledger|].
    destruct (Dlt _ _); simpl; [auto with ledger|].
    destruct (match get_user_row _ tid with Some r => or_none (wallet r) | None => None end);
      simpl; [|auto with ledger].
    destruct admin_ok; simpl; apply safe_send_nonneg;
      intros t u; simpl; apply ensure_user_nonneg, Hw.
  - (* approve / reject *)
    unfold approve_reject_callback.
    destruct (negb _); simpl; [exact Hw|].
    destruct (parse_callback lib data) as [[action wid]|]; simpl; [|exact Hw].
    destruct (get_withdrawal (db w) wid) as [row|]; simpl; [|exact Hw].
    destruct (negb _); simpl; [exact Hw|].
    destruct (String.eqb action "approve"); simpl; [|exact Hw].
    apply set_balance_nonneg; [apply Dnonneg_zero|].
    intros t u. rewrite mark_withdrawal_users. apply Hw.
Qed.

Lemma run_nonneg (es : list Event) (w : World) :
  balances_nonneg (db w) -> balances_nonneg (db (run lib cfg w es)).
Proof.
  revert w. induction es as [|e es IH]; intros w Hw; simpl; [exact Hw|].
  apply IH, step_nonneg, Hw.
Qed.

End LedgerInvariant.

(** ** Withdrawal requests *)

Section Withdraw.

Variable cfg : Config.

Lemma ensure_user_present (d : Db) (tid : Z) (un : option string) (r : option Z) (u : User) :
  users d !! tid = Some u -> ensure_user d tid un r = d.
Proof. intros H. unfold ensure_user. rewrite H. reflexivity. Qed.

Lemma verified_row (d : Db) (tid : Z) :
  user_is_verified d tid = true ->
  exists u, users d !! tid = Some u /\ joined_channel u = 1 /\ subscribed_yt u = 1.
Proof.
  unfold user_is_verified, get_user_row.
  destruct (users d !! tid) as [u|]; [|discriminate].
  intros [H1 H2]%andb_prop. exists u. repeat split; lia.
Qed.

(** The four outcomes of [/withdraw]. *)
Lemma withdraw_not_verified (w : World) (tid now : Z) (admin_ok : bool) (sent : option Z) :
  user_is_verified (db w) tid = false ->
  withdraw_action cfg w tid now admin_ok sent
  = mkResult (set_db w (safe_send_and_store (db w) tid sent)) NotVerified [].
Proof. intros H. unfold withdraw_action. rewrite H. reflexivity. Qed.

Lemma withdraw_below_minimum (w : World) (tid now : Z) (admin_ok : bool)
    (sent : option Z) (u : User) :
  user_is_verified (db w) tid = true -> users (db w) !! tid = Some u ->
  Dlt (balance u) (MIN_WITHDRAW cfg) = true ->
  withdraw_action cfg w tid now admin_ok sent
  = mkResult (set_db w (safe_send_and_store (db w) tid sent))
             (BelowMinimum (MIN_WITHDRAW cfg) (balance u)) [].
Proof.
  intros Hv Hu Hlt. unfold withdraw_action. rewrite Hv; simpl.
  rewrite (ensure_user_present _ _ _ _ _ Hu). unfold get_user_row.
  rewrite Hu, Hlt. reflexivity.
Qed.

Lemma withdraw_no_address (w : World) (tid now : Z) (admin_ok : bool)
    (sent : option Z) (u : User) :
  user_is_verified (db w) tid = true -> users (db w) !! tid = Some u ->
  Dlt (balance u) (MIN_WITHDRAW cfg) = false -> or_none (wallet u) = None ->
  withdraw_action cfg w tid now admin_ok sent
  = mkResult (set_db w (safe_send_and_store (db w) tid sent)) NoPayoutAddress [].
Proof.
  intros Hv Hu Hlt Ha. unfold withdraw_action. rewrite Hv; simpl.
  rewrite (ensure_user_present _ _ _ _ _ Hu). unfold get_user_row.
  rewrite Hu, Hlt, Ha. reflexivity.
Qed.

Lemma withdraw_accepted (w : World) (tid now : Z) (admin_ok : bool)
    (sent : option Z) (u : User) (a : string) :
  user_is_verified (db w) tid = true -> users (db w) !! tid = Some u ->
  Dlt (balance u) (MIN_WITHDRAW cfg) = false -> or_none (wallet u) = Some a ->
  withdraw_action cfg w tid now admin_ok sent
  = mkResult
      (set_db w (safe_send_and_store (requested (db w) tid u a now) tid sent))
      (if admin_ok then WithdrawalSubmitted else WithdrawalNotSent)
      (if admin_ok
       then [(ADMIN_ID cfg,
              WithdrawRequest (Z.of_nat (length (withdrawals (db w))) + 1) tid
                              (balance u) a (referrals u))]
       else []).
Proof.
  intros Hv Hu Hlt Ha. unfold withdraw_action. rewrite Hv; simpl.
  rewrite (ensure_user_present _ _ _ _ _ Hu). unfold get_user_row.
  rewrite Hu, Hlt, Ha. destruct admin_ok; reflexivity.
Qed.

Lemma safe_send_withdrawals (d : Db) (chat : Z) (sent : option Z) :
  withdrawals (safe_send_and_store d chat sent) = withdrawals d.
Proof. destruct sent; reflexivity. Qed.

End Withdraw.

(** ** What [/claim] does *)

Section Claim.

Variable lib : Library.
Variable cfg : Config.

Lemma set_db_same (w : World) : set_db w (db w) = w.
Proof. destruct w; reflexivity. Qed.

Lemma safe_send_lookup (d : Db) (chat t : Z) (sent : option Z) :
  users (safe_send_and_store d chat sent) !! t
  = if decide (chat = t) then stamp sent <$> users d !! chat else users d !! t.
Proof.
  destruct sent as [mid|]; simpl.
  - unfold save_last_bot_message. apply update_user_lookup.
  - case_decide; [subst; destruct (users d !! t)|]; reflexivity.
Qed.

(** The database after the two writes of a grant. *)
Lemma grant_lookup (d : Db) (tid t now' : Z) (u : User) :
  users d !! tid = Some u ->
  users (record_last_bonus lib (add_balance d tid (DAILY_BONUS cfg)) tid now') !! t
  = if decide (tid = t) then Some (bonus_granted lib cfg now' u) else users d !! t.
Proof.
  intros Hu. unfold record_last_bonus, add_balance.
  rewrite (ensure_user_present d tid None None u Hu).
  unfold get_user_row. rewrite Hu.
  assert (Hb : users (update_user (with_balance (Dadd (balance u) (DAILY_BONUS cfg))) tid d)
               !! tid = Some (with_balance (Dadd (balance u) (DAILY_BONUS cfg)) u)).
  { rewrite update_user_lookup. case_decide; [|congruence]. rewrite Hu. reflexivity. }
  rewrite (ensure_user_present _ tid None None _ Hb).
  rewrite !update_user_lookup.
  case_decide; [|reflexivity].
  case_decide; [|congruence]. rewrite Hu. reflexivity.
Qed.

Lemma grant_withdrawals (d : Db) (tid now' : Z) :
  withdrawals (record_last_bonus lib (add_balance d tid (DAILY_BONUS cfg)) tid now')
  = withdrawals d.
Proof.
  unfold record_last_bonus, add_balance, update_user, ensure_user; simpl.
  repeat match goal with |- context [match ?x with _ => _ end] => destruct x; simpl end;
    reflexivity.
Qed.

(** What [/claim] does for a verified user, by what it reads from
    [last_bonus]. *)
Lemma claim_outcome (w : World) (tid now now' : Z) (sent : option Z) (u : User) :
  user_is_verified (db w) tid = true -> users (db w) !! tid = Some u ->
  claim_daily_action lib cfg w tid now now' sent
  = match read_last_bonus lib u with
    | Some (Aware t) =>
        if now - t <? td_hours 24 then
          mkResult (set_db w (safe_send_and_store (db w) tid sent))
            (CooldownActive (td_seconds (td_hours 24 - (now - t)) / 3600)
                            (td_seconds (td_hours 24 - (now - t)) mod 3600 / 60)) []
        else
          mkResult (set_db w (safe_send_and_store
                      (record_last_bonus lib (add_balance (db w) tid (DAILY_BONUS cfg))
                                         tid now') tid sent)) BonusGranted []
    | Some (Naive _) => mkResult w Raised []
    | None =>
        mkResult (set_db w (safe_send_and_store
                    (record_last_bonus lib (add_balance (db w) tid (DAILY_BONUS cfg))
                                       tid now') tid sent)) BonusGranted []
    end.
Proof.
  intros Hv Hu. unfold claim_daily_action, read_last_bonus. rewrite Hv; simpl.
  rewrite (ensure_user_present _ _ _ _ _ Hu). unfold get_user_row. rewrite Hu.
  destruct (last_bonus u) as [s|]; [|reflexivity].
  destruct (truthy s); [|reflexivity].
  destruct (fromisoformat lib s) as [[t|t]|]; simpl; try reflexivity.
  rewrite set_db_same. reflexivity.
Qed.

(** The hours and minutes shown are those of the remaining time as long
    as the clock has advanced since the last grant. *)
Lemma remaining_display (elapsed : Z) :
  0 < elapsed < td_hours 24 ->
  let remaining := td_hours 24 - elapsed in
  let h := td_seconds remaining / 3600 in
  let m := td_seconds remaining mod 3600 / 60 in
  0 <= h < 24 /\ 0 <= m < 60 /\
  (h * 3600 + m * 60) * 1000000 <= remaining < (h * 3600 + m * 60 + 60) * 1000000.
Proof.
  unfold td_hours, td_seconds. intros He; cbv zeta.
  set (r := 24 * 3600 * 1000000 - elapsed).
  assert (Hr : 0 < r < 86400 * 1000000) by (unfold r; lia).
  assert (Hs : 0 <= r / 1000000 < 86400)
    by (split; [apply Z.div_pos; lia | apply Z.div_lt_upper_bound; lia]).
  rewrite (Z.mod_small _ _ Hs).
  set (s := r / 1000000) in *.
  pose proof (Z.div_mod r 1000000 ltac:(lia)) as Hdm.
  pose proof (Z.mod_pos_bound r 1000000 ltac:(lia)).
  fold s in Hdm.
  pose proof (Z.div_mod s 3600 ltac:(lia)).
  pose proof (Z.mod_pos_bound s 3600 ltac:(lia)).
  pose proof (Z.div_mod (s mod 3600) 60 ltac:(lia)).
  pose proof (Z.mod_pos_bound (s mod 3600) 60 ltac:(lia)).
  assert (0 <= s / 3600 < 24)
    by (split; [apply Z.div_pos; lia | apply Z.div_lt_upper_bound; lia]).
  assert (0 <= s mod 3600 / 60 < 60)
    by (split; [apply Z.div_pos; lia | apply Z.div_lt_upper_bound; lia]).
  lia.
Qed.

End Claim.

(** ** Approval and rejection *)

Section Adjudication.

Variable lib : Library.
Variable cfg : Config.

Lemma get_withdrawal_mark (d : Db) (wid wid' : Z) (st : Status) :
  get_withdrawal (mark_withdrawal d wid st) wid'
  = if decide (wid = wid') then with_status st <$> get_withdrawal d wid
    else get_withdrawal d wid'.
Proof.
  unfold get_withdrawal, mark_withdrawal.
  destruct (Z.leb_spec 1 wid) as [Hw|Hw], (Z.leb_spec 1 wid') as [Hw'|Hw']; simpl;
    case_decide; subst; try reflexivity; try lia.
  - apply list_lookup_alter_eq.
  - apply list_lookup_alter_ne. lia.
Qed.

Lemma get_withdrawal_users (us : gmap Z User) (d : Db) (wid : Z) :
  get_withdrawal (set_users d us) wid = get_withdrawal d wid.
Proof. reflexivity. Qed.

Lemma set_balance_withdrawals (d : Db) (tid : Z) (amt : Decimal) :
  withdrawals (set_balance d tid amt) = withdrawals d.
Proof.
  unfold set_balance, update_user, ensure_user; simpl.
  destruct (users d !! tid); reflexivity.
Qed.

Lemma set_balance_lookup (d : Db) (tid : Z) (amt : Decimal) :
  exists u, users (set_balance d tid amt) !! tid = Some u /\ balance u = amt.
Proof.
  unfold set_balance. rewrite update_user_lookup.
  case_decide; [|congruence].
  unfold ensure_user. destruct (users d !! tid) as [u|] eqn:E; simpl.
  - rewrite E; simpl. eauto.
  - rewrite lookup_insert_eq; simpl. eauto.
Qed.

(** The buttons refuse a request that is no longer pending, and change
    nothing. *)
Lemma callback_on_terminal (w : World) (data action : string) (wid : Z)
    (row : Withdrawal) :
  parse_callback lib data = Some (action, wid) ->
  get_withdrawal (db w) wid = Some row -> status row <> pending ->
  approve_reject_callback lib cfg w (ADMIN_ID cfg) data
  = mkResult w (AlreadyTerminal (status row)) [].
Proof.
  intros Hp Hg Hs. unfold approve_reject_callback.
  rewrite Z.eqb_refl, Hp, Hg; simpl.
  rewrite bool_decide_eq_false_2 by exact Hs. reflexivity.
Qed.

(** The reason typed after "Reject" marks the request rejected whatever
    its status has become in the meantime. *)
Lemma deferred_reject_ignores_status (w : World) (text : string) (sent : option Z)
    (wid : Z) (row : Withdrawal) :
  pending_rejects w !! ADMIN_ID cfg = Some wid ->
  get_withdrawal (db w) wid = Some row ->
  let r := message_handler lib cfg w (ADMIN_ID cfg) text sent in
  reply r = RejectionProcessed wid /\
  get_withdrawal (db (world r)) wid = Some (with_status rejected row).
Proof.
  intros Hp Hg. unfold message_handler. rewrite Z.eqb_refl, Hp; simpl.
  rewrite Hg; simpl. split; [reflexivity|].
  destruct sent; simpl; unfold save_last_bot_message, update_user;
    rewrite ?get_withdrawal_users, get_withdrawal_mark;
    (case_decide; [|congruence]); rewrite Hg; reflexivity.
Qed.

End Adjudication.

(** C5. Approving a pending request marks it approved and stores the
    literal zero as the balance of the requesting user, whatever that
    balance and the amount of the request are. The scenario of the
    specification (balance 0.5, a valid address, a request, an approval) is
    the instance [approve_zeroes_balance_scenario]. *)
Theorem approve_zeroes_balance (lib : Library) (cfg : Config) (w : World)
    (data : string) (wid : Z) (row : Withdrawal) :
  parse_callback lib data = Some ("approve"%string, wid) ->
  get_withdrawal (db w) wid = Some row ->
  status row = pending ->
  let r := approve_reject_callback lib cfg w (ADMIN_ID cfg) data in
  reply r = Approved wid (w_telegram_id row) (amount row) /\
  get_withdrawal (db (world r)) wid = Some (with_status approved row) /\
  exists u, users (db (world r)) !! w_telegram_id row = Some u /\ balance u = Dzero.
Proof.
  intros Hp Hg Hs. unfold approve_reject_callback.
  rewrite Z.eqb_refl, Hp, Hg; simpl.
  rewrite bool_decide_eq_true_2 by exact Hs. simpl.
  split; [reflexivity|]. split.
  - unfold set_balance, update_user. rewrite get_withdrawal_users.
    unfold ensure_user.
    destruct (users (mark_withdrawal (db w) wid approved) !! w_telegram_id row);
      rewrite ?get_withdrawal_users, get_withdrawal_mark;
      (case_decide; [|congruence]); rewrite Hg; reflexivity.
  - apply set_balance_lookup.
Qed.

Lemma approve_zeroes_balance_scenario :
  (exists u, users (db funded_world) !! alice = Some u
             /\ balance u = mkDec false 50 (-2)
             /\ Deq (balance u) (mkDec false 5 (-1)) = true) /\
  get_withdrawal (db requested_world) 1
  = Some (mkWithdrawal alice (mkDec false 50 (-2)) alice_address pending 1000) /\
  let r := approve_reject_callback Concrete.pylib default_config requested_world
                                   1000 "approve:1" in
  reply r = Approved 1 alice (mkDec false 50 (-2)) /\
  get_withdrawal (db (world r)) 1
  = Some (mkWithdrawal alice (mkDec false 50 (-2)) alice_address approved 1000) /\
  exists u, users (db (world r)) !! alice = Some u /\ balance u = Dzero.
Proof.
  split; [eexists; split; [vm_compute; reflexivity | split; reflexivity] |].
  split; [vm_compute; reflexivity |].
  apply (approve_zeroes_balance Concrete.pylib default_config requested_world
           "approve:1" 1
           (mkWithdrawal alice (mkDec false 50 (-2)) alice_address pending 1000)).
  - vm_compute; reflexivity.
  - vm_compute; reflexivity.
  - reflexivity.
Defined.

(** The zero is not a debit of the amount requested: a credit that arrives
    between the request and its approval is lost with the rest. *)
Lemma approval_drops_later_credit :
  let w1 := world (start_cmd Concrete.pylib default_config requested_world 200 None
                             ["ref42"%string] None) in
  let r := approve_reject_callback Concrete.pylib default_config w1 1000 "approve:1" in
  (balance <$> users (db w1) !! alice) = Some (mkDec false 51 (-2)) /\
  (amount <$> get_withdrawal (db w1) 1) = Some (mkDec false 50 (-2)) /\
  (balance <$> users (db (world r)) !! alice) = Some Dzero.
Proof. vm_compute. repeat split; reflexivity. Qed.

(** C1 (the code departs from the claim). The operator presses "Reject" on
    the pending request 1, then "Approve" on the same request, then sends
    the text that [message_handler] takes as the reason: the approved
    request is marked rejected, the operator is told the rejection was
    processed and no conflict is reported. The direct buttons do refuse a
    request that is not pending ([callback_on_terminal]); the path of the
    typed reason does not read the status
    ([deferred_reject_ignores_status]). *)
Theorem deferred_reject_overwrites_approval :
  let w1 := world (approve_reject_callback Concrete.pylib default_config
                     requested_world 1000 "reject:1") in
  let r2 := approve_reject_callback Concrete.pylib default_config w1 1000 "approve:1" in
  let r3 := message_handler Concrete.pylib default_config (world r2) 1000
                            "duplicate request" (Some 6) in
  status <$> get_withdrawal (db requested_world) 1 = Some pending /\
  pending_rejects w1 !! 1000 = Some 1 /\
  reply r2 = Approved 1 alice (mkDec false 50 (-2)) /\
  status <$> get_withdrawal (db (world r2)) 1 = Some approved /\
  reply r3 = RejectionProcessed 1 /\
  notices r3 = [(alice, WithdrawalRejected 1 "duplicate request")] /\
  status <$> get_withdrawal (db (world r3)) 1 = Some rejected.
Proof. vm_compute. repeat split; reflexivity. Qed.

(** C6, as the code has it. [/withdraw] answers NotVerified to a user
    who is not verified. For a verified user it answers BelowMinimum whenever
    the balance is below the configured minimum, whether or not an address is
    stored (this test comes first), and NoPayoutAddress when the balance is
    not below the minimum and no address is stored. Whenever the request is
    refused in one of these three ways the table of withdrawals is left as
    it was. *)
Theorem withdraw_refused_creates_no_row (cfg : Config) (w : World) (tid now : Z)
    (admin_ok : bool) (sent : option Z) :
  let r := withdraw_action cfg w tid now admin_ok sent in
  (user_is_verified (db w) tid = false -> reply r = NotVerified) /\
  (forall u, user_is_verified (db w) tid = true -> users (db w) !! tid = Some u ->
     (Dlt (balance u) (MIN_WITHDRAW cfg) = true ->
        reply r = BelowMinimum (MIN_WITHDRAW cfg) (balance u)) /\
     (or_none (wallet u) = None ->
        reply r = if Dlt (balance u) (MIN_WITHDRAW cfg)
                  then BelowMinimum (MIN_WITHDRAW cfg) (balance u)
                  else NoPayoutAddress)) /\
  (refusal (reply r) ->
     withdrawals (db (world r)) = withdrawals (db w) /\
     db (world r) = safe_send_and_store (db w) tid sent).
Proof.
  cbv zeta. split; [|split].
  - intros Hv. rewrite (withdraw_not_verified cfg w tid now admin_ok sent Hv). reflexivity.
  - intros u Hv Hu. split.
    + intros Hlt. rewrite (withdraw_below_minimum cfg w tid now admin_ok sent u); auto.
    + intros Ha. destruct (Dlt (balance u) (MIN_WITHDRAW cfg)) eqn:Hlt.
      * rewrite (withdraw_below_minimum cfg w tid now admin_ok sent u); auto.
      * rewrite (withdraw_no_address cfg w tid now admin_ok sent u); auto.
  - destruct (user_is_verified (db w) tid) eqn:Hv.
    + destruct (verified_row _ _ Hv) as (u & Hu & _).
      destruct (Dlt (balance u) (MIN_WITHDRAW cfg)) eqn:Hlt.
      * rewrite (withdraw_below_minimum cfg w tid now admin_ok sent u); auto.
        simpl. intros _. rewrite safe_send_withdrawals. auto.
      * destruct (or_none (wallet u)) as [a|] eqn:Ha.
        -- rewrite (withdraw_accepted cfg w tid now admin_ok sent u a); auto.
           destruct admin_ok; simpl; intros [].
        -- rewrite (withdraw_no_address cfg w tid now admin_ok sent u); auto.
           simpl. intros _. rewrite safe_send_withdrawals. auto.
    + rewrite (withdraw_not_verified cfg w tid now admin_ok sent Hv).
      simpl. intros _. rewrite safe_send_withdrawals. auto.
Qed.

(** Where the claim fails. Carol is verified and has stored no address,
    and her balance is below the minimum: the answer is BelowMinimum, not
    NoPayoutAddress. And when Alice's request is accepted but the notice does
    not reach the operator, she is told that the request failed, while the
    row written before the notice was sent stays in the table. *)
Lemma withdraw_failure_cases_of_the_claim :
  (let r := withdraw_action default_config carol_world carol 1000 true (Some 5) in
   user_is_verified (db carol_world) carol = true /\
   (wallet <$> users (db carol_world) !! carol) = Some None /\
   reply r = BelowMinimum (mkDec false 5 (-1)) Dzero /\
   reply r <> NoPayoutAddress) /\
  (let r := withdraw_action default_config funded_world alice 1000 false (Some 5) in
   reply r = WithdrawalNotSent /\
   withdrawals (db funded_world) = [] /\
   withdrawals (db (world r))
   = [mkWithdrawal alice (mkDec false 50 (-2)) alice_address pending 1000]).
Proof. vm_compute. repeat split; try reflexivity. discriminate. Qed.

(** C7. An accepted [/withdraw] appends one pending row holding the
    balance and the address of the user as they are stored, and leaves the
    ledger columns of every user as they were: in particular the balance of
    the requesting user is the same before and after. Only the id of the
    last message of the bot in the chat can change in that row. *)
Theorem withdraw_keeps_ledger_row (cfg : Config) (w : World) (tid now : Z)
    (admin_ok : bool) (sent : option Z) (u : User) (a : string) :
  user_is_verified (db w) tid = true ->
  users (db w) !! tid = Some u ->
  Dlt (balance u) (MIN_WITHDRAW cfg) = false ->
  or_none (wallet u) = Some a ->
  let r := withdraw_action cfg w tid now admin_ok sent in
  withdrawals (db (world r))
  = (withdrawals (db w) ++ [mkWithdrawal tid (balance u) a pending now])%list /\
  users (db (world r)) !! tid = Some (stamp sent u) /\
  balance (stamp sent u) = balance u /\
  ledger_part (stamp sent u) = ledger_part u /\
  (forall t, t <> tid -> users (db (world r)) !! t = users (db w) !! t) /\
  pending_rejects (world r) = pending_rejects w /\
  awaiting_wallet (world r) = awaiting_wallet w.
Proof.
  intros Hv Hu Hlt Ha. cbv zeta.
  rewrite (withdraw_accepted cfg w tid now admin_ok sent u a); auto. simpl.
  rewrite safe_send_withdrawals. split; [reflexivity|].
  split; [rewrite safe_send_lookup; case_decide; [|congruence]; simpl; rewrite Hu;
          reflexivity|].
  split; [destruct sent; reflexivity|].
  split; [destruct sent; reflexivity|].
  split; [|split; reflexivity].
  intros t Ht. rewrite safe_send_lookup. case_decide; [congruence|reflexivity].
Qed.

Lemma withdraw_refused_creates_no_row_witness :
  (let r := withdraw_action default_config unfunded_world alice 1000 true (Some 5) in
   reply r = BelowMinimum (mkDec false 5 (-1)) Dzero /\
   withdrawals (db (world r)) = withdrawals (db unfunded_world)) /\
  (let r := withdraw_action default_config bob_world bob 1000 true (Some 5) in
   reply r = NoPayoutAddress /\
   withdrawals (db (world r)) = withdrawals (db bob_world)).
Proof.
  split; cbv zeta.
  - destruct (withdraw_refused_creates_no_row default_config unfunded_world alice
                1000 true (Some 5)) as (_ & H1 & H2).
    split.
    + apply (proj1 (H1 (mkUser (Some "alice"%string) Dzero 0 None (Some alice_address)
                               None 1 1 (Some 4))
                       ltac:(vm_compute; reflexivity) ltac:(vm_compute; reflexivity))).
      vm_compute; reflexivity.
    + apply H2. vm_compute. exact I.
  - destruct (withdraw_refused_creates_no_row default_config bob_world bob
                1000 true (Some 5)) as (_ & H1 & H2).
    split.
    + apply (proj2 (H1 (mkUser (Some "bob"%string) (mkDec false 50 (-2)) 50 None None
                               None 1 1 (Some 2))
                       ltac:(vm_compute; reflexivity) ltac:(vm_compute; reflexivity))).
      vm_compute; reflexivity.
    + apply H2. vm_compute. exact I.
Defined.

Lemma withdraw_keeps_ledger_row_witness :
  let r := withdraw_action default_config funded_world alice 1000 true (Some 5) in
  withdrawals (db (world r))
  = [mkWithdrawal alice (mkDec false 50 (-2)) alice_address pending 1000] /\
  (balance <$> users (db (world r)) !! alice) = (balance <$> users (db funded_world) !! alice).
Proof.
  cbv zeta.
  destruct (withdraw_keeps_ledger_row default_config funded_world alice 1000 true (Some 5)
              (mkUser (Some "alice"%string) (mkDec false 50 (-2)) 50 None
                      (Some alice_address) None 1 1 (Some 4))
              alice_address)
    as (Hw & Hu & Hb & _); try (vm_compute; reflexivity).
  split.
  - rewrite Hw. vm_compute. reflexivity.
  - rewrite Hu. vm_compute. reflexivity.
Defined.

(** C8. Whatever updates the bot handles, starting from the empty
    database, no stored balance is negative afterwards, provided the
    configured referral bonus and daily bonus are not negative. (The same
    holds from any database whose balances are not negative: [run_nonneg].) *)
Theorem balance_never_negative (lib : Library) (cfg : Config) (es : list Event)
    (tid : Z) (u : User) :
  Dlt (REF_BONUS cfg) Dzero = false ->
  Dlt (DAILY_BONUS cfg) Dzero = false ->
  users (db (run lib cfg empty_world es)) !! tid = Some u ->
  Dlt (balance u) Dzero = false.
Proof.
  intros Hr Hd Hu.
  refine (run_nonneg lib cfg Hr Hd es empty_world _ tid u Hu).
  intros t v H. unfold empty_world, empty_db in H; simpl in H.
  rewrite lookup_empty in H. discriminate.
Qed.

Lemma balance_never_negative_witness :
  Dlt (balance (mkUser (Some "alice"%string) Dzero 50 None (Some alice_address) None
                       1 1 (Some 4))) Dzero = false.
Proof.
  apply (balance_never_negative Concrete.pylib default_config
           (onboarding ++ fifty_referrals
            ++ [EvWithdraw alice 1000 true None; EvCallback 1000 "approve:1"])
           alice).
  - reflexivity.
  - reflexivity.
  - vm_compute. reflexivity.
Defined.

(** C10. When the text stored in [last_bonus] does not parse, [/claim]
    by a verified user grants the bonus at once, as it does when the column
    is empty: the clock is not compared with anything, the balance grows by
    the daily bonus and the column is overwritten with the current time. *)
Theorem unparsable_last_bonus_grants (lib : Library) (cfg : Config) (w : World)
    (tid now now' : Z) (sent : option Z) (u : User) (s : string) :
  user_is_verified (db w) tid = true ->
  users (db w) !! tid = Some u ->
  last_bonus u = Some s ->
  fromisoformat lib s = None ->
  let r := claim_daily_action lib cfg w tid now now' sent in
  reply r = BonusGranted /\
  users (db (world r)) !! tid = Some (stamp sent (bonus_granted lib cfg now' u)) /\
  r = claim_daily_action lib cfg
        (set_db w (update_user (with_last_bonus None) tid (db w))) tid now now' sent.
Proof.
  intros Hv Hu Hl Hp. cbv zeta.
  rewrite (claim_outcome lib cfg w tid now now' sent u Hv Hu).
  assert (Hr : read_last_bonus lib u = None).
  { unfold read_last_bonus. rewrite Hl, Hp. destruct (truthy s); reflexivity. }
  rewrite Hr. simpl. split; [reflexivity|]. split.
  - rewrite safe_send_lookup. case_decide; [|congruence].
    rewrite (grant_lookup lib cfg (db w) tid tid now' u Hu).
    case_decide; [|congruence]. reflexivity.
  - set (w0 := set_db w (update_user (with_last_bonus None) tid (db w))).
    assert (Hu0 : users (db w0) !! tid = Some (with_last_bonus None u)).
    { unfold w0, set_db; cbn [db]. rewrite update_user_lookup.
      case_decide; [|congruence]. rewrite Hu. reflexivity. }
    assert (Hv0 : user_is_verified (db w0) tid = true).
    { revert Hv. unfold user_is_verified, get_user_row. rewrite Hu0, Hu. auto. }
    rewrite (claim_outcome lib cfg w0 tid now now' sent _ Hv0 Hu0).
    unfold read_last_bonus; simpl.
    assert (Hd : safe_send_and_store
                   (record_last_bonus lib (add_balance (db w) tid (DAILY_BONUS cfg)) tid now')
                   tid sent
                 = safe_send_and_store
                     (record_last_bonus lib (add_balance (db w0) tid (DAILY_BONUS cfg)) tid now')
                     tid sent).
    { set (d1 := safe_send_and_store _ _ _). set (d2 := safe_send_and_store _ _ _).
      assert (Hus : users d1 = users d2).
      { apply map_eq. intros t. unfold d1, d2. rewrite !safe_send_lookup.
        rewrite !(grant_lookup lib cfg (db w) tid _ now' u Hu).
        rewrite !(grant_lookup lib cfg (db w0) tid _ now' _ Hu0).
        repeat case_decide; try congruence; try reflexivity.
        unfold w0, set_db; cbn [db]. rewrite update_user_lookup.
        case_decide; congruence. }
      assert (Hws : withdrawals d1 = withdrawals d2).
      { unfold d1, d2. rewrite !safe_send_withdrawals, !grant_withdrawals. reflexivity. }
      destruct d1, d2; simpl in *. congruence. }
    rewrite Hd. reflexivity.
Qed.

Lemma unparsable_last_bonus_grants_witness :
  let r := claim_daily_action Concrete.pylib default_config corrupted_world alice
                              1704067200000000 1704067200000001 (Some 5) in
  reply r = BonusGranted /\
  (balance <$> users (db (world r)) !! alice) = Some (mkDec false 1 (-3)) /\
  (last_bonus <$> users (db (world r)) !! alice)
  = Some (Some "2024-01-01T00:00:00.000001+00:00"%string).
Proof.
  cbv zeta.
  destruct (unparsable_last_bonus_grants Concrete.pylib default_config corrupted_world
              alice 1704067200000000 1704067200000001 (Some 5)
              (mkUser (Some "alice"%string) Dzero 0 None (Some alice_address)
                      (Some "yesterday"%string) 1 1 (Some 4))
              "yesterday")
    as (Hr & Hu & _); try (vm_compute; reflexivity).
  split; [exact Hr|]. rewrite Hu. split; vm_compute; reflexivity.
Defined.

(** ** The daily bonus *)

Section Cooldown.

Variable lib : Library.
Variable cfg : Config.

(** A claim by a verified user whose [last_bonus] is empty is granted. *)
Lemma claim_without_last_bonus (w : World) (tid now now' : Z) (sent : option Z)
    (u : User) :
  user_is_verified (db w) tid = true -> users (db w) !! tid = Some u ->
  last_bonus u = None ->
  let r := claim_daily_action lib cfg w tid now now' sent in
  reply r = BonusGranted /\
  users (db (world r)) !! tid = Some (stamp sent (bonus_granted lib cfg now' u)).
Proof.
  intros Hv Hu Hl. cbv zeta.
  rewrite (claim_outcome lib cfg w tid now now' sent u Hv Hu).
  unfold read_last_bonus. rewrite Hl. simpl. split; [reflexivity|].
  rewrite safe_send_lookup. case_decide; [|congruence].
  rewrite (grant_lookup lib cfg (db w) tid tid now' u Hu).
  case_decide; [|congruence]. reflexivity.
Qed.

(** Less than 24 hours after the instant read from [last_bonus] the
    claim is refused and the ledger columns stay as they are; when the
    clock has advanced since that instant, the hours and minutes shown
    are those of the time that remains. *)
Lemma claim_within_cooldown (w : World) (tid now now' : Z) (sent : option Z)
    (u : User) (t : Z) :
  user_is_verified (db w) tid = true -> users (db w) !! tid = Some u ->
  read_last_bonus lib u = Some (Aware t) ->
  now - t < td_hours 24 ->
  let r := claim_daily_action lib cfg w tid now now' sent in
  (exists h m, reply r = CooldownActive h m /\
     (0 < now - t ->
      0 <= h < 24 /\ 0 <= m < 60 /\
      (h * 3600 + m * 60) * 1000000 <= td_hours 24 - (now - t)
                                    < (h * 3600 + m * 60 + 60) * 1000000)) /\
  users (db (world r)) !! tid = Some (stamp sent u).
Proof.
  intros Hv Hu Hl Hlt. cbv zeta.
  rewrite (claim_outcome lib cfg w tid now now' sent u Hv Hu), Hl.
  apply Z.ltb_lt in Hlt as Hb. rewrite Hb. simpl. split.
  - eexists _, _. split; [reflexivity|]. intros Hpos.
    apply (remaining_display (now - t)). lia.
  - rewrite safe_send_lookup. case_decide; [|congruence]. rewrite Hu. reflexivity.
Qed.

(** From 24 hours on the claim is granted again. *)
Lemma claim_after_cooldown (w : World) (tid now now' : Z) (sent : option Z)
    (u : User) (t : Z) :
  user_is_verified (db w) tid = true -> users (db w) !! tid = Some u ->
  read_last_bonus lib u = Some (Aware t) ->
  td_hours 24 <= now - t ->
  let r := claim_daily_action lib cfg w tid now now' sent in
  reply r = BonusGranted /\
  users (db (world r)) !! tid = Some (stamp sent (bonus_granted lib cfg now' u)).
Proof.
  intros Hv Hu Hl Hge. cbv zeta.
  rewrite (claim_outcome lib cfg w tid now now' sent u Hv Hu), Hl.
  apply Z.ltb_ge in Hge as Hb. rewrite Hb. simpl. split; [reflexivity|].
  rewrite safe_send_lookup. case_decide; [|congruence].
  rewrite (grant_lookup lib cfg (db w) tid tid now' u Hu).
  case_decide; [|congruence]. reflexivity.
Qed.

(** After a grant recorded at [t0] the user is still verified and the
    column reads back as [t0], provided the text written parses back. *)
Lemma granted_row_reads_back (now' : Z) (sent : option Z) (u : User) :
  truthy (isoformat lib now') = true ->
  fromisoformat lib (isoformat lib now') = Some (Aware now') ->
  read_last_bonus lib (stamp sent (bonus_granted lib cfg now' u)) = Some (Aware now').
Proof.
  intros Ht Hp. unfold read_last_bonus.
  destruct sent; simpl; rewrite Ht; exact Hp.
Qed.

(** Non-positive elapsed time: the whole day of the remaining time is
    dropped from what is shown. *)
Lemma remaining_display_wraps (elapsed : Z) :
  - td_hours 24 < elapsed <= 0 ->
  td_seconds (td_hours 24 - elapsed) = td_seconds (- elapsed) /\
  td_days (td_hours 24 - elapsed) = 1.
Proof.
  unfold td_seconds, td_days, td_hours. intros He.
  replace (24 * 3600 * 1000000 - elapsed) with (- elapsed + 86400 * 1000000) by lia.
  split.
  - rewrite Z.div_add by lia. rewrite Z.add_mod, Z.mod_same by lia.
    rewrite Z.add_0_r, Z.mod_mod by lia. reflexivity.
  - replace (86400 * 1000000) with (1 * 86400000000) by lia.
    rewrite Z.div_add by lia. rewrite Z.div_small; lia.
Qed.

End Cooldown.

(** C4 (the code departs from the claim in what the refusal shows). A
    verified user is granted the bonus at 2024-01-01T00:00:00 UTC and claims
    again while the clock reads the same instant: the claim is refused, as
    the claim says, but the reply shows 0 h 0 min although 24 hours remain,
    because only the [seconds] field of the remaining time is shown and its
    [days] field (1 here) is dropped. With a clock set back by one hour the
    reply shows 1 h 0 min while 25 hours remain. The rest of the claim holds:
    [claim_without_last_bonus], [claim_within_cooldown] (exact display when
    the clock has advanced), [claim_after_cooldown]. *)
Theorem cooldown_display_drops_the_day :
  let t0 := 1704067200000000 in
  let w := run Concrete.pylib default_config unfunded_world [EvClaim alice t0 t0 (Some 5)] in
  (last_bonus <$> users (db w) !! alice)
  = Some (Some "2024-01-01T00:00:00+00:00"%string) /\
  (balance <$> users (db w) !! alice) = Some (mkDec false 1 (-3)) /\
  reply (claim_daily_action Concrete.pylib default_config w alice t0 t0 (Some 6))
  = CooldownActive 0 0 /\
  td_hours 24 - (t0 - t0) = td_hours 24 /\
  reply (claim_daily_action Concrete.pylib default_config w alice
           (t0 - td_hours 1) t0 (Some 6))
  = CooldownActive 1 0 /\
  td_hours 24 - (t0 - td_hours 1 - t0) = td_hours 25.
Proof. vm_compute. repeat split; reflexivity. Qed.

(** ** The address validator *)

(** With [eth_utils] installed the validator accepts every well-formed
    address whose checksum form can be computed: the comparison with the
    checksum form has the same outcome on both sides. *)
Lemma validator_ignores_case (lib : Library) (f : string -> option string)
    (addr : string) :
  eth_utils lib = Some f ->
  is_valid_bsc_address lib addr
  = startswith "0x" (strip addr) && (len (strip addr) =? 42)
    && bool_decide (is_Some (f (strip addr))).
Proof.
  intros Hf. unfold is_valid_bsc_address. rewrite Hf.
  destruct (startswith "0x" (strip addr) && (len (strip addr) =? 42)); simpl;
    [|reflexivity].
  destruct (f (strip addr)) as [c|]; simpl.
  - destruct (_ || _); reflexivity.
  - reflexivity.
Qed.

(** C2 (the code departs from the claim). The checksum form of Alice's
    address is accepted, as the claim says. The same address with the case of
    one letter flipped is mixed-case and differs from its checksum form, so
    rule 2 rejects it; [is_valid_bsc_address] accepts it, because both
    branches of its conditional return [True]. *)
Theorem wrong_checksum_accepted :
  Eip55.to_checksum_address alice_address = Some alice_address /\
  is_valid_bsc_address Concrete.pylib alice_address = true /\
  Eip55.to_checksum_address flipped_address = Some alice_address /\
  String.eqb flipped_address alice_address = false /\
  String.eqb (lower flipped_address) flipped_address = false /\
  String.eqb (upper flipped_address) flipped_address = false /\
  checksum_rule flipped_address alice_address = false /\
  is_valid_bsc_address Concrete.pylib flipped_address = true.
Proof. vm_compute. repeat split; reflexivity. Qed.

(** ** Referral credits *)

Section Referral.

Variable lib : Library.
Variable cfg : Config.

(** A user who supplies their own id as referrer credits nobody. *)
Lemma self_referral_not_credited (w : World) (tid : Z) (uname : option string)
    (args : list string) (sent : option Z) :
  parse_ref_arg lib args = Some tid ->
  let r := start_cmd lib cfg w tid uname args sent in
  notices r = [(ADMIN_ID cfg, NewUserStarted tid)] /\
  db (world r) = safe_send_and_store (ensure_user (db w) tid uname (Some tid)) tid sent.
Proof.
  intros Hp. unfold start_cmd. rewrite Hp. unfold credited_referrer.
  rewrite Z.eqb_refl, andb_false_r. split; reflexivity.
Qed.

(** The credit does not depend on the sender being new: a user already
    in the table who sends [/start] with the id of another user as referrer
    credits that user. *)
Lemma start_credits_for_known_user (w : World) (tid r : Z) (uname : option string)
    (args : list string) (sent : option Z) (u v : User) :
  parse_ref_arg lib args = Some r -> r <> 0 -> r <> tid ->
  users (db w) !! tid = Some u ->
  users (db w) !! r = Some v ->
  users (db (world (start_cmd lib cfg w tid uname args sent))) !! r
  = Some (with_referrals (referrals v + 1)
            (with_balance (Dadd (balance v) (REF_BONUS cfg)) v)).
Proof.
  intros Hp Hr0 Hrt Hu Hv. unfold start_cmd. rewrite Hp. unfold credited_referrer.
  destruct (Z.eqb_spec r 0); [congruence|]. destruct (Z.eqb_spec r tid); [congruence|].
  simpl. rewrite safe_send_lookup. case_decide; [congruence|].
  rewrite (ensure_user_present (db w) tid uname (Some r) u Hu).
  rewrite (ensure_user_present (db w) r None None v Hv).
  unfold inc_referrals, add_balance.
  rewrite (ensure_user_present (db w) r None None v Hv).
  unfold get_user_row. rewrite Hv.
  rewrite !update_user_lookup. case_decide; [|congruence]. rewrite Hv. reflexivity.
Qed.

End Referral.

(** C3 (the code departs from the claim). User 2 opens the bot through
    the link of user 1 and then sends the same [/start ref1] a second time:
    user 1 is credited at both, balance 0.02 and two referrals, although
    only the first [/start] created user 2 (whose [referred_by] is written
    once). The credit depends only on the referrer id being present, non-zero
    and different from the sender ([start_credits_for_known_user]); a
    referrer id equal to the sender's never credits
    ([self_referral_not_credited]). *)
Theorem referral_credited_on_every_start :
  let r1 := start_cmd Concrete.pylib default_config empty_world 2 (Some "bob"%string)
                      ["ref1"%string] (Some 1) in
  let r2 := start_cmd Concrete.pylib default_config (world r1) 2 (Some "bob"%string)
                      ["ref1"%string] (Some 2) in
  users (db empty_world) !! 2 = None /\
  (balance <$> users (db (world r1)) !! 1) = Some (mkDec false 1 (-2)) /\
  (referrals <$> users (db (world r1)) !! 1) = Some 1 /\
  (referred_by <$> users (db (world r1)) !! 2) = Some (Some 1) /\
  notices r2 = [(1, ReferralEarned (mkDec false 1 (-2))); (1000, NewUserStarted 2)] /\
  (balance <$> users (db (world r2)) !! 1) = Some (mkDec false 2 (-2)) /\
  (referrals <$> users (db (world r2)) !! 1) = Some 2.
Proof. vm_compute. repeat split; reflexivity. Qed.

(** ** Display of amounts *)

Section DisplayFacts.

Lemma pow10_0 : pow10 0 = 1%N.
Proof. reflexivity. Qed.

Lemma to_N_nonpos (k : Z) : k <= 0 -> Z.to_N k = 0%N.
Proof. destruct k; [reflexivity | lia | reflexivity]. Qed.

Lemma pow10_neg (k : Z) : k <= 0 -> pow10 k = 1%N.
Proof. intros H. unfold pow10. rewrite to_N_nonpos by exact H. reflexivity. Qed.

Lemma pow10_add (a b : Z) : 0 <= a -> 0 <= b -> pow10 (a + b) = (pow10 a * pow10 b)%N.
Proof.
  intros Ha Hb. unfold pow10. rewrite Z2N.inj_add by assumption. apply N.pow_add_r.
Qed.

Lemma pow10_succ (a : Z) : 0 <= a -> pow10 (a + 1) = (10 * pow10 a)%N.
Proof.
  intros Ha. rewrite pow10_add by lia. change (pow10 1) with 10%N. lia.
Qed.

Lemma pow10_le_mono (a b : Z) : a <= b -> (pow10 a <= pow10 b)%N.
Proof.
  intros H. unfold pow10. apply N.pow_le_mono_r; [discriminate|].
  destruct (Z.le_gt_cases 0 a).
  - apply Z2N.inj_le; lia.
  - rewrite (to_N_nonpos a) by lia. lia.
Qed.

Lemma pow10_lt_inv (a b : Z) : 0 <= b -> (pow10 a < pow10 b)%N -> a < b.
Proof.
  intros Hb H. destruct (Z.lt_ge_cases a b) as [|Hge]; [assumption|].
  pose proof (pow10_le_mono b a Hge). lia.
Qed.

Lemma ndigits_fuel_pos (fuel : nat) (n : N) : 1 <= ndigits_fuel fuel n.
Proof.
  revert n. induction fuel as [|f IH]; intros n; simpl; [lia|].
  destruct (n <? 10)%N; [lia|]. specialize (IH (n / 10)%N). lia.
Qed.

Lemma ndigits_fuel_spec (fuel : nat) (n : N) :
  (0 < n)%N -> (n < 10 * 8 ^ N.of_nat fuel)%N ->
  (pow10 (ndigits_fuel fuel n - 1) <= n < pow10 (ndigits_fuel fuel n))%N.
Proof.
  revert n. induction fuel as [|f IH]; intros n Hpos Hlt.
  - simpl in *. change (pow10 (1 - 1)) with 1%N. change (pow10 1) with 10%N. lia.
  - simpl ndigits_fuel. destruct (N.ltb_spec n 10) as [Hs|Hs].
    + change (pow10 (1 - 1)) with 1%N. change (pow10 1) with 10%N. lia.
    + assert (Hq : (0 < n / 10)%N) by (apply N.div_str_pos; lia).
      assert (Hb : (n / 10 < 10 * 8 ^ N.of_nat f)%N).
      { apply N.Div0.div_lt_upper_bound.
        rewrite Nat2N.inj_succ, N.pow_succ_r' in Hlt. lia. }
      specialize (IH _ Hq Hb).
      pose proof (ndigits_fuel_pos f (n / 10)%N) as Hp.
      set (r := ndigits_fuel f (n / 10)%N) in *.
      replace (1 + r - 1) with ((r - 1) + 1) by lia.
      replace (1 + r) with (r + 1) by lia.
      rewrite !pow10_succ by lia.
      pose proof (N.div_mod n 10 ltac:(lia)).
      pose proof (N.mod_lt n 10 ltac:(lia)).
      clearbody r. clear Hlt Hb.
      generalize dependent (pow10 (r - 1)). generalize dependent (pow10 r).
      generalize dependent (n / 10)%N. generalize dependent (n mod 10)%N.
      intros; lia.
Qed.

(** The number of digits of a positive coefficient. *)
Lemma ndigits_spec (n : N) :
  (0 < n)%N -> (pow10 (ndigits n - 1) <= n < pow10 (ndigits n))%N.
Proof.
  intros Hpos. apply ndigits_fuel_spec; [exact Hpos|].
  rewrite N2Nat.id.
  destruct (N.log2_spec n Hpos) as [_ Hu].
  rewrite N.pow_succ_r' in Hu.
  assert (2 ^ N.log2 n <= 8 ^ N.log2 n)%N by (apply N.pow_le_mono_l; lia).
  lia.
Qed.

Lemma ndigits_pos (n : N) : 1 <= ndigits n.
Proof. apply ndigits_fuel_pos. Qed.

Lemma ndigits_le (n : N) (k : Z) : (0 < n)%N -> (n < pow10 k)%N -> ndigits n <= k.
Proof.
  intros Hpos Hlt. destruct (Z.le_gt_cases k 0) as [Hk|Hk].
  - rewrite pow10_neg in Hlt by exact Hk. lia.
  - destruct (ndigits_spec n Hpos) as [Hl _].
    assert (ndigits n - 1 < k) by (apply pow10_lt_inv; lia). lia.
Qed.

(** Comparison of two unsigned decimals, as a comparison of naturals. *)
Lemma Dcompare_unsigned (a b : N) (ea eb : Z) :
  Dcompare (mkDec false a ea) (mkDec false b eb)
  = (a * pow10 (ea - Z.min ea eb) ?= b * pow10 (eb - Z.min ea eb))%N.
Proof. unfold Dcompare, signed_at; simpl. apply N2Z.inj_compare. Qed.

Lemma Dcompare_negated (a b : N) (ea eb : Z) :
  Dcompare (mkDec true a ea) (mkDec true b eb)
  = Dcompare (mkDec false b eb) (mkDec false a ea).
Proof.
  unfold Dcompare, signed_at; simpl. rewrite (Z.min_comm eb ea).
  apply Z.compare_opp.
Qed.

(** The amounts [format_bnb] can display: those below 10^22 in
    magnitude. *)
Lemma below_1e22 (d : Decimal) :
  Dlt (Dabs d) (mkDec false 1 22) = true ->
  dcoef d = 0%N \/ (0 < dcoef d)%N /\ dexp d < 22 /\ (dcoef d < pow10 (22 - dexp d))%N.
Proof.
  unfold Dlt, Dabs. rewrite Dcompare_unsigned.
  destruct (N.compare_spec (dcoef d * pow10 (dexp d - Z.min (dexp d) 22))
                           (1 * pow10 (22 - Z.min (dexp d) 22))) as [|Hlt|];
    try discriminate.
  intros _. destruct (N.eq_0_gt_0_cases (dcoef d)) as [|Hpos]; [left; assumption|].
  right. destruct (Z.lt_ge_cases (dexp d) 22) as [Hd|Hd].
  - rewrite Z.min_l, Z.sub_diag, pow10_0 in Hlt by lia. split; [|split]; lia.
  - rewrite Z.min_r, Z.sub_diag, pow10_0 in Hlt by lia.
    pose proof (pow10_pos (dexp d - 22)). nia.
Qed.

Lemma quantize_down_below_1e22 (d : Decimal) :
  Dlt (Dabs d) (mkDec false 1 22) = true ->
  quantize_down (-6) d = Some (mkDec (dsign d) (cut6 d) (-6)).
Proof.
  intros [Hz|(Hpos & Hd & Hlt)]%below_1e22; unfold quantize_down, cut6.
  - rewrite Hz. simpl. destruct (-6 <=? dexp d); reflexivity.
  - destruct (N.eqb_spec (dcoef d) 0) as [|_]; [lia|].
    pose proof (ndigits_le _ _ Hpos Hlt).
    destruct (Z.ltb_spec prec (ndigits (dcoef d) + dexp d - -6)) as [Hbad|_];
      [unfold prec in Hbad; lia|].
    destruct (-6 <=? dexp d); repeat f_equal; lia.
Qed.

Lemma cut6_below_1e28 (d : Decimal) :
  Dlt (Dabs d) (mkDec false 1 22) = true -> (cut6 d < pow10 28)%N.
Proof.
  intros [Hz|(Hpos & Hd & Hlt)]%below_1e22; unfold cut6.
  - rewrite Hz. destruct (-6 <=? dexp d); simpl; reflexivity.
  - destruct (Z.leb_spec (-6) (dexp d)) as [Hge|Hlt6].
    + replace 28 with ((22 - dexp d) + (dexp d + 6)) by lia.
      rewrite (pow10_add (22 - dexp d) (dexp d + 6)) by lia.
      apply N.mul_lt_mono_pos_r; [apply pow10_pos | exact Hlt].
    + apply N.Div0.div_lt_upper_bound.
      rewrite <- (pow10_add (-6 - dexp d) 28) by lia.
      replace (-6 - dexp d + 28) with (22 - dexp d) by lia. exact Hlt.
Qed.

(** Cutting is truncation of the magnitude. *)
Lemma cut6_truncates (d : Decimal) :
  Dle (mkDec false (cut6 d) (-6)) (Dabs d) = true /\
  Dlt (Dabs d) (mkDec false (cut6 d + 1) (-6)) = true.
Proof.
  unfold Dle, Dlt, Dabs, cut6. rewrite !Dcompare_unsigned.
  destruct (Z.leb_spec (-6) (dexp d)) as [Hge|Hlt6].
  - rewrite !Z.min_l, !Z.min_r, !Z.sub_diag, !pow10_0 by lia.
    replace (dexp d - -6) with (dexp d + 6) by lia.
    set (x := (dcoef d * pow10 (dexp d + 6))%N).
    split.
    + destruct (N.compare_spec (x * 1) x); [reflexivity | reflexivity | lia].
    + destruct (N.compare_spec x ((x + 1) * 1)); [lia | reflexivity | lia].
  - rewrite !Z.min_r, !Z.min_l, !Z.sub_diag, !pow10_0 by lia.
    set (p := pow10 (-6 - dexp d)).
    assert (Hp : (0 < p)%N) by apply pow10_pos.
    pose proof (N.div_mod (dcoef d) p ltac:(lia)) as Hdm.
    pose proof (N.mod_lt (dcoef d) p ltac:(lia)) as Hm.
    generalize dependent (dcoef d / p)%N. generalize dependent (dcoef d mod p)%N.
    intros m Hm q Hdm. split.
    + destruct (N.compare_spec (q * p) (dcoef d * 1)); [reflexivity | reflexivity | nia].
    + destruct (N.compare_spec (dcoef d * 1) ((q + 1) * p)); [nia | reflexivity | nia].
Qed.

Lemma fix_small (d : Decimal) : (dcoef d < pow10 28)%N -> fix_ d = d.
Proof.
  intros Hlt. unfold fix_.
  destruct (N.eqb_spec (dcoef d) 0) as [|Hnz]; [reflexivity|].
  pose proof (ndigits_le (dcoef d) 28 ltac:(lia) Hlt) as Hn.
  destruct (Z.leb_spec (ndigits (dcoef d)) prec) as [|Hbad];
    [reflexivity | unfold prec in Hbad; lia].
Qed.

Lemma strip_zeros_spec (fuel : nat) (c : N) (e : Z) :
  e <= snd (strip_zeros fuel c e) /\
  c = (fst (strip_zeros fuel c e) * pow10 (snd (strip_zeros fuel c e) - e))%N.
Proof.
  revert c e. induction fuel as [|f IH]; intros c e; simpl.
  - rewrite Z.sub_diag, pow10_0. lia.
  - destruct (N.eqb_spec (c mod 10) 0) as [Hm|Hm]; simpl.
    + destruct (IH (c / 10)%N (e + 1)) as [Hle Heq].
      set (r := strip_zeros f (c / 10) (e + 1)) in *.
      split; [lia|].
      replace (snd r - e) with ((snd r - (e + 1)) + 1) by lia.
      rewrite pow10_succ by lia.
      pose proof (N.div_mod c 10 ltac:(lia)) as Hdm. rewrite Hm in Hdm.
      rewrite Hdm at 1. rewrite Heq at 1. lia.
    + rewrite Z.sub_diag, pow10_0. lia.
Qed.

(** What [normalize] returns for a value of at most 28 digits: the same
    sign, and a coefficient and an exponent of the same value. *)
Lemma normalize_small (q : Decimal) :
  (dcoef q < pow10 28)%N ->
  dsign (normalize q) = dsign q /\
  ((dcoef q = 0%N /\ dcoef (normalize q) = 0%N /\ dexp (normalize q) = 0) \/
   ((0 < dcoef q)%N /\ dexp q <= dexp (normalize q) /\
    dcoef q = (dcoef (normalize q) * pow10 (dexp (normalize q) - dexp q))%N)).
Proof.
  intros Hlt. unfold normalize. rewrite (fix_small q Hlt).
  destruct (N.eqb_spec (dcoef q) 0) as [Hz|Hnz]; simpl.
  - split; [reflexivity|]. left. auto.
  - destruct (strip_zeros_spec (N.to_nat (N.log2 (dcoef q))) (dcoef q) (dexp q))
      as [Hle Heq].
    destruct (strip_zeros _ (dcoef q) (dexp q)) as [c e]; simpl in *.
    split; [reflexivity|]. right. split; [lia|]. split; assumption.
Qed.

(** [strip_zeros] stops at a coefficient that does not end in 0. *)
Lemma strip_zeros_last (fuel : nat) (c : N) (e : Z) :
  (0 < c)%N -> (c < 2 ^ N.of_nat (S fuel))%N ->
  (fst (strip_zeros fuel c e) mod 10 <> 0)%N.
Proof.
  revert c e. induction fuel as [|f IH]; intros c e Hpos Hlt.
  - simpl in *. assert (c = 1%N) as -> by lia. discriminate.
  - cbn [strip_zeros]. destruct (N.eqb_spec (c mod 10) 0) as [Hm|Hm]; [|exact Hm].
    pose proof (N.div_mod c 10 ltac:(lia)) as Hdm. rewrite Hm in Hdm.
    rewrite Nat2N.inj_succ, N.pow_succ_r' in Hlt.
    apply IH.
    + generalize dependent (c / 10)%N. intros k Hdm. lia.
    + apply N.Div0.div_lt_upper_bound. lia.
Qed.

(** A normalized coefficient other than 0 does not end in 0. *)
Lemma normalize_no_trailing_zero (q : Decimal) :
  (dcoef q < pow10 28)%N -> (0 < dcoef q)%N ->
  (dcoef (normalize q) mod 10 <> 0)%N.
Proof.
  intros Hlt Hpos. unfold normalize. rewrite (fix_small q Hlt).
  destruct (N.eqb_spec (dcoef q) 0) as [Hz|_]; [lia|].
  pose proof (strip_zeros_last (N.to_nat (N.log2 (dcoef q))) (dcoef q) (dexp q) Hpos) as H.
  destruct (strip_zeros _ (dcoef q) (dexp q)) as [c e]; simpl in *.
  apply H. rewrite Nat2N.inj_succ, N2Nat.id.
  apply (N.log2_spec (dcoef q) Hpos).
Qed.

(** From 10^22 on in magnitude [quantize] raises: the result would need
    more than the 28 digits of the context. *)
Lemma format_bnb_raises_from_1e22 (d : Decimal) :
  Dlt (Dabs d) (mkDec false 1 22) = false -> format_bnb d = None.
Proof.
  unfold Dlt, Dabs. rewrite Dcompare_unsigned. intros Hge.
  assert (Hle : (1 * pow10 (22 - Z.min (dexp d) 22)
                 <= dcoef d * pow10 (dexp d - Z.min (dexp d) 22))%N).
  { destruct (N.compare_spec (dcoef d * pow10 (dexp d - Z.min (dexp d) 22))
                             (1 * pow10 (22 - Z.min (dexp d) 22))) as [E|E|E];
      [rewrite E; reflexivity | discriminate Hge | apply N.lt_le_incl; exact E]. }
  clear Hge.
  pose proof (pow10_pos (22 - Z.min (dexp d) 22)) as Hp.
  assert (Hpos : (0 < dcoef d)%N).
  { destruct (N.eq_0_gt_0_cases (dcoef d)) as [Hz|]; [|assumption].
    rewrite Hz in Hle. simpl in Hle. lia. }
  assert (Hn : 22 < ndigits (dcoef d) + dexp d).
  { destruct (ndigits_spec (dcoef d) Hpos) as [_ Hup].
    pose proof (ndigits_pos (dcoef d)) as Hn1.
    destruct (Z.le_gt_cases (dexp d) 22) as [He|He]; [|lia].
    rewrite Z.min_l, Z.sub_diag, pow10_0, N.mul_1_r, N.mul_1_l in Hle by exact He.
    assert (Hlt : (pow10 (22 - dexp d) < pow10 (ndigits (dcoef d)))%N) by lia.
    apply pow10_lt_inv in Hlt; lia. }
  unfold format_bnb, quantize_down. change (dexp DECIMALS_DISPLAY) with (-6).
  destruct (N.eqb_spec (dcoef d) 0) as [Hz|_]; [lia|].
  destruct (Z.ltb_spec prec (ndigits (dcoef d) + dexp d - -6)) as [_|Hbad];
    [reflexivity | unfold prec in Hbad; lia].
Qed.

End DisplayFacts.

(** ** Reading a displayed amount back *)

Section ReadBack.

Lemma app_cons (c : ascii) (a b : string) :
  (String c a ++ b)%string = String c (a ++ b).
Proof. reflexivity. Qed.

Lemma app_nil (b : string) : (EmptyString ++ b)%string = b.
Proof. reflexivity. Qed.

Ltac ssimpl := simpl; rewrite ?app_cons, ?app_nil; simpl.

Lemma length_app (a b : string) :
  String.length (a ++ b) = (String.length a + String.length b)%nat.
Proof. induction a as [|c a IH]; ssimpl; [reflexivity | rewrite IH; reflexivity]. Qed.

Lemma app_assoc_s (a b c : string) : ((a ++ b) ++ c = a ++ (b ++ c))%string.
Proof. induction a as [|x a IH]; ssimpl; [reflexivity | rewrite IH; reflexivity]. Qed.

Lemma app_empty_r (a : string) : (a ++ EmptyString = a)%string.
Proof. induction a as [|x a IH]; ssimpl; [reflexivity | rewrite IH; reflexivity]. Qed.

Lemma length_repeat_char (c : ascii) (n : nat) : String.length (repeat_char c n) = n.
Proof. induction n as [|n IH]; simpl; [reflexivity | rewrite IH; reflexivity]. Qed.

Lemma take_drop (n : nat) (s : string) : (take n s ++ drop n s)%string = s.
Proof.
  revert s. induction n as [|n IH]; intros [|c s]; ssimpl; try reflexivity.
  rewrite IH. reflexivity.
Qed.

Lemma length_drop (n : nat) (s : string) :
  String.length (drop n s) = (String.length s - n)%nat.
Proof.
  revert s. induction n as [|n IH]; intros [|c s]; simpl; try reflexivity.
  apply IH.
Qed.

Lemma take_all (s : string) : take (String.length s) s = s.
Proof. induction s as [|c s IH]; simpl; [reflexivity | rewrite IH; reflexivity]. Qed.

Lemma drop_all (s : string) : drop (String.length s) s = EmptyString.
Proof. induction s as [|c s IH]; simpl; [reflexivity | exact IH]. Qed.

Lemma truthy_length (s : string) : truthy s = negb (String.length s =? 0)%nat.
Proof. destruct s; reflexivity. Qed.

(** *** Strings of digits *)

Lemma all_digits_app (a b : string) :
  all_digits (a ++ b) = all_digits a && all_digits b.
Proof.
  unfold all_digits. induction a as [|c a IH]; ssimpl; [reflexivity|].
  rewrite IH. apply andb_assoc.
Qed.

Lemma all_digits_zeros (n : nat) : all_digits (repeat_char "0" n) = true.
Proof. induction n as [|n IH]; [reflexivity | exact IH]. Qed.

Lemma all_digits_take (n : nat) (s : string) :
  all_digits s = true -> all_digits (take n s) = true.
Proof.
  unfold all_digits. revert s. induction n as [|n IH]; intros [|c s]; simpl;
    try reflexivity.
  intros [Hc Hs]%andb_prop. rewrite Hc. apply IH, Hs.
Qed.

Lemma all_digits_drop (n : nat) (s : string) :
  all_digits s = true -> all_digits (drop n s) = true.
Proof.
  unfold all_digits. revert s. induction n as [|n IH]; intros [|c s]; simpl;
    try reflexivity; auto.
  intros [Hc Hs]%andb_prop. apply IH, Hs.
Qed.

Lemma digit_not_dot (c : ascii) : Concrete.is_digit c = true -> Ascii.eqb c "." = false.
Proof.
  intros H. destruct (Ascii.eqb_spec c ".") as [->|]; [discriminate H | reflexivity].
Qed.

Lemma digit_not_minus (c : ascii) : Concrete.is_digit c = true -> Ascii.eqb c "-" = false.
Proof.
  intros H. destruct (Ascii.eqb_spec c "-") as [->|]; [discriminate H | reflexivity].
Qed.

Lemma before_dot_digits (a b : string) :
  all_digits a = true -> before_dot (a ++ String "." b) = a.
Proof.
  unfold all_digits. induction a as [|c a IH]; ssimpl; [reflexivity|].
  intros [Hc Ha]%andb_prop. rewrite (digit_not_dot c Hc), IH by exact Ha. reflexivity.
Qed.

Lemma after_dot_digits (a b : string) :
  all_digits a = true -> after_dot (a ++ String "." b) = Some b.
Proof.
  unfold all_digits. induction a as [|c a IH]; ssimpl; [reflexivity|].
  intros [Hc Ha]%andb_prop. rewrite (digit_not_dot c Hc). apply IH, Ha.
Qed.

Lemma before_dot_none (a : string) : all_digits a = true -> before_dot a = a.
Proof.
  unfold all_digits. induction a as [|c a IH]; ssimpl; [reflexivity|].
  intros [Hc Ha]%andb_prop. rewrite (digit_not_dot c Hc), IH by exact Ha. reflexivity.
Qed.

Lemma after_dot_none (a : string) : all_digits a = true -> after_dot a = None.
Proof.
  unfold all_digits. induction a as [|c a IH]; ssimpl; [reflexivity|].
  intros [Hc Ha]%andb_prop. rewrite (digit_not_dot c Hc). apply IH, Ha.
Qed.

Lemma digits_value_app (a b : string) :
  digits_value (a ++ b)
  = (digits_value a * 10 ^ N.of_nat (String.length b) + digits_value b)%N.
Proof.
  induction a as [|c a IH]; ssimpl; [lia|].
  rewrite IH, length_app, Nat2N.inj_add, N.pow_add_r. lia.
Qed.

Lemma digits_value_zeros (n : nat) : digits_value (repeat_char "0" n) = 0%N.
Proof. induction n as [|n IH]; simpl; [reflexivity | rewrite IH; reflexivity]. Qed.

Lemma digit_char_value (n : N) :
  (n < 10)%N ->
  Concrete.is_digit (digit_char n) = true /\ (N_of_ascii (digit_char n) - 48 = n)%N.
Proof.
  intros H. unfold Concrete.is_digit, digit_char.
  rewrite N_ascii_embedding by lia. split; [|lia].
  apply andb_true_intro. split; apply N.leb_le; lia.
Qed.

Lemma digits_fuel_spec (fuel : nat) (n : N) (acc : string) :
  (n < 10 * 8 ^ N.of_nat fuel)%N ->
  all_digits (digits_fuel fuel n acc) = all_digits acc /\
  truthy (digits_fuel fuel n acc) = true /\
  digits_value (digits_fuel fuel n acc)
  = (n * 10 ^ N.of_nat (String.length acc) + digits_value acc)%N.
Proof.
  revert n acc. induction fuel as [|f IH]; intros n acc Hlt.
  - simpl in Hlt. simpl digits_fuel. rewrite N.mod_small by lia.
    destruct (digit_char_value n ltac:(lia)) as [Hd Hv].
    unfold all_digits; simpl. rewrite Hd, Hv. auto.
  - simpl digits_fuel. destruct (N.ltb_spec n 10) as [Hs|Hs].
    + destruct (digit_char_value n Hs) as [Hd Hv].
      unfold all_digits; simpl. rewrite Hd, Hv. auto.
    + assert (Hb : (n / 10 < 10 * 8 ^ N.of_nat f)%N).
      { apply N.Div0.div_lt_upper_bound.
        rewrite Nat2N.inj_succ, N.pow_succ_r' in Hlt. lia. }
      destruct (IH (n / 10)%N (String (digit_char (n mod 10)) acc) Hb)
        as (Ha & Ht & Hv).
      destruct (digit_char_value (n mod 10) ltac:(apply N.mod_lt; lia)) as [Hd Hdv].
      split; [|split].
      * rewrite Ha. unfold all_digits; simpl. rewrite Hd. reflexivity.
      * exact Ht.
      * rewrite Hv. simpl. rewrite Hdv.
        rewrite Nat2N.inj_succ, N.pow_succ_r'.
        pose proof (N.div_mod n 10 ltac:(lia)) as Hdm.
        generalize dependent (n / 10)%N. generalize dependent (n mod 10)%N.
        intros; subst n. lia.
Qed.

(** The digits of a number are digits, there is at least one, and they
    write the number. *)
Lemma digits_spec (n : N) :
  all_digits (digits n) = true /\ truthy (digits n) = true /\
  digits_value (digits n) = n.
Proof.
  assert (Hlt : (n < 10 * 8 ^ N.of_nat (N.to_nat (N.log2 n)))%N).
  { rewrite N2Nat.id. destruct (N.eq_0_gt_0_cases n) as [->|Hpos]; [reflexivity|].
    destruct (N.log2_spec n Hpos) as [_ Hu]. rewrite N.pow_succ_r' in Hu.
    assert (2 ^ N.log2 n <= 8 ^ N.log2 n)%N by (apply N.pow_le_mono_l; lia). lia. }
  destruct (digits_fuel_spec _ n EmptyString Hlt) as (Ha & Ht & Hv).
  unfold digits. rewrite Ha, Ht, Hv. simpl. repeat split. lia.
Qed.

(** *** Reading what [format_f] writes *)

Lemma truthy_app_l (a b : string) : truthy a = true -> truthy (a ++ b) = true.
Proof. destruct a; [discriminate | reflexivity]. Qed.

Lemma truthy_app_r (a b : string) : truthy b = true -> truthy (a ++ b) = true.
Proof. destruct a; [rewrite app_nil; auto | reflexivity]. Qed.

Lemma read_unsigned_int (ip : string) :
  all_digits ip = true -> truthy ip = true ->
  read_unsigned ip = Some (digits_value ip, 0).
Proof.
  intros Ha Ht. unfold read_unsigned.
  rewrite (after_dot_none ip Ha), (before_dot_none ip Ha), Ht, Ha. reflexivity.
Qed.

Lemma read_unsigned_frac (ip fp : string) :
  all_digits ip = true -> truthy ip = true ->
  all_digits fp = true -> truthy fp = true ->
  read_unsigned (ip ++ String "." fp) = Some (digits_value (ip ++ fp), - len fp).
Proof.
  intros Ha Ht Hb Hu. unfold read_unsigned.
  rewrite (after_dot_digits ip fp Ha), (before_dot_digits ip fp Ha), Ht, Ha, Hu, Hb.
  reflexivity.
Qed.

Lemma read_fixed_signed (sg : bool) (ip rest : string) :
  all_digits ip = true -> truthy ip = true ->
  read_fixed ((if sg then "-" else EmptyString) ++ ip ++ rest)
  = match read_unsigned (ip ++ rest) with
    | Some (n, e) => Some (mkDec sg n e)
    | None => None
    end.
Proof.
  intros Ha Ht. destruct ip as [|c ip]; [discriminate|].
  unfold all_digits in Ha; simpl in Ha. apply andb_prop in Ha as [Hc _].
  destruct sg; rewrite ?app_cons, ?app_nil; unfold read_fixed.
  - reflexivity.
  - rewrite (digit_not_minus c Hc). reflexivity.
Qed.

Lemma of_nat_to_nat (k : Z) : N.of_nat (Z.to_nat k) = Z.to_N k.
Proof. destruct k; simpl; try reflexivity. apply positive_nat_N. Qed.

(** The text of [format(d, "f")] reads back as [d], written without a
    positive exponent. *)
Lemma read_fixed_format_f (d : Decimal) :
  read_fixed (format_f d)
  = Some (if 0 <? dexp d then mkDec (dsign d) (dcoef d * pow10 (dexp d)) 0 else d).
Proof.
  unfold format_f.
  destruct ((dcoef d =? 0)%N && (0 <? dexp d)) eqn:Hz.
  - apply andb_prop in Hz as [Hc He]. apply N.eqb_eq in Hc. rewrite He, Hc.
    destruct (dsign d); reflexivity.
  - destruct d as [sg c e]; simpl in *.
    destruct (digits_spec c) as (Ha & Ht & Hv).
    set (ds := digits c) in *. unfold len.
    assert (HL : (0 < String.length ds)%nat) by (destruct ds; [discriminate | simpl; lia]).
    set (L := String.length ds) in *.
    destruct (Z.ltb_spec (e + Z.of_nat L) 0) as [Hneg|Hnn].
    + (* 0.000ddd *)
      assert (He : (0 <? e) = false) by (apply Z.ltb_ge; lia). rewrite He.
      rewrite (truthy_app_r _ ds Ht).
      change (("0" ++ "." ++ repeat_char "0" (Z.to_nat (- (e + Z.of_nat L))) ++ ds)%string)
        with (("0" ++ String "." (repeat_char "0" (Z.to_nat (- (e + Z.of_nat L))) ++ ds))%string).
      rewrite (read_fixed_signed sg "0" _ eq_refl eq_refl).
      rewrite read_unsigned_frac; try reflexivity.
      * rewrite app_cons, app_nil. simpl digits_value.
        rewrite digits_value_app, digits_value_zeros, Hv.
        unfold len. rewrite length_app, length_repeat_char. fold L.
        repeat f_equal; lia.
      * rewrite all_digits_app, all_digits_zeros, Ha. reflexivity.
      * apply truthy_app_r, Ht.
    + destruct (Z.ltb_spec (Z.of_nat L) (e + Z.of_nat L)) as [Hpos|Hle].
      * (* ddd000 *)
        assert (He : (0 <? e) = true) by (apply Z.ltb_lt; lia). rewrite He.
        simpl truthy. rewrite app_empty_r.
        rewrite (read_fixed_signed sg ds _ Ha Ht).
        rewrite read_unsigned_int.
        -- rewrite digits_value_app, digits_value_zeros, Hv, length_repeat_char.
           replace (e + Z.of_nat L - Z.of_nat L) with e by lia.
           rewrite of_nat_to_nat. unfold pow10. repeat f_equal; lia.
        -- rewrite all_digits_app, all_digits_zeros, Ha. reflexivity.
        -- apply truthy_app_l, Ht.
      * (* ddd.ddd *)
        assert (He : (0 <? e) = false) by (apply Z.ltb_ge; lia). rewrite He.
        set (k := Z.to_nat (e + Z.of_nat L)).
        assert (Hk : (k <= L)%nat) by (unfold k; lia).
        pose proof (take_drop k ds) as Htd.
        pose proof (length_drop k ds) as Hld. fold L in Hld.
        pose proof (all_digits_take k ds Ha) as Hat.
        pose proof (all_digits_drop k ds Ha) as Had.
        destruct (Z.eq_dec e 0) as [->|Hne].
        -- assert (k = L) as -> by (unfold k; lia).
           unfold L. rewrite take_all, drop_all, Ht. simpl truthy. rewrite app_empty_r.
           rewrite <- (app_empty_r ds) at 1.
           rewrite (read_fixed_signed sg ds EmptyString Ha Ht), app_empty_r.
           rewrite (read_unsigned_int ds Ha Ht), Hv. reflexivity.
        -- assert (Hfr : truthy (drop k ds) = true).
           { rewrite truthy_length, Hld. apply negb_true_iff, Nat.eqb_neq. lia. }
           rewrite Hfr.
           change ("." ++ drop k ds)%string with (String "." (drop k ds)).
           destruct (truthy (take k ds)) eqn:Htk.
           ++ rewrite (read_fixed_signed sg (take k ds) _ Hat Htk).
              rewrite (read_unsigned_frac _ _ Hat Htk Had Hfr), Htd, Hv.
              unfold len. repeat f_equal. unfold k in *. lia.
           ++ assert (Hk0 : take k ds = EmptyString) by (destruct (take k ds); [reflexivity | discriminate]).
              rewrite Hk0, app_nil in Htd.
              rewrite (read_fixed_signed sg "0" _ eq_refl eq_refl).
              rewrite (read_unsigned_frac "0" _ eq_refl eq_refl Had Hfr).
              rewrite app_cons, app_nil, Htd. simpl digits_value. rewrite Hv.
              unfold len. fold L.
              assert (k = 0%nat).
              { destruct k; [reflexivity|]. destruct ds; [discriminate Ht | discriminate Hk0]. }
              repeat f_equal; lia.
Qed.

End ReadBack.

Lemma Dcompare_same_sign (sg : bool) (a b : N) (ea eb : Z) :
  (a * pow10 (ea - Z.min ea eb) = b * pow10 (eb - Z.min ea eb))%N ->
  Dcompare (mkDec sg a ea) (mkDec sg b eb) = Eq.
Proof.
  intros H. unfold Dcompare, signed_at; simpl. rewrite H.
  destruct sg; apply Z.compare_refl.
Qed.

(** C9, as the code has it. For an amount below 10^22 in magnitude
    [format_bnb] shows the amount cut at the sixth decimal: the value [q]
    shown is a multiple of 10^-6 with the sign of [d], it is not larger than
    [d] in magnitude and less than 10^-6 is dropped, so that it never exceeds
    [d] when [d] is not negative; the text is that value in fixed-point
    notation with at most six decimals, the last of which is not 0, followed
    by " BNB". *)
Theorem format_bnb_truncates (d : Decimal) :
  Dlt (Dabs d) (mkDec false 1 22) = true ->
  exists (q : Decimal) (s : string) (v : Decimal),
    dexp q = -6 /\ dsign q = dsign d /\
    Dle (Dabs q) (Dabs d) = true /\
    Dlt (Dabs d) (mkDec false (dcoef q + 1) (-6)) = true /\
    (dsign d = false -> Dle q d = true) /\
    (dsign d = true -> Dle d q = true) /\
    format_bnb d = Some (s ++ " BNB")%string /\
    read_fixed s = Some v /\
    Dcompare v q = Eq /\ dsign v = dsign d /\ -6 <= dexp v <= 0 /\
    (dexp v = 0 \/ (dcoef v mod 10 <> 0)%N).
Proof.
  intros Hd.
  pose proof (quantize_down_below_1e22 d Hd) as Hq.
  pose proof (cut6_below_1e28 d Hd) as Hlt.
  destruct (cut6_truncates d) as [Hle Hup].
  set (q := mkDec (dsign d) (cut6 d) (-6)) in *.
  exists q, (format_f (normalize q)),
    (if 0 <? dexp (normalize q)
     then mkDec (dsign (normalize q)) (dcoef (normalize q) * pow10 (dexp (normalize q))) 0
     else normalize q).
  split; [reflexivity|]. split; [reflexivity|].
  split; [exact Hle|]. split; [exact Hup|].
  split; [|split].
  - intros Hs. unfold q. destruct d as [sg c e]; simpl in *. subst sg. exact Hle.
  - intros Hs. unfold q. destruct d as [sg c e]; simpl in *. subst sg.
    unfold Dle. rewrite Dcompare_negated. exact Hle.
  - split.
    { unfold format_bnb. change (dexp DECIMALS_DISPLAY) with (-6). rewrite Hq. reflexivity. }
    split; [apply read_fixed_format_f|].
    destruct (normalize_small q Hlt) as [Hsg Hcases].
    pose proof (normalize_no_trailing_zero q Hlt) as Hlast.
    destruct (normalize q) as [sn cn en]; simpl in *.
    destruct Hcases as [(Hz & Hcn & Hen)|(Hpos & Hge & Heq)].
    + subst cn en. simpl. split; [|split; [exact Hsg | split; [lia | left; reflexivity]]].
      rewrite Hsg. unfold q. apply Dcompare_same_sign. rewrite Hz. reflexivity.
    + destruct (Z.ltb_spec 0 en) as [Hp|Hn]; simpl.
      * split; [|split; [exact Hsg | split; [lia | left; reflexivity]]].
        rewrite Hsg. unfold q. apply Dcompare_same_sign.
        rewrite Z.min_r by lia. rewrite Z.sub_diag, pow10_0, N.mul_1_r.
        rewrite Heq. rewrite <- N.mul_assoc. f_equal.
        rewrite <- pow10_add by lia. f_equal.
      * split; [|split; [exact Hsg | split; [lia | right; exact (Hlast Hpos)]]].
        rewrite Hsg. unfold q. apply Dcompare_same_sign.
        rewrite Z.min_r by lia. rewrite Z.sub_diag, pow10_0, N.mul_1_r.
        rewrite Heq. reflexivity.
Qed.

Lemma format_bnb_truncates_witness :
  format_bnb (mkDec false 1234567 (-7)) = Some "0.123456 BNB"%string /\
  exists (q : Decimal) (s : string) (v : Decimal),
    dexp q = -6 /\ dsign q = false /\
    Dle (Dabs q) (mkDec false 1234567 (-7)) = true /\
    Dlt (mkDec false 1234567 (-7)) (mkDec false (dcoef q + 1) (-6)) = true /\
    (false = false -> Dle q (mkDec false 1234567 (-7)) = true) /\
    (false = true -> Dle (mkDec false 1234567 (-7)) q = true) /\
    format_bnb (mkDec false 1234567 (-7)) = Some (s ++ " BNB")%string /\
    read_fixed s = Some v /\
    Dcompare v q = Eq /\ dsign v = false /\ -6 <= dexp v <= 0 /\
    (dexp v = 0 \/ (dcoef v mod 10 <> 0)%N).
Proof.
  split; [reflexivity|].
  apply (format_bnb_truncates (mkDec false 1234567 (-7))). reflexivity.
Defined.

(** Where the claim fails. The amount 1E+22 is not displayed at all:
    [quantize] raises, so no text is returned for it. And an amount is not
    shown at six decimal places when it has fewer: 0.5 is shown as
    [0.5 BNB] and 2 as [2 BNB]. *)
Lemma format_bnb_not_six_places_for_all :
  (~ exists s : string, format_bnb (mkDec false 1 22) = Some s) /\
  format_bnb (mkDec false 5 (-1)) = Some "0.5 BNB"%string /\
  format_bnb (mkDec false 2000000 (-6)) = Some "2 BNB"%string.
Proof.
  split; [intros [s H]; discriminate H|]. split; reflexivity.
Qed.


(** * The rest of the code *)

(** ** How the handlers change the rows of [users] *)

Section Rows.

Variable lib : Library.
Variable cfg : Config.

Lemma ensure_user_lookup (d : Db) (t t' : Z) (un : option string) (r : option Z) :
  users (ensure_user d t un r) !! t'
  = if decide (t = t') then Some (default (new_user un r) (users d !! t))
    else users d !! t'.
Proof.
  unfold ensure_user. destruct (users d !! t) as [u|] eqn:E; simpl.
  - case_decide; [subst; exact E | reflexivity].
  - rewrite lookup_insert. case_decide; reflexivity.
Qed.

Lemma ensure_user_withdrawals (d : Db) (t : Z) (un : option string) (r : option Z) :
  withdrawals (ensure_user d t un r) = withdrawals d.
Proof. unfold ensure_user. destruct (users d !! t); reflexivity. Qed.

Variable R : User -> User -> Prop.
Hypothesis R_refl : forall u, R u u.
Hypothesis R_trans : forall u v x, R u v -> R v x -> R u x.

Lemma rows_related_refl (d : Db) : rows_related R d d.
Proof. intros t u H. eauto. Qed.

Lemma rows_related_trans (d1 d2 d3 : Db) :
  rows_related R d1 d2 -> rows_related R d2 d3 -> rows_related R d1 d3.
Proof.
  intros H12 H23 t u Hu. destruct (H12 t u Hu) as (v & Hv & Ruv).
  destruct (H23 t v Hv) as (x & Hx & Rvx). eauto.
Qed.

Lemma rows_related_users (d d' : Db) : users d = users d' -> rows_related R d d'.
Proof. intros E t u H. rewrite <- E. eauto. Qed.

Lemma rows_related_update (f : User -> User) (t : Z) (d : Db) :
  (forall u, users d !! t = Some u -> R u (f u)) ->
  rows_related R d (update_user f t d).
Proof.
  intros Hf t' u Hu. rewrite update_user_lookup. case_decide.
  - subst t'. rewrite Hu. simpl. eauto.
  - eauto.
Qed.

Lemma rows_related_ensure (d : Db) (t : Z) (un : option string) (r : option Z) :
  rows_related R d (ensure_user d t un r).
Proof.
  intros t' u Hu. rewrite ensure_user_lookup. case_decide.
  - subst t'. rewrite Hu. simpl. eauto.
  - eauto.
Qed.

Hypothesis R_credit : forall u amt, R u (with_balance (Dadd (balance u) amt) u).
Hypothesis R_zero : forall u, R u (with_balance Dzero u).
Hypothesis R_referral : forall u, R u (with_referrals (referrals u + 1) u).
Hypothesis R_wallet : forall u a, R u (with_wallet (Some a) u).
Hypothesis R_last_bonus : forall u s, R u (with_last_bonus (Some s) u).
Hypothesis R_joined : forall u, R u (with_joined_channel 1 u).
Hypothesis R_subscribed : forall u, R u (with_subscribed_yt 1 u).
Hypothesis R_message : forall u m, R u (with_last_bot_message_id (Some m) u).

Lemma rows_related_add_balance (d : Db) (t : Z) (amt : Decimal) :
  rows_related R d (add_balance d t amt).
Proof.
  unfold add_balance.
  eapply rows_related_trans; [apply rows_related_ensure|].
  apply rows_related_update. intros u Hu. unfold get_user_row. rewrite Hu. apply R_credit.
Qed.

Lemma rows_related_safe_send (d : Db) (chat : Z) (sent : option Z) :
  rows_related R d (safe_send_and_store d chat sent).
Proof.
  destruct sent; [|apply rows_related_refl].
  apply rows_related_update. intros; apply R_message.
Qed.

(** Every handler keeps every row, changing it by one of the eight
    column updates above at most. *)
Lemma step_rows_related (w : World) (e : Event) :
  rows_related R (db w) (db (world (step lib cfg w e))).
Proof.
  destruct e; simpl.
  - unfold start_cmd.
    destruct (credited_referrer _ tid) as [r|]; simpl.
    + eapply rows_related_trans; [|apply rows_related_safe_send].
      unfold inc_referrals.
      eapply rows_related_trans; [|apply rows_related_update; intros; apply R_referral].
      eapply rows_related_trans; [|apply rows_related_add_balance].
      eapply rows_related_trans; apply rows_related_ensure.
    + eapply rows_related_trans; [apply rows_related_ensure | apply rows_related_safe_send].
  - unfold check_both_callback.
    destruct member as [st|]; [|apply rows_related_refl].
    destruct (_ || _); [|apply rows_related_refl]. simpl.
    eapply rows_related_trans; [|apply rows_related_safe_send].
    unfold set_subscribed_flag, set_joined_flag.
    eapply rows_related_trans;
      [eapply rows_related_trans;
         [apply rows_related_ensure | apply rows_related_update; intros; apply R_joined]|].
    eapply rows_related_trans;
      [apply rows_related_ensure | apply rows_related_update; intros; apply R_subscribed].
  - apply rows_related_safe_send.
  - apply rows_related_safe_send.
  - apply rows_related_safe_send.
  - unfold admin_stats_cmd. destruct (negb _); simpl;
      [apply rows_related_refl | apply rows_related_safe_send].
  - unfold claim_daily_action.
    assert (Hgrant : rows_related R (db w)
              (safe_send_and_store
                 (record_last_bonus lib
                    (add_balance (ensure_user (db w) tid None None) tid (DAILY_BONUS cfg))
                    tid now') tid sent)).
    { eapply rows_related_trans; [|apply rows_related_safe_send].
      unfold record_last_bonus.
      eapply rows_related_trans;
        [|apply rows_related_update; intros; apply R_last_bonus].
      eapply rows_related_trans; [|apply rows_related_ensure].
      eapply rows_related_trans; [apply rows_related_ensure | apply rows_related_add_balance]. }
    destruct (negb _); simpl; [apply rows_related_safe_send|].
    destruct (get_user_row _ tid) as [row|]; [|exact Hgrant].
    destruct (last_bonus row) as [s|]; [|exact Hgrant].
    destruct (truthy s); [|exact Hgrant].
    destruct (fromisoformat lib s) as [l|]; [|exact Hgrant].
    destruct l as [t|t]; simpl; [|apply rows_related_ensure].
    destruct (now - t <? td_hours 24); simpl; [|exact Hgrant].
    eapply rows_related_trans; [apply rows_related_ensure | apply rows_related_safe_send].
  - unfold set_wallet_prompt; simpl. apply rows_related_safe_send.
  - unfold message_handler.
    destruct (if tid =? ADMIN_ID cfg then _ else _) as [wid|]; simpl.
    + destruct (get_withdrawal (db w) wid); simpl; [|apply rows_related_safe_send].
      eapply rows_related_trans; [|apply rows_related_safe_send].
      apply rows_related_users. symmetry. apply mark_withdrawal_users.
    + case_decide; simpl; [|apply rows_related_safe_send].
      destruct (is_valid_bsc_address lib (strip text)); simpl;
        [|apply rows_related_safe_send].
      eapply rows_related_trans; [|apply rows_related_safe_send].
      unfold set_wallet.
      eapply rows_related_trans;
        [apply rows_related_ensure | apply rows_related_update; intros; apply R_wallet].
  - unfold withdraw_action.
    destruct (negb _); simpl; [apply rows_related_safe_send|].
    destruct (Dlt _ _); simpl;
      [eapply rows_related_trans; [apply rows_related_ensure | apply rows_related_safe_send]|].
    destruct (match get_user_row _ tid with Some r => or_none (wallet r) | None => None end);
      simpl;
      [|eapply rows_related_trans; [apply rows_related_ensure | apply rows_related_safe_send]].
    destruct admin_ok; simpl;
      (eapply rows_related_trans; [|apply rows_related_safe_send]);
      (eapply rows_related_trans; [apply rows_related_ensure|]);
      apply rows_related_users; reflexivity.
  - unfold approve_reject_callback.
    destruct (negb _); simpl; [apply rows_related_refl|].
    destruct (parse_callback lib data) as [[action wid]|]; simpl; [|apply rows_related_refl].
    destruct (get_withdrawal (db w) wid) as [row|]; simpl; [|apply rows_related_refl].
    destruct (negb _); simpl; [apply rows_related_refl|].
    destruct (String.eqb action "approve"); simpl; [|apply rows_related_refl].
    unfold set_balance.
    eapply rows_related_trans;
      [apply rows_related_users; symmetry; apply mark_withdrawal_users|].
    eapply rows_related_trans;
      [apply rows_related_ensure | apply rows_related_update; intros; apply R_zero].
Qed.

Lemma run_rows_related (es : list Event) (w : World) :
  rows_related R (db w) (db (run lib cfg w es)).
Proof.
  revert w. induction es as [|e es IH]; intros w; simpl; [apply rows_related_refl|].
  eapply rows_related_trans; [apply step_rows_related | apply IH].
Qed.

End Rows.

(** ** How the handlers change the table [withdrawals] *)

Section Requests.

Variable lib : Library.
Variable cfg : Config.

Lemma update_user_withdrawals (f : User -> User) (t : Z) (d : Db) :
  withdrawals (update_user f t d) = withdrawals d.
Proof. reflexivity. Qed.

Lemma mark_withdrawal_withdrawals (d : Db) (wid : Z) (st : Status) :
  withdrawals (mark_withdrawal d wid st)
  = if 1 <=? wid then alter (with_status st) (Z.to_nat (wid - 1)) (withdrawals d)
    else withdrawals d.
Proof. unfold mark_withdrawal. destruct (1 <=? wid); reflexivity. Qed.

Ltac unchanged :=
  repeat rewrite ?safe_send_withdrawals, ?update_user_withdrawals,
                 ?ensure_user_withdrawals;
  reflexivity.

(** What one update does to the table: nothing, or one pending row
    appended by an accepted [/withdraw], or the status of one row set to
    approved or rejected by the operator. *)
Lemma step_withdrawals (w : World) (e : Event) :
  withdrawals (db (world (step lib cfg w e))) = withdrawals (db w)
  \/ (exists tid now admin_ok sent u a,
        e = EvWithdraw tid now admin_ok sent /\
        users (db w) !! tid = Some u /\ row_verified u = true /\
        Dlt (balance u) (MIN_WITHDRAW cfg) = false /\ or_none (wallet u) = Some a /\
        withdrawals (db (world (step lib cfg w e)))
        = (withdrawals (db w) ++ [mkWithdrawal tid (balance u) a pending now])%list)
  \/ (exists wid st row,
        operator_event cfg e /\ st <> pending /\
        get_withdrawal (db w) wid = Some row /\
        withdrawals (db (world (step lib cfg w e)))
        = withdrawals (mark_withdrawal (db w) wid st)).
Proof.
  destruct e; simpl.
  - left. unfold start_cmd. destruct (credited_referrer _ tid); simpl;
      unfold inc_referrals, add_balance; unchanged.
  - left. unfold check_both_callback. destruct member; [|reflexivity].
    destruct (_ || _); [|reflexivity]. simpl.
    unfold set_subscribed_flag, set_joined_flag. unchanged.
  - left. apply safe_send_withdrawals.
  - left. apply safe_send_withdrawals.
  - left. apply safe_send_withdrawals.
  - left. unfold admin_stats_cmd. destruct (negb _); simpl;
      [reflexivity | apply safe_send_withdrawals].
  - left. unfold claim_daily_action.
    assert (Hgrant : withdrawals
              (safe_send_and_store
                 (record_last_bonus lib
                    (add_balance (ensure_user (db w) tid None None) tid (DAILY_BONUS cfg))
                    tid now') tid sent) = withdrawals (db w)).
    { rewrite safe_send_withdrawals, grant_withdrawals. apply ensure_user_withdrawals. }
    destruct (negb _); simpl; [apply safe_send_withdrawals|].
    destruct (get_user_row _ tid) as [row|]; [|exact Hgrant].
    destruct (last_bonus row) as [s|]; [|exact Hgrant].
    destruct (truthy s); [|exact Hgrant].
    destruct (fromisoformat lib s) as [l|]; [|exact Hgrant].
    destruct l as [t|t]; simpl; [|apply ensure_user_withdrawals].
    destruct (now - t <? td_hours 24); simpl; [|exact Hgrant].
    rewrite safe_send_withdrawals. apply ensure_user_withdrawals.
  - left. unfold set_wallet_prompt; simpl. apply safe_send_withdrawals.
  - unfold message_handler.
    destruct (Z.eqb_spec tid (ADMIN_ID cfg)) as [Ht|Ht].
    + destruct (pending_rejects w !! ADMIN_ID cfg) as [wid|]; simpl.
      * destruct (get_withdrawal (db w) wid) as [row|] eqn:Hg; simpl.
        -- right. right. exists wid, rejected, row.
           rewrite safe_send_withdrawals.
           split; [exact Ht|]. split; [discriminate|]. split; [exact Hg | reflexivity].
        -- left. apply safe_send_withdrawals.
      * left. case_decide; simpl; [|apply safe_send_withdrawals].
        destruct (is_valid_bsc_address lib (strip text)); simpl;
          unfold set_wallet; unchanged.
    + left. case_decide; simpl; [|apply safe_send_withdrawals].
      destruct (is_valid_bsc_address lib (strip text)); simpl;
        unfold set_wallet; unchanged.
  - destruct (user_is_verified (db w) tid) eqn:Hv.
    + destruct (verified_row _ _ Hv) as (u & Hu & Hj & Hs).
      destruct (Dlt (balance u) (MIN_WITHDRAW cfg)) eqn:Hlt.
      * left. rewrite (withdraw_below_minimum cfg w tid now admin_ok sent u); auto.
        apply safe_send_withdrawals.
      * destruct (or_none (wallet u)) as [a|] eqn:Ha.
        -- right. left. exists tid, now, admin_ok, sent, u, a.
           rewrite (withdraw_accepted cfg w tid now admin_ok sent u a); auto. simpl.
           rewrite safe_send_withdrawals. repeat split; auto.
           unfold row_verified. rewrite Hj, Hs. reflexivity.
        -- left. rewrite (withdraw_no_address cfg w tid now admin_ok sent u); auto.
           apply safe_send_withdrawals.
    + left. rewrite (withdraw_not_verified cfg w tid now admin_ok sent Hv).
      apply safe_send_withdrawals.
  - unfold approve_reject_callback.
    destruct (Z.eqb_spec operator (ADMIN_ID cfg)) as [Ho|Ho]; simpl; [|left; reflexivity].
    destruct (parse_callback lib data) as [[action wid]|]; simpl; [|left; reflexivity].
    destruct (get_withdrawal (db w) wid) as [row|] eqn:Hg; simpl; [|left; reflexivity].
    destruct (negb _); simpl; [left; reflexivity|].
    destruct (String.eqb action "approve"); simpl; [|left; reflexivity].
    right. right. exists wid, approved, row.
    split; [exact Ho|]. split; [discriminate|]. split; [exact Hg|].
    simpl. rewrite ?ensure_user_withdrawals. reflexivity.
Qed.

(** Through one update a row of [withdrawals] keeps its id and the
    columns written at its creation, and a status that is not pending does
    not become pending. *)
Lemma step_keeps_request (w : World) (e : Event) (wid : Z) (r : Withdrawal) :
  get_withdrawal (db w) wid = Some r ->
  exists r', get_withdrawal (db (world (step lib cfg w e))) wid = Some r' /\
             request_of r' = request_of r /\
             (status r <> pending -> status r' <> pending).
Proof.
  intros Hg.
  destruct (step_withdrawals w e)
    as [E|[(tid & now & ok & sent & u & a & _ & _ & _ & _ & _ & E)|(wid' & st & row & _ & Hst & _ & E)]];
    unfold get_withdrawal in *; rewrite E.
  - eauto.
  - destruct (1 <=? wid); [|discriminate].
    rewrite lookup_app_l by (eapply lookup_lt_Some; eauto). eauto.
  - rewrite mark_withdrawal_withdrawals.
    destruct (1 <=? wid) eqn:Hw; [|discriminate].
    destruct (1 <=? wid'); [|eauto].
    rewrite list_lookup_alter. case_decide as Hi.
    + rewrite Hi, Hg. simpl. exists (with_status st r). repeat split. auto.
    + eauto.
Qed.

End Requests.

(** ** Invariants of the two tables *)

(** X1. No update deletes a user or rewrites the [username] and
    [referred_by] written when the row was created: whatever the bot handles
    afterwards, the row is still there with the same two columns. *)
Theorem users_keep_identity (lib : Library) (cfg : Config) (w : World)
    (es : list Event) (t : Z) (u : User) :
  users (db w) !! t = Some u ->
  exists u', users (db (run lib cfg w es)) !! t = Some u' /\
             username u' = username u /\ referred_by u' = referred_by u.
Proof.
  intros Hu.
  apply (run_rows_related lib cfg
           (fun a b => username b = username a /\ referred_by b = referred_by a));
    try (intros; split; reflexivity); [|exact Hu].
  intros a b c [H1 H2] [H3 H4]. split; congruence.
Qed.

(** User 100 came through Alice's link; a later [/start] of the same user
    under another name and through Bob's link changes neither column. *)
Lemma users_keep_identity_witness :
  exists u', users (db (run Concrete.pylib default_config funded_world
                          [EvStart 100 (Some "renamed"%string) ["ref43"%string] None]))
             !! 100 = Some u' /\
             username u' = None /\ referred_by u' = Some 42.
Proof.
  apply (users_keep_identity Concrete.pylib default_config funded_world
           [EvStart 100 (Some "renamed"%string) ["ref43"%string] None] 100
           (mkUser None Dzero 0 (Some 42) None None 0 0 None)).
  vm_compute. reflexivity.
Defined.

(** X2. A verified user stays verified: no handler resets
    [joined_channel] or [subscribed_yt]. *)
Theorem verification_is_never_revoked (lib : Library) (cfg : Config) (w : World)
    (es : list Event) (t : Z) :
  user_is_verified (db w) t = true ->
  user_is_verified (db (run lib cfg w es)) t = true.
Proof.
  intros Hv. destruct (verified_row _ _ Hv) as (u & Hu & Hj & Hs).
  assert (Hrel : exists u', users (db (run lib cfg w es)) !! t = Some u' /\
                            (row_verified u = true -> row_verified u' = true)).
  { apply (run_rows_related lib cfg
             (fun a b => row_verified a = true -> row_verified b = true));
      try exact Hu; try (intros; unfold row_verified in *; simpl; auto; fail).
    - intros a [_ H]%andb_prop. unfold row_verified; simpl. exact H.
    - intros a [H _]%andb_prop. unfold row_verified; simpl. rewrite H. reflexivity. }
  destruct Hrel as (u' & Hu' & Hr).
  unfold user_is_verified, get_user_row. rewrite Hu'. apply Hr.
  unfold row_verified. rewrite Hj, Hs. reflexivity.
Qed.

Lemma verification_is_never_revoked_witness :
  user_is_verified
    (db (run Concrete.pylib default_config funded_world
           [EvCheckBoth alice (Some "left"%string) None;
            EvCheckBoth alice None None;
            EvStart alice None [] None])) alice = true.
Proof.
  apply (verification_is_never_revoked Concrete.pylib default_config funded_world).
  vm_compute. reflexivity.
Defined.

(** X3. The referral count of a user never decreases. *)
Theorem referral_count_never_decreases (lib : Library) (cfg : Config) (w : World)
    (es : list Event) (t : Z) (u : User) :
  users (db w) !! t = Some u ->
  exists u', users (db (run lib cfg w es)) !! t = Some u' /\ referrals u <= referrals u'.
Proof.
  intros Hu.
  apply (run_rows_related lib cfg (fun a b => referrals a <= referrals b));
    try (intros; simpl; lia); exact Hu.
Qed.

Lemma referral_count_never_decreases_witness :
  exists u', users (db (run Concrete.pylib default_config funded_world
                          [EvWithdraw alice 1000 true None; EvCallback 1000 "approve:1"]))
             !! alice = Some u' /\ 50 <= referrals u'.
Proof.
  apply (referral_count_never_decreases Concrete.pylib default_config funded_world
           [EvWithdraw alice 1000 true None; EvCallback 1000 "approve:1"] alice
           (mkUser (Some "alice"%string) (mkDec false 50 (-2)) 50 None
                   (Some alice_address) None 1 1 (Some 4))).
  vm_compute. reflexivity.
Defined.

Lemma run_keeps_request (lib : Library) (cfg : Config) (es : list Event) (w : World)
    (wid : Z) (r : Withdrawal) :
  get_withdrawal (db w) wid = Some r ->
  exists r', get_withdrawal (db (run lib cfg w es)) wid = Some r' /\
             request_of r' = request_of r /\
             (status r <> pending -> status r' <> pending).
Proof.
  revert w r. induction es as [|e es IH]; intros w r Hg; simpl; [eauto|].
  destruct (step_keeps_request lib cfg w e wid r Hg) as (r1 & H1 & Hq1 & Hs1).
  destruct (IH _ r1 H1) as (r2 & H2 & Hq2 & Hs2).
  exists r2. split; [exact H2|]. split; [congruence | auto].
Qed.

(** X4. The table of withdrawals is append-only: a request keeps its id,
    its user, its amount, its address and its creation time whatever the bot
    handles afterwards. *)
Theorem requests_are_immutable (lib : Library) (cfg : Config) (w : World)
    (es : list Event) (wid : Z) (r : Withdrawal) :
  get_withdrawal (db w) wid = Some r ->
  exists r', get_withdrawal (db (run lib cfg w es)) wid = Some r' /\
             w_telegram_id r' = w_telegram_id r /\ amount r' = amount r /\
             w_wallet r' = w_wallet r /\ created_at r' = created_at r.
Proof.
  intros Hg. destruct (run_keeps_request lib cfg es w wid r Hg) as (r' & H & Hq & _).
  exists r'. unfold request_of in Hq. injection Hq as -> -> -> ->. auto.
Qed.

Lemma requests_are_immutable_witness :
  exists r', get_withdrawal
               (db (run Concrete.pylib default_config requested_world
                      [EvStart 200 None ["ref42"%string] None;
                       EvWithdraw alice 2000 true None;
                       EvCallback 1000 "approve:1"])) 1 = Some r' /\
             w_telegram_id r' = alice /\ amount r' = mkDec false 50 (-2) /\
             w_wallet r' = alice_address /\ created_at r' = 1000.
Proof.
  apply (requests_are_immutable Concrete.pylib default_config requested_world _ 1
           (mkWithdrawal alice (mkDec false 50 (-2)) alice_address pending 1000)).
  vm_compute. reflexivity.
Defined.

(** X5. A request that has left the status pending never returns to it. *)
Theorem status_never_returns_to_pending (lib : Library) (cfg : Config) (w : World)
    (es : list Event) (wid : Z) (r : Withdrawal) :
  get_withdrawal (db w) wid = Some r -> status r <> pending ->
  exists r', get_withdrawal (db (run lib cfg w es)) wid = Some r' /\ status r' <> pending.
Proof.
  intros Hg Hs. destruct (run_keeps_request lib cfg es w wid r Hg) as (r' & H & _ & Hp).
  eauto.
Qed.

Lemma status_never_returns_to_pending_witness :
  exists r', get_withdrawal
               (db (run Concrete.pylib default_config approved_world
                      [EvCallback 1000 "reject:1"; EvMessage 1000 "no" None;
                       EvWithdraw alice 3000 true None])) 1 = Some r' /\
             status r' <> pending.
Proof.
  apply (status_never_returns_to_pending Concrete.pylib default_config approved_world _ 1
           (mkWithdrawal alice (mkDec false 50 (-2)) alice_address approved 1000)).
  - vm_compute. reflexivity.
  - discriminate.
Defined.

(** X6. Only the operator changes a request: an update that is neither a
    button press nor a text message of the operator leaves every row of
    [withdrawals] as it is. *)
Theorem only_operator_changes_requests (lib : Library) (cfg : Config) (w : World)
    (e : Event) (wid : Z) (r : Withdrawal) :
  ~ operator_event cfg e ->
  get_withdrawal (db w) wid = Some r ->
  get_withdrawal (db (world (step lib cfg w e))) wid = Some r.
Proof.
  intros Hop Hg.
  destruct (step_withdrawals lib cfg w e)
    as [E|[(tid & now & ok & sent & u & a & _ & _ & _ & _ & _ & E)|(wid' & st & row & Ho & _)]];
    [| |contradiction]; unfold get_withdrawal in *; rewrite E; [exact Hg|].
  destruct (1 <=? wid); [|discriminate].
  rewrite lookup_app_l by (eapply lookup_lt_Some; eauto). exact Hg.
Qed.

Lemma only_operator_changes_requests_witness :
  get_withdrawal
    (db (world (step Concrete.pylib default_config requested_world
                  (EvCallback alice "approve:1")))) 1
  = Some (mkWithdrawal alice (mkDec false 50 (-2)) alice_address pending 1000).
Proof.
  apply (only_operator_changes_requests Concrete.pylib default_config requested_world
           (EvCallback alice "approve:1") 1).
  - vm_compute. discriminate.
  - vm_compute. reflexivity.
Defined.

(** ** What one update does to a row of [users] *)

Section RowChange.

Variable lib : Library.
Variable cfg : Config.

Lemma row_before_ensure (d : Db) (t0 t : Z) (un : option string) (r : option Z)
    (u : User) :
  row_before (ensure_user d t0 un r) t u -> row_before d t u.
Proof.
  unfold row_before. rewrite ensure_user_lookup. case_decide as Ht.
  - subst t0. intros [[= <-]|[H _]]; [|discriminate].
    destruct (users d !! t) as [x|]; simpl; [left; reflexivity|].
    right. split; [reflexivity|]. eauto.
  - auto.
Qed.

Lemma update_user_inv (f : User -> User) (t0 t : Z) (d : Db) (u' : User) :
  users (update_user f t0 d) !! t = Some u' ->
  (t0 = t /\ exists u, users d !! t = Some u /\ u' = f u) \/
  (t0 <> t /\ users d !! t = Some u').
Proof.
  rewrite update_user_lookup. case_decide as Ht.
  - subst t0. destruct (users d !! t) as [u|]; simpl; [|discriminate].
    intros [= <-]. left. eauto.
  - auto.
Qed.

Lemma safe_send_inv (d : Db) (chat t : Z) (sent : option Z) (u' : User) :
  users (safe_send_and_store d chat sent) !! t = Some u' ->
  exists v m, users d !! t = Some v /\ u' = stamp m v.
Proof.
  rewrite safe_send_lookup. case_decide as Ht.
  - subst chat. destruct (users d !! t) as [v|]; simpl; [|discriminate].
    intros [= <-]. eauto.
  - intros H. exists u', None. auto.
Qed.

Lemma add_balance_inv (d : Db) (t0 t : Z) (amt : Decimal) (u' : User) :
  users (add_balance d t0 amt) !! t = Some u' ->
  (t0 = t /\ exists u, row_before d t u /\ u' = with_balance (Dadd (balance u) amt) u) \/
  (t0 <> t /\ users d !! t = Some u').
Proof.
  unfold add_balance. intros [(-> & u & Hu & ->)|(Hne & Hu)]%update_user_inv.
  - left. split; [reflexivity|]. exists u. split.
    + apply (row_before_ensure d t t None None). left. exact Hu.
    + unfold get_user_row. rewrite Hu. reflexivity.
  - right. split; [exact Hne|]. rewrite ensure_user_lookup in Hu.
    case_decide; [contradiction | exact Hu].
Qed.

Lemma ensure_update_inv (f : User -> User) (t0 t : Z) (d : Db) (u' : User) :
  users (update_user f t0 (ensure_user d t0 None None)) !! t = Some u' ->
  (t0 = t /\ exists u, row_before d t u /\ u' = f u) \/
  (t0 <> t /\ users d !! t = Some u').
Proof.
  intros [(-> & u & Hu & ->)|(Hne & Hu)]%update_user_inv.
  - left. split; [reflexivity|]. exists u. split; [|reflexivity].
    apply (row_before_ensure d t t None None). left. exact Hu.
  - right. split; [exact Hne|]. rewrite ensure_user_lookup in Hu.
    case_decide; [contradiction | exact Hu].
Qed.

Lemma credited_referrer_inv (ref_id : option Z) (tid r : Z) :
  credited_referrer ref_id tid = Some r -> ref_id = Some r /\ r <> 0 /\ tid <> r.
Proof.
  unfold credited_referrer. destruct ref_id as [x|]; [|discriminate].
  destruct (Z.eqb_spec x 0); simpl; [discriminate|].
  destruct (Z.eqb_spec x tid); simpl; [discriminate|]. intros [= <-]. auto.
Qed.

Lemma credited_referrer_other (ref_id : option Z) (tid r : Z) :
  credited_referrer ref_id tid = Some r -> r <> tid.
Proof.
  unfold credited_referrer. destruct ref_id as [x|]; [|discriminate].
  destruct (Z.eqb_spec x 0); simpl; [discriminate|].
  destruct (Z.eqb_spec x tid); simpl; [discriminate|]. intros [= <-]. assumption.
Qed.

(** Every row found after an update is the row before it (stored, or just
    created with the defaults), changed in one of the six ways of
    [row_change], and then possibly given the id of the message the bot
    posted. *)
Lemma step_row_change (w : World) (e : Event) (t : Z) (u' : User) :
  users (db (world (step lib cfg w e))) !! t = Some u' ->
  exists u v m, row_before (db w) t u /\ row_change lib cfg w e t u v /\ u' = stamp m v.
Proof.
  destruct e; simpl.
  - (* /start *)
    unfold start_cmd.
    destruct (credited_referrer _ tid) as [r|] eqn:Hc; simpl.
    + pose proof (credited_referrer_other _ _ _ Hc) as Hr.
      intros (v & m & Hv & ->)%safe_send_inv.
      unfold inc_referrals in Hv.
      apply update_user_inv in Hv as [(-> & x & Hx & ->)|(Hne & Hv)].
      * apply add_balance_inv in Hx as [(_ & u & Hu & ->)|(Hbad & _)]; [|contradiction].
        apply row_before_ensure, row_before_ensure in Hu.
        eexists u, _, m. split; [exact Hu|]. split; [|reflexivity].
        exact (rc_credit lib cfg w _ t u tid uname args sent eq_refl Hc).
      * apply add_balance_inv in Hv as [(Hbad & _)|(_ & Hv)]; [contradiction|].
        exists v, v, m. split; [|split; [apply rc_same | reflexivity]].
        eapply row_before_ensure, row_before_ensure. left. exact Hv.
    + intros (v & m & Hv & ->)%safe_send_inv.
      exists v, v, m. split; [|split; [apply rc_same | reflexivity]].
      eapply row_before_ensure. left. exact Hv.
  - (* verification *)
    unfold check_both_callback.
    destruct member as [st|]; simpl;
      [|intros H; exists u', u', None; repeat split; [left; exact H | apply rc_same]].
    destruct (String.eqb st "member" || String.eqb st "administrator"
              || String.eqb st "creator") eqn:Hst; simpl;
      [|intros H; exists u', u', None; repeat split; [left; exact H | apply rc_same]].
    intros (v & m & Hv & ->)%safe_send_inv.
    unfold set_subscribed_flag, set_joined_flag in Hv.
    apply ensure_update_inv in Hv as [(-> & x & Hx & ->)|(Hne & Hv)].
    + destruct Hx as [Hx|(Hx & _)].
      * apply ensure_update_inv in Hx as [(_ & u & Hu & ->)|(Hbad & _)]; [|contradiction].
        eexists u, _, m. split; [exact Hu|]. split; [|reflexivity].
        eapply rc_verify; [reflexivity | exact Hst].
      * rewrite update_user_lookup in Hx. case_decide; [|congruence].
        rewrite ensure_user_lookup in Hx. case_decide; [|congruence].
        destruct (users (db w) !! t); discriminate.
    + apply ensure_update_inv in Hv as [(Hbad & _)|(_ & Hv)]; [contradiction|].
      exists v, v, m. split; [left; exact Hv|]. split; [apply rc_same | reflexivity].
  - intros (v & m & Hv & ->)%safe_send_inv.
    exists v, v, m. split; [left; exact Hv|]. split; [apply rc_same | reflexivity].
  - intros (v & m & Hv & ->)%safe_send_inv.
    exists v, v, m. split; [left; exact Hv|]. split; [apply rc_same | reflexivity].
  - intros (v & m & Hv & ->)%safe_send_inv.
    exists v, v, m. split; [left; exact Hv|]. split; [apply rc_same | reflexivity].
  - unfold admin_stats_cmd. destruct (negb _); simpl.
    + intros H. exists u', u', None. split; [left; exact H|]. split; [apply rc_same | reflexivity].
    + intros (v & m & Hv & ->)%safe_send_inv.
      exists v, v, m. split; [left; exact Hv|]. split; [apply rc_same | reflexivity].
  - (* /claim *)
    destruct (user_is_verified (db w) tid) eqn:Hver.
    + destruct (verified_row _ _ Hver) as (u0 & Hu0 & Hj & Hs).
      rewrite (claim_outcome lib cfg w tid now now' sent u0 Hver Hu0).
      assert (Hgrant : users (safe_send_and_store
                 (record_last_bonus lib (add_balance (db w) tid (DAILY_BONUS cfg)) tid now')
                 tid sent) !! t = Some u' ->
               exists u v m, row_before (db w) t u /\ row_change lib cfg w
                 (EvClaim tid now now' sent) t u v /\ u' = stamp m v).
      { intros (v & m & Hv & ->)%safe_send_inv.
        rewrite (grant_lookup lib cfg (db w) tid t now' u0 Hu0) in Hv.
        case_decide as Ht.
        - subst t. injection Hv as <-. eexists u0, _, m.
          split; [left; exact Hu0|]. split; [|reflexivity].
          eapply rc_grant; [reflexivity|]. unfold row_verified. rewrite Hj, Hs. reflexivity.
        - exists v, v, m. split; [left; exact Hv|]. split; [apply rc_same | reflexivity]. }
      destruct (read_last_bonus lib u0) as [[t0|t0]|]; [| |exact Hgrant].
      * destruct (now - t0 <? td_hours 24); [|exact Hgrant]. simpl.
        intros (v & m & Hv & ->)%safe_send_inv.
        exists v, v, m. split; [left; exact Hv|]. split; [apply rc_same | reflexivity].
      * simpl. intros H. exists u', u', None.
        split; [left; exact H|]. split; [apply rc_same | reflexivity].
    + unfold claim_daily_action. rewrite Hver. simpl.
      intros (v & m & Hv & ->)%safe_send_inv.
      exists v, v, m. split; [left; exact Hv|]. split; [apply rc_same | reflexivity].
  - unfold set_wallet_prompt; simpl.
    intros (v & m & Hv & ->)%safe_send_inv.
    exists v, v, m. split; [left; exact Hv|]. split; [apply rc_same | reflexivity].
  - (* text message *)
    unfold message_handler.
    destruct (if tid =? ADMIN_ID cfg then _ else _) as [wid|]; simpl.
    + destruct (get_withdrawal (db w) wid); simpl;
        intros (v & m & Hv & ->)%safe_send_inv;
        rewrite ?mark_withdrawal_users in Hv;
        exists v, v, m; (split; [left; exact Hv|]); split; try apply rc_same; reflexivity.
    + case_decide; simpl.
      * destruct (is_valid_bsc_address lib (strip text)) eqn:Hval; simpl;
          intros (v & m & Hv & ->)%safe_send_inv.
        -- unfold set_wallet in Hv.
           apply ensure_update_inv in Hv as [(-> & u & Hu & ->)|(Hne & Hv)].
           ++ eexists u, _, m. split; [exact Hu|]. split; [|reflexivity].
              eapply rc_wallet; [reflexivity | exact Hval].
           ++ exists v, v, m. split; [left; exact Hv|]. split; [apply rc_same | reflexivity].
        -- exists v, v, m. split; [left; exact Hv|]. split; [apply rc_same | reflexivity].
      * intros (v & m & Hv & ->)%safe_send_inv.
        exists v, v, m. split; [left; exact Hv|]. split; [apply rc_same | reflexivity].
  - (* /withdraw *)
    assert (Hsame : forall d, users d = users (db w) ->
              users (safe_send_and_store d tid sent) !! t = Some u' ->
              exists u v m, row_before (db w) t u /\ row_change lib cfg w
                (EvWithdraw tid now admin_ok sent) t u v /\ u' = stamp m v).
    { intros d Hd (v & m & Hv & ->)%safe_send_inv. rewrite Hd in Hv.
      exists v, v, m. split; [left; exact Hv|]. split; [apply rc_same | reflexivity]. }
    destruct (user_is_verified (db w) tid) eqn:Hv.
    + destruct (verified_row _ _ Hv) as (u & Hu & Hj & Hs).
      destruct (Dlt (balance u) (MIN_WITHDRAW cfg)) eqn:Hlt.
      * rewrite (withdraw_below_minimum cfg w tid now admin_ok sent u) by assumption.
        simpl. apply Hsame. reflexivity.
      * destruct (or_none (wallet u)) as [a|] eqn:Ha.
        -- rewrite (withdraw_accepted cfg w tid now admin_ok sent u a) by assumption.
           simpl. apply Hsame. reflexivity.
        -- rewrite (withdraw_no_address cfg w tid now admin_ok sent u) by assumption.
           simpl. apply Hsame. reflexivity.
    + rewrite (withdraw_not_verified cfg w tid now admin_ok sent Hv).
      simpl. apply Hsame. reflexivity.
  - (* approve / reject *)
    unfold approve_reject_callback.
    assert (Hnone : users (db w) !! t = Some u' ->
              exists u v m, row_before (db w) t u /\ row_change lib cfg w
                (EvCallback operator data) t u v /\ u' = stamp m v).
    { intros H. exists u', u', None. split; [left; exact H|].
      split; [apply rc_same | reflexivity]. }
    destruct (Z.eqb_spec operator (ADMIN_ID cfg)) as [Ho|Ho]; simpl; [|exact Hnone].
    destruct (parse_callback lib data) as [[action wid]|] eqn:Hp; simpl; [|exact Hnone].
    destruct (get_withdrawal (db w) wid) as [row|] eqn:Hg; simpl; [|exact Hnone].
    destruct (bool_decide (status row = pending)) eqn:Hs; simpl; [|exact Hnone].
    apply bool_decide_eq_true in Hs.
    destruct (String.eqb_spec action "approve") as [Ha|Ha]; simpl; [|exact Hnone].
    subst action operator. unfold set_balance.
    intros [(Ht & u & Hu & ->)|(Hne & Hv)]%ensure_update_inv.
    + eexists u, _, None. split.
      * destruct Hu as [Hu|[Hu Hn]]; rewrite mark_withdrawal_users in Hu;
          [left | right]; auto.
      * split; [|reflexivity].
        exact (rc_zero lib cfg w _ t u data wid row eq_refl Hp Hg Hs Ht).
    + rewrite mark_withdrawal_users in Hv.
      exists u', u', None. split; [left; exact Hv|]. split; [apply rc_same | reflexivity].
Qed.

End RowChange.

(** ** [str.strip] *)

Section Strip.

Lemma rev_onto_app (s acc : string) : rev_onto s acc = (rev s ++ acc)%string.
Proof.
  unfold rev. revert acc. induction s as [|c r IH]; intros acc; simpl; [reflexivity|].
  rewrite (IH (String c acc)), (IH (String c EmptyString)), app_assoc_s.
  reflexivity.
Qed.

Lemma rev_onto_twice (s a b : string) :
  rev_onto (rev_onto s a) b = rev_onto a (s ++ b)%string.
Proof.
  revert a b. induction s as [|c r IH]; intros a b; simpl; [reflexivity|].
  rewrite IH. reflexivity.
Qed.

Lemma rev_involutive_s (s : string) : rev (rev s) = s.
Proof. unfold rev. rewrite rev_onto_twice. simpl. apply app_empty_r. Qed.

Lemma lstrip_fixed (s : string) :
  lstrip s = s <->
  match s with String c _ => is_space c = false | EmptyString => True end.
Proof.
  destruct s as [|c r]; simpl; [tauto|].
  destruct (is_space c) eqn:Hc; split; try congruence; try discriminate.
  intros H. exfalso.
  assert (Hlen : forall x, (String.length (lstrip x) <= String.length x)%nat).
  { induction x as [|a x IH]; simpl; [lia|]. destruct (is_space a); simpl; lia. }
  specialize (Hlen r). rewrite H in Hlen. simpl in Hlen. lia.
Qed.

Lemma lstrip_idem (s : string) : lstrip (lstrip s) = lstrip s.
Proof.
  induction s as [|c r IH]; simpl; [reflexivity|].
  destruct (is_space c) eqn:Hc; [exact IH|]. simpl. rewrite Hc. reflexivity.
Qed.

Lemma rev_cons (c : ascii) (r : string) :
  rev (String c r) = (rev r ++ String c EmptyString)%string.
Proof. unfold rev. simpl. apply rev_onto_app. Qed.

Lemma lstrip_keeps_last (s : string) :
  lstrip (rev s) = rev s -> lstrip (rev (lstrip s)) = rev (lstrip s).
Proof.
  induction s as [|c r IH]; [auto|].
  cbn [lstrip]. destruct (is_space c) eqn:Hc; [|auto].
  intros H. destruct r as [|c' r']; [reflexivity|].
  apply IH. apply lstrip_fixed. apply lstrip_fixed in H.
  rewrite rev_cons in H. rewrite rev_cons in H. rewrite rev_cons.
  destruct (rev r') as [|a x]; simpl in *; exact H.
Qed.

(** Stripping twice is stripping once. *)
Lemma strip_idem (s : string) : strip (strip s) = strip s.
Proof.
  unfold strip.
  assert (H : lstrip (rev (lstrip (rev (lstrip s)))) = rev (lstrip (rev (lstrip s)))).
  { apply lstrip_keeps_last. rewrite rev_involutive_s. apply lstrip_idem. }
  rewrite H, rev_involutive_s, lstrip_idem. reflexivity.
Qed.

End Strip.

(** ** Where balances, verification and addresses come from *)

Section Provenance.

Variable lib : Library.
Variable cfg : Config.

Lemma balance_stamp (m : option Z) (u : User) : balance (stamp m u) = balance u.
Proof. destruct m; reflexivity. Qed.

Lemma wallet_stamp (m : option Z) (u : User) : wallet (stamp m u) = wallet u.
Proof. destruct m; reflexivity. Qed.

Lemma row_verified_stamp (m : option Z) (u : User) :
  row_verified (stamp m u) = row_verified u.
Proof. destruct m; reflexivity. Qed.

Lemma row_before_balance (d : Db) (t : Z) (u : User) :
  row_before d t u -> balance u = balance_before d t.
Proof.
  unfold balance_before. intros [H|(H & un & r & ->)]; rewrite H; reflexivity.
Qed.

Lemma user_is_verified_row (d : Db) (t : Z) (u : User) :
  users d !! t = Some u -> user_is_verified d t = row_verified u.
Proof. intros H. unfold user_is_verified, get_user_row. rewrite H. reflexivity. Qed.

Lemma row_before_unverified (d : Db) (t : Z) (u : User) :
  user_is_verified d t = false -> row_before d t u -> row_verified u = false.
Proof.
  intros Hv [H|(H & un & r & ->)]; [|reflexivity].
  rewrite (user_is_verified_row d t u H) in Hv. exact Hv.
Qed.

Lemma valid_shape (a : string) :
  is_valid_bsc_address lib a = true -> well_formed_address (strip a).
Proof.
  unfold is_valid_bsc_address, well_formed_address.
  destruct (startswith "0x" (strip a)) eqn:Hs; simpl; [|discriminate].
  destruct (Z.eqb_spec (len (strip a)) 42) as [Hl|Hl]; simpl; [auto | discriminate].
Qed.

Lemma valid_strip (a : string) :
  is_valid_bsc_address lib (strip a) = is_valid_bsc_address lib a.
Proof. unfold is_valid_bsc_address. rewrite strip_idem. reflexivity. Qed.

Lemma step_keeps_verified (w : World) (e : Event) (t : Z) :
  user_is_verified (db w) t = true ->
  user_is_verified (db (world (step lib cfg w e))) t = true.
Proof.
  intros Hv. destruct (verified_row _ _ Hv) as (u & Hu & Hj & Hs).
  assert (Hrel : exists u', users (db (world (step lib cfg w e))) !! t = Some u' /\
                            (row_verified u = true -> row_verified u' = true)).
  { apply (step_rows_related lib cfg
             (fun a b => row_verified a = true -> row_verified b = true));
      try exact Hu; try (intros; unfold row_verified in *; simpl; auto; fail).
    - intros a [_ H]%andb_prop. unfold row_verified; simpl. exact H.
    - intros a [H _]%andb_prop. unfold row_verified; simpl. rewrite H. reflexivity. }
  destruct Hrel as (u' & Hu' & Hr).
  rewrite (user_is_verified_row _ _ _ Hu'). apply Hr.
  unfold row_verified. rewrite Hj, Hs. reflexivity.
Qed.

Lemma step_wallets (w : World) (e : Event) :
  wallets_well_formed lib (db w) ->
  wallets_well_formed lib (db (world (step lib cfg w e))).
Proof.
  intros Hw t u' a Hu' Ha.
  destruct (step_row_change lib cfg w e t u' Hu') as (u & v & m & Hb & Hc & ->).
  rewrite wallet_stamp in Ha.
  assert (Hold : wallet u = Some a ->
                 well_formed_address a /\ is_valid_bsc_address lib a = true).
  { destruct Hb as [Hb|(_ & un & r & ->)]; [apply (Hw t u a Hb) | discriminate]. }
  destruct Hc; simpl in Ha; auto.
  injection Ha as <-.
  split; [apply valid_shape; rewrite <- valid_strip; assumption | assumption].
Qed.

Lemma run_wallets (es : list Event) (w : World) :
  wallets_well_formed lib (db w) -> wallets_well_formed lib (db (run lib cfg w es)).
Proof.
  revert w. induction es as [|e es IH]; intros w Hw; simpl; [auto|].
  apply IH, step_wallets, Hw.
Qed.

Lemma step_requests (w : World) (e : Event) :
  wallets_well_formed lib (db w) -> requests_sound lib cfg (db w) ->
  requests_sound lib cfg (db (world (step lib cfg w e))).
Proof.
  intros Hw Hr wid r Hg.
  assert (Hold : forall r0, get_withdrawal (db w) wid = Some r0 ->
            request_of r = request_of r0 ->
            user_is_verified (db (world (step lib cfg w e))) (w_telegram_id r) = true /\
            Dlt (amount r) (MIN_WITHDRAW cfg) = false /\
            well_formed_address (w_wallet r) /\
            is_valid_bsc_address lib (w_wallet r) = true).
  { intros r0 H0 Hq. unfold request_of in Hq. injection Hq as -> -> -> _.
    destruct (Hr wid r0 H0) as (H1 & H2 & H3).
    split; [apply step_keeps_verified; exact H1 | auto]. }
  destruct (step_withdrawals lib cfg w e)
    as [E|[(tid & now & ok & sent & u & a & _ & Hu & Hv & Hlt & Ha & E)
          |(wid' & st & row & _ & _ & _ & E)]];
    unfold get_withdrawal in Hg, Hold; rewrite E in Hg.
  - apply (Hold r Hg). reflexivity.
  - destruct (1 <=? wid) eqn:Hwid; [|discriminate].
    destruct (decide (Z.to_nat (wid - 1) < length (withdrawals (db w)))%nat) as [Hi|Hi].
    + rewrite lookup_app_l in Hg by exact Hi. apply (Hold r Hg). reflexivity.
    + rewrite lookup_app_r in Hg by lia.
      destruct (Z.to_nat (wid - 1) - length (withdrawals (db w)))%nat; [|discriminate].
      injection Hg as <-. simpl.
      assert (Hwa : wallet u = Some a).
      { destruct (wallet u) as [x|]; simpl in Ha; [|discriminate].
        destruct (truthy x); congruence. }
      split; [|split; [exact Hlt | exact (Hw tid u a Hu Hwa)]].
      apply step_keeps_verified. rewrite (user_is_verified_row _ _ _ Hu). exact Hv.
  - rewrite mark_withdrawal_withdrawals in Hg.
    destruct (1 <=? wid) eqn:Hwid; [|discriminate].
    destruct (1 <=? wid'); [|apply (Hold r Hg); reflexivity].
    rewrite list_lookup_alter in Hg. case_decide as Hi.
    + destruct (withdrawals (db w) !! Z.to_nat (wid - 1)) as [r0|] eqn:H0;
        [|rewrite Hi, H0 in Hg; discriminate].
      rewrite Hi, H0 in Hg. injection Hg as <-. apply (Hold r0 eq_refl). reflexivity.
    + apply (Hold r Hg). reflexivity.
Qed.

Lemma run_wallets_requests (es : list Event) (w : World) :
  wallets_well_formed lib (db w) -> requests_sound lib cfg (db w) ->
  wallets_well_formed lib (db (run lib cfg w es)) /\
  requests_sound lib cfg (db (run lib cfg w es)).
Proof.
  revert w. induction es as [|e es IH]; intros w Hw Hr; simpl; [auto|].
  apply IH; [apply step_wallets | apply step_requests]; assumption.
Qed.

End Provenance.

(** X7. One update changes a stored balance in one of three ways only.
    The referral bonus is added to the balance of [t] when another user
    sends [/start] with an argument that [parse_ref_arg] reads as [t] (not
    0); the daily bonus is added on a [/claim] of [t], who is verified; the
    balance is set to zero when the operator presses Approve on a pending
    request of [t]. In every other case the balance after the update is the
    balance before it (zero for a user who had no row). *)
Theorem balance_changes_in_three_ways (lib : Library) (cfg : Config) (w : World)
    (e : Event) (t : Z) (u' : User) :
  users (db (world (step lib cfg w e))) !! t = Some u' ->
  balance u' = balance_before (db w) t
  \/ (balance u' = Dadd (balance_before (db w) t) (REF_BONUS cfg) /\
      exists tid un args sent,
        e = EvStart tid un args sent /\ tid <> t /\ t <> 0 /\
        parse_ref_arg lib args = Some t)
  \/ (balance u' = Dadd (balance_before (db w) t) (DAILY_BONUS cfg) /\
      user_is_verified (db w) t = true /\
      exists now now' sent, e = EvClaim t now now' sent)
  \/ (balance u' = Dzero /\
      exists data wid row,
        e = EvCallback (ADMIN_ID cfg) data /\
        parse_callback lib data = Some ("approve"%string, wid) /\
        get_withdrawal (db w) wid = Some row /\
        status row = pending /\ w_telegram_id row = t).
Proof.
  intros Hu'.
  destruct (step_row_change lib cfg w e t u' Hu') as (u & v & m & Hb & Hc & ->).
  rewrite balance_stamp, <- (row_before_balance _ _ _ Hb).
  destruct Hc as [u|u tid un args sent He Hcr|u now now' sent He Hver
                 |u data wid row He Hp Hg Hs Ht|u text sent _ _|u st sent _ _];
    simpl; auto.
  - right. left. split; [reflexivity|]. exists tid, un, args, sent.
    destruct (credited_referrer_inv _ _ _ Hcr) as (Hparse & H0 & Hne). auto.
  - right. right. left. split; [reflexivity|]. split; [|eauto].
    destruct Hb as [Hb|(_ & un & r & ->)]; [|discriminate Hver].
    rewrite (user_is_verified_row _ _ _ Hb). exact Hver.
  - right. right. right. split; [reflexivity|]. exists data, wid, row. auto.
Qed.

(** A newcomer who opens Alice's link: Alice's balance goes from 0.50
    to 0.51. *)
Lemma balance_changes_in_three_ways_witness :
  let e := EvStart 200 None ["ref42"%string] None in
  let b := mkDec false 51 (-2) in
  b = balance_before (db funded_world) alice
  \/ (b = Dadd (balance_before (db funded_world) alice) (REF_BONUS default_config) /\
      exists tid un args sent,
        e = EvStart tid un args sent /\ tid <> alice /\ alice <> 0 /\
        parse_ref_arg Concrete.pylib args = Some alice)
  \/ (b = Dadd (balance_before (db funded_world) alice) (DAILY_BONUS default_config) /\
      user_is_verified (db funded_world) alice = true /\
      exists now now' sent, e = EvClaim alice now now' sent)
  \/ (b = Dzero /\
      exists data wid row,
        e = EvCallback (ADMIN_ID default_config) data /\
        parse_callback Concrete.pylib data = Some ("approve"%string, wid) /\
        get_withdrawal (db funded_world) wid = Some row /\
        status row = pending /\ w_telegram_id row = alice).
Proof.
  apply (balance_changes_in_three_ways Concrete.pylib default_config funded_world
           (EvStart 200 None ["ref42"%string] None) alice
           (mkUser (Some "alice"%string) (mkDec false 51 (-2)) 51 None
                   (Some alice_address) None 1 1 (Some 4))).
  vm_compute. reflexivity.
Defined.

(** X8. A user becomes verified in one way only: by pressing the check
    button while Telegram reports the status member, administrator or
    creator. *)
Theorem verification_needs_membership (lib : Library) (cfg : Config) (w : World)
    (e : Event) (t : Z) :
  user_is_verified (db w) t = false ->
  user_is_verified (db (world (step lib cfg w e))) t = true ->
  exists st sent, e = EvCheckBoth t (Some st) sent /\ is_member_status st = true.
Proof.
  intros H0 H1. destruct (verified_row _ _ H1) as (u' & Hu' & Hj & Hs).
  destruct (step_row_change lib cfg w e t u' Hu') as (u & v & m & Hb & Hc & ->).
  pose proof (row_before_unverified _ _ _ H0 Hb) as Hun.
  assert (Hv : row_verified v = true).
  { rewrite <- (row_verified_stamp m). unfold row_verified. rewrite Hj, Hs. reflexivity. }
  destruct Hc as [u|u tid un args sent He Hcr|u now now' sent He Hver|u data He
                 |u text sent _ _|u st sent He Hst];
    try (unfold row_verified in *; simpl in *; congruence).
  eauto.
Qed.

Lemma verification_needs_membership_witness :
  exists st sent,
    EvCheckBoth alice (Some "creator"%string) (Some 2) = EvCheckBoth alice (Some st) sent /\
    is_member_status st = true.
Proof.
  apply (verification_needs_membership Concrete.pylib default_config empty_world).
  - reflexivity.
  - vm_compute. reflexivity.
Defined.

(** X9. Every payout address in [users] went through the validator and
    was stored stripped: it starts with [0x] and has 42 characters. *)
Theorem stored_wallets_are_well_formed (lib : Library) (cfg : Config) (w : World)
    (es : list Event) (t : Z) (u : User) (a : string) :
  wallets_well_formed lib (db w) ->
  users (db (run lib cfg w es)) !! t = Some u -> wallet u = Some a ->
  startswith "0x" a = true /\ len a = 42 /\ is_valid_bsc_address lib a = true.
Proof.
  intros Hw Hu Ha.
  destruct (run_wallets lib cfg es w Hw t u a Hu Ha) as [[H1 H2] H3]. auto.
Qed.

Lemma stored_wallets_are_well_formed_witness :
  startswith "0x" alice_address = true /\ len alice_address = 42 /\
  is_valid_bsc_address Concrete.pylib alice_address = true.
Proof.
  apply (stored_wallets_are_well_formed Concrete.pylib default_config empty_world
           onboarding alice
           (mkUser (Some "alice"%string) Dzero 0 None (Some alice_address) None 1 1
                   (Some 4))).
  - intros t u a H. vm_compute in H. discriminate.
  - vm_compute. reflexivity.
  - reflexivity.
Defined.

(** X10. Every request on file belongs to a user who is verified, asks
    for an amount that is not below the minimum, and carries an address of
    the shape the validator asks for. *)
Theorem requests_are_sound (lib : Library) (cfg : Config) (w : World)
    (es : list Event) (wid : Z) (r : Withdrawal) :
  wallets_well_formed lib (db w) -> requests_sound lib cfg (db w) ->
  get_withdrawal (db (run lib cfg w es)) wid = Some r ->
  user_is_verified (db (run lib cfg w es)) (w_telegram_id r) = true /\
  Dlt (amount r) (MIN_WITHDRAW cfg) = false /\
  startswith "0x" (w_wallet r) = true /\ len (w_wallet r) = 42.
Proof.
  intros Hw Hr Hg.
  destruct (run_wallets_requests lib cfg es w Hw Hr) as [_ H].
  destruct (H wid r Hg) as (H1 & H2 & [H3 H4] & _). auto.
Qed.

Lemma requests_are_sound_witness :
  user_is_verified
    (db (run Concrete.pylib default_config empty_world
           (onboarding ++ fifty_referrals ++ [EvWithdraw alice 1000 true None])))
    alice = true /\
  Dlt (mkDec false 50 (-2)) (MIN_WITHDRAW default_config) = false /\
  startswith "0x" alice_address = true /\ len alice_address = 42.
Proof.
  apply (requests_are_sound Concrete.pylib default_config empty_world
           (onboarding ++ fifty_referrals ++ [EvWithdraw alice 1000 true None]) 1
           (mkWithdrawal alice (mkDec false 50 (-2)) alice_address pending 1000)).
  - intros t u a H. vm_compute in H. discriminate.
  - intros wid r H. unfold get_withdrawal in H. simpl in H.
    destruct (1 <=? wid); discriminate.
  - vm_compute. reflexivity.
Defined.

(** ** The storage helpers *)

Section Storage.

Lemma alter_absent (f : User -> User) (t : Z) (m : gmap Z User) :
  m !! t = None -> alter f t m = m.
Proof.
  intros H. apply map_eq. intros i. rewrite lookup_alter.
  case_decide; [subst; rewrite H|]; reflexivity.
Qed.

Lemma update_user_absent (f : User -> User) (t : Z) (d : Db) :
  users d !! t = None -> update_user f t d = d.
Proof.
  intros H. unfold update_user, set_users. rewrite (alter_absent f t _ H).
  destruct d; reflexivity.
Qed.

Lemma ledger_stamp (m : option Z) (u : User) : ledger_part (stamp m u) = ledger_part u.
Proof. destruct m; reflexivity. Qed.

Lemma safe_send_ledger (d : Db) (chat : Z) (sent : option Z) (t : Z) :
  ledger_part <$> users (safe_send_and_store d chat sent) !! t
  = ledger_part <$> users d !! t.
Proof.
  rewrite safe_send_lookup. case_decide; [|reflexivity]. subst.
  destruct (users d !! t); simpl; [rewrite ledger_stamp|]; reflexivity.
Qed.

End Storage.

(** X11. [create_withdrawal] returns an id that was free, the row read
    back under this id is the pending request just written, and every
    older request is still read under its own id. *)
Theorem new_request_reads_back (d : Db) (tid : Z) (amt : Decimal) (a : string)
    (now : Z) :
  get_withdrawal d (snd (create_withdrawal d tid amt a now)) = None /\
  get_withdrawal (fst (create_withdrawal d tid amt a now))
                 (snd (create_withdrawal d tid amt a now))
  = Some (mkWithdrawal tid amt a pending now) /\
  forall wid r, get_withdrawal d wid = Some r ->
                get_withdrawal (fst (create_withdrawal d tid amt a now)) wid = Some r.
Proof.
  unfold create_withdrawal, get_withdrawal; simpl.
  destruct (Z.leb_spec 1 (Z.of_nat (length (withdrawals d)) + 1)) as [_|H]; [|lia].
  replace (Z.to_nat (Z.of_nat (length (withdrawals d)) + 1 - 1))
    with (length (withdrawals d)) by lia.
  split; [apply lookup_ge_None_2; lia|]. split.
  - rewrite lookup_app_r by lia. rewrite Nat.sub_diag. reflexivity.
  - intros wid r. destruct (1 <=? wid); [|discriminate]. intros H.
    rewrite lookup_app_l by (eapply lookup_lt_Some; eauto). exact H.
Qed.

(** X12. [mark_withdrawal] writes the status of the row it names and
    nothing else: the other rows, the number of rows and the table [users]
    stay as they are, and an id that names no row changes nothing. *)
Theorem mark_withdrawal_touches_one_row (d : Db) (wid : Z) (st : Status) :
  users (mark_withdrawal d wid st) = users d /\
  length (withdrawals (mark_withdrawal d wid st)) = length (withdrawals d) /\
  get_withdrawal (mark_withdrawal d wid st) wid
  = with_status st <$> get_withdrawal d wid /\
  (forall wid', wid' <> wid ->
     get_withdrawal (mark_withdrawal d wid st) wid' = get_withdrawal d wid') /\
  (get_withdrawal d wid = None -> mark_withdrawal d wid st = d).
Proof.
  split; [apply mark_withdrawal_users|]. split.
  { unfold mark_withdrawal. destruct (1 <=? wid); simpl; [|reflexivity].
    apply length_alter. }
  split.
  { rewrite get_withdrawal_mark. case_decide; [reflexivity | congruence]. }
  split.
  { intros wid' Hne. rewrite get_withdrawal_mark. case_decide; congruence. }
  unfold get_withdrawal, mark_withdrawal. destruct (1 <=? wid); [|reflexivity].
  intros H. replace (alter (with_status st) (Z.to_nat (wid - 1)) (withdrawals d))
    with (withdrawals d); [destruct d; reflexivity|].
  apply list_eq. intros i. rewrite list_lookup_alter.
  case_decide; [subst; rewrite H|]; reflexivity.
Qed.

(** X13. [safe_send_and_store] changes one column of one row: the id of
    the message sent is read back by [get_last_bot_message_id] when the chat
    has a row, nothing is stored when it has none or when sending failed, and
    no other column of any row changes. *)
Theorem last_message_id_reads_back (d : Db) (chat m : Z) :
  get_last_bot_message_id (safe_send_and_store d chat (Some m)) chat
  = match users d !! chat with Some _ => Some m | None => None end /\
  (users d !! chat = None -> safe_send_and_store d chat (Some m) = d) /\
  safe_send_and_store d chat None = d /\
  withdrawals (safe_send_and_store d chat (Some m)) = withdrawals d /\
  forall t, ledger_part <$> users (safe_send_and_store d chat (Some m)) !! t
            = ledger_part <$> users d !! t.
Proof.
  split.
  { unfold get_last_bot_message_id, get_user_row. rewrite safe_send_lookup.
    case_decide; [|congruence]. destruct (users d !! chat); reflexivity. }
  split; [intros H; apply update_user_absent; exact H|].
  split; [reflexivity|]. split; [apply safe_send_withdrawals|].
  apply safe_send_ledger.
Qed.

(** ** The referral credit *)

Section Credit.

Variable lib : Library.
Variable cfg : Config.

(** What [/start] with a referrer to credit leaves in the two rows it
    writes: the referrer's row, created with the defaults if it was not
    there, with the bonus added and one more referral; and the sender's row,
    created with the referrer recorded if it was not there. *)
Lemma start_credits_referrer (w : World) (tid r : Z) (uname : option string)
    (args : list string) (sent : option Z) :
  parse_ref_arg lib args = Some r -> r <> 0 -> r <> tid ->
  let res := start_cmd lib cfg w tid uname args sent in
  let v := default (new_user None None) (users (db w) !! r) in
  notices res = [(r, ReferralEarned (REF_BONUS cfg)); (ADMIN_ID cfg, NewUserStarted tid)] /\
  users (db (world res)) !! r
  = Some (with_referrals (referrals v + 1)
            (with_balance (Dadd (balance v) (REF_BONUS cfg)) v)) /\
  users (db (world res)) !! tid
  = Some (stamp sent (default (new_user uname (Some r)) (users (db w) !! tid))) /\
  withdrawals (db (world res)) = withdrawals (db w).
Proof.
  intros Hp H0 Ht. cbv zeta. unfold start_cmd, credited_referrer. rewrite Hp.
  destruct (Z.eqb_spec r 0); [contradiction|].
  destruct (Z.eqb_spec r tid); [contradiction|]. simpl.
  set (d1 := ensure_user (db w) tid uname (Some r)).
  assert (H1 : users (ensure_user d1 r None None) !! r
               = Some (default (new_user None None) (users (db w) !! r))).
  { unfold d1. rewrite !ensure_user_lookup. case_decide; [|congruence].
    case_decide; [congruence|]. destruct (users (db w) !! r); reflexivity. }
  split; [reflexivity|]. split; [|split].
  - rewrite safe_send_lookup. case_decide; [congruence|].
    unfold inc_referrals, add_balance, get_user_row.
    rewrite (ensure_user_present _ r None None _ H1), H1.
    rewrite !update_user_lookup. case_decide; [|congruence]. rewrite H1. reflexivity.
  - rewrite safe_send_lookup. case_decide; [|congruence].
    unfold inc_referrals, add_balance, get_user_row.
    rewrite (ensure_user_present _ r None None _ H1).
    rewrite !update_user_lookup. case_decide; [congruence|].
    rewrite ensure_user_lookup. case_decide; [congruence|].
    unfold d1. rewrite ensure_user_lookup. case_decide; [|congruence].
    destruct sent; reflexivity.
  - rewrite safe_send_withdrawals. unfold inc_referrals, add_balance, d1.
    repeat rewrite ?update_user_withdrawals, ?ensure_user_withdrawals. reflexivity.
Qed.

End Credit.

(** X14. A referrer id that names no user is credited all the same:
    when the id read from the argument fits an INTEGER column, is not 0 and
    is not the sender, [/start] creates a row for it, unverified and without
    a name, holding the referral bonus and one referral. *)
Theorem unknown_referrer_gets_a_row (lib : Library) (cfg : Config) (w : World)
    (tid r : Z) (uname : option string) (args : list string) (sent : option Z) :
  sqlite_integer tid -> sqlite_integer r ->
  parse_ref_arg lib args = Some r -> r <> 0 -> r <> tid ->
  users (db w) !! r = None ->
  users (db (world (start_cmd lib cfg w tid uname args sent))) !! r
  = Some (first_credit cfg).
Proof.
  intros _ _ Hp H0 Ht Hr.
  destruct (start_credits_referrer lib cfg w tid r uname args sent Hp H0 Ht)
    as (_ & H & _).
  rewrite H, Hr. reflexivity.
Qed.

Lemma unknown_referrer_gets_a_row_witness :
  users (db (world (start_cmd Concrete.pylib default_config empty_world 7 None
                              ["ref999"%string] None))) !! 999
  = Some (first_credit default_config).
Proof.
  apply (unknown_referrer_gets_a_row Concrete.pylib default_config empty_world 7 999).
  - unfold sqlite_integer. lia.
  - unfold sqlite_integer. lia.
  - vm_compute. reflexivity.
  - lia.
  - lia.
  - vm_compute. reflexivity.
Defined.

(** X15. [/start] credits nobody when its arguments name no referrer
    (none is read, or it is 0, or it is the sender): the operator is the only
    one told, no request changes, and the ledger columns of every stored row
    stay as they are. *)
Theorem start_without_referrer_credits_nobody (lib : Library) (cfg : Config)
    (w : World) (tid : Z) (uname : option string) (args : list string)
    (sent : option Z) :
  names_no_referrer lib args tid ->
  let r := start_cmd lib cfg w tid uname args sent in
  notices r = [(ADMIN_ID cfg, NewUserStarted tid)] /\
  withdrawals (db (world r)) = withdrawals (db w) /\
  forall t u, users (db w) !! t = Some u ->
    ledger_part <$> users (db (world r)) !! t = Some (ledger_part u).
Proof.
  intros Hn. unfold start_cmd.
  assert (Hc : credited_referrer (parse_ref_arg lib args) tid = None).
  { unfold credited_referrer. destruct Hn as [->|[->| ->]]; [reflexivity..|].
    rewrite Z.eqb_refl, andb_false_r. reflexivity. }
  rewrite Hc. simpl. split; [reflexivity|]. split.
  - rewrite safe_send_withdrawals. apply ensure_user_withdrawals.
  - intros t u Hu. rewrite safe_send_ledger, ensure_user_lookup.
    case_decide; [subst|]; rewrite Hu; reflexivity.
Qed.

Lemma start_without_referrer_credits_nobody_witness :
  let r := start_cmd Concrete.pylib default_config funded_world alice None
                     ["ref42"%string] None in
  notices r = [(ADMIN_ID default_config, NewUserStarted alice)] /\
  withdrawals (db (world r)) = withdrawals (db funded_world) /\
  forall t u, users (db funded_world) !! t = Some u ->
    ledger_part <$> users (db (world r)) !! t = Some (ledger_part u).
Proof.
  apply (start_without_referrer_credits_nobody Concrete.pylib default_config
           funded_world alice None ["ref42"%string] None).
  right. right. vm_compute. reflexivity.
Defined.

Lemma startswith_ref (t : string) :
  startswith "ref=" t = true -> startswith "ref" t = true.
Proof.
  destruct t as [|c1 [|c2 [|c3 t]]]; cbn [startswith]; rewrite ?andb_false_r;
    try discriminate.
  intros H. apply andb_prop in H as [H1 H]. apply andb_prop in H as [H2 H].
  apply andb_prop in H as [H3 _]. rewrite H1, H2, H3. reflexivity.
Qed.

(** X16. [parse_ref_arg] reads the first argument only, and reads no
    referrer from a command without arguments or from a first argument that,
    stripped, does not start with [ref]. *)
Theorem parse_ref_arg_needs_prefix (lib : Library) (a : string) (rest : list string) :
  parse_ref_arg lib [] = None /\
  parse_ref_arg lib (a :: rest)
  = if startswith "ref" (strip a) then parse_ref_arg lib [a] else None.
Proof.
  split; [reflexivity|]. unfold parse_ref_arg.
  destruct (startswith "ref" (strip a)) eqn:H; [reflexivity|].
  destruct (startswith "ref=" (strip a)) eqn:E; [|reflexivity].
  apply startswith_ref in E. congruence.
Qed.

(** ** The operator's buttons and the typed reason *)

Section Operator.

Variable lib : Library.
Variable cfg : Config.

Lemma get_withdrawal_safe_send (d : Db) (chat : Z) (sent : option Z) (wid : Z) :
  get_withdrawal (safe_send_and_store d chat sent) wid = get_withdrawal d wid.
Proof. unfold get_withdrawal. rewrite safe_send_withdrawals. reflexivity. Qed.

(** Pressing a button whose action is not [approve] on a pending
    request records the intent to reject it, and nothing else. *)
Lemma reject_press (w : World) (data action : string) (wid : Z) (row : Withdrawal) :
  parse_callback lib data = Some (action, wid) -> action <> "approve"%string ->
  get_withdrawal (db w) wid = Some row -> status row = pending ->
  approve_reject_callback lib cfg w (ADMIN_ID cfg) data
  = mkResult (mkWorld (db w) (<[ADMIN_ID cfg := wid]> (pending_rejects w))
                      (awaiting_wallet w))
             (AskRejectReason wid) [].
Proof.
  intros Hp Ha Hg Hs. unfold approve_reject_callback.
  rewrite Z.eqb_refl, Hp, Hg; simpl.
  rewrite bool_decide_eq_true_2 by exact Hs. simpl.
  apply String.eqb_neq in Ha. rewrite Ha. reflexivity.
Qed.

(** One update leaves [pending_rejects] as it is, or records the
    operator's intent for a request on file, or removes the operator's
    entry. *)
Lemma step_pending_rejects (w : World) (e : Event) :
  pending_rejects (world (step lib cfg w e)) = pending_rejects w
  \/ (exists wid row, get_withdrawal (db w) wid = Some row /\
        pending_rejects (world (step lib cfg w e))
        = <[ADMIN_ID cfg := wid]> (pending_rejects w))
  \/ pending_rejects (world (step lib cfg w e))
     = delete (ADMIN_ID cfg) (pending_rejects w).
Proof.
  destruct e; simpl.
  - left. unfold start_cmd. destruct (credited_referrer _ _); reflexivity.
  - left. unfold check_both_callback. destruct member; [|reflexivity].
    destruct (_ || _); reflexivity.
  - left. reflexivity.
  - left. reflexivity.
  - left. reflexivity.
  - left. unfold admin_stats_cmd. destruct (negb _); reflexivity.
  - left. unfold claim_daily_action. destruct (negb _); [reflexivity|].
    destruct (get_user_row _ tid) as [row|]; [|reflexivity].
    destruct (last_bonus row) as [s|]; [|reflexivity].
    destruct (truthy s); [|reflexivity].
    destruct (fromisoformat lib s) as [[t|t]|]; simpl; try reflexivity.
    destruct (now - t <? td_hours 24); reflexivity.
  - left. reflexivity.
  - unfold message_handler.
    destruct (if tid =? ADMIN_ID cfg then _ else _) as [wid|]; simpl.
    + right. right. destruct (get_withdrawal (db w) wid); reflexivity.
    + left. case_decide; simpl; [|reflexivity].
      destruct (is_valid_bsc_address lib (strip text)); reflexivity.
  - left. unfold withdraw_action. destruct (negb _); [reflexivity|]. cbv zeta.
    destruct (Dlt _ _); [reflexivity|].
    destruct (match get_user_row _ tid with Some r => or_none (wallet r) | None => None end);
      [|reflexivity].
    simpl. destruct admin_ok; reflexivity.
  - unfold approve_reject_callback.
    destruct (negb _); [left; reflexivity|].
    destruct (parse_callback lib data) as [[action wid]|]; [|left; reflexivity].
    destruct (get_withdrawal (db w) wid) as [row|] eqn:Hg; [|left; reflexivity].
    destruct (negb _); [left; reflexivity|]. cbv zeta.
    destruct (String.eqb action "approve"); [left; reflexivity|].
    right. left. exists wid, row. split; [exact Hg | reflexivity].
Qed.

Lemma step_intents (w : World) (e : Event) :
  intents_sound cfg w -> intents_sound cfg (world (step lib cfg w e)).
Proof.
  intros Hi k wid Hk.
  assert (Hkeep : forall row, get_withdrawal (db w) wid = Some row ->
            exists row', get_withdrawal (db (world (step lib cfg w e))) wid = Some row').
  { intros row Hg. destruct (step_keeps_request lib cfg w e wid row Hg) as (r' & H & _).
    eauto. }
  destruct (step_pending_rejects w e) as [E|[(wid' & row & Hg & E)|E]];
    rewrite E in Hk.
  - destruct (Hi k wid Hk) as (-> & row & Hg). split; [reflexivity | eauto].
  - rewrite lookup_insert in Hk. case_decide as Hd.
    + injection Hk as <-. split; [congruence | eauto].
    + destruct (Hi k wid Hk) as (-> & row' & Hg'). split; [reflexivity | eauto].
  - rewrite lookup_delete in Hk. case_decide; [discriminate|].
    destruct (Hi k wid Hk) as (-> & row & Hg). split; [reflexivity | eauto].
Qed.

Lemma run_intents (es : list Event) (w : World) :
  intents_sound cfg w -> intents_sound cfg (run lib cfg w es).
Proof.
  revert w. induction es as [|e es IH]; intros w Hi; simpl; [exact Hi|].
  apply IH, step_intents, Hi.
Qed.

Lemma step_never_not_found (w : World) (e : Event) :
  intents_sound cfg w -> reply (step lib cfg w e) <> RejectNotFound.
Proof.
  intros Hi. destruct e; simpl.
  - unfold start_cmd, verified_menu.
    destruct (credited_referrer _ _); simpl; destruct (user_is_verified _ _); discriminate.
  - unfold check_both_callback. destruct member; [|discriminate].
    destruct (_ || _); discriminate.
  - destruct (negb _); [discriminate|]. destruct (get_user_row _ _); discriminate.
  - discriminate.
  - discriminate.
  - unfold admin_stats_cmd. destruct (negb _); discriminate.
  - unfold claim_daily_action. destruct (negb _); [discriminate|].
    destruct (get_user_row _ tid) as [row|]; [|discriminate].
    destruct (last_bonus row) as [s|]; [|discriminate].
    destruct (truthy s); [|discriminate].
    destruct (fromisoformat lib s) as [[t|t]|]; simpl; try discriminate.
    destruct (now - t <? td_hours 24); discriminate.
  - discriminate.
  - unfold message_handler.
    destruct (Z.eqb_spec tid (ADMIN_ID cfg)) as [Ht|Ht].
    + destruct (pending_rejects w !! ADMIN_ID cfg) as [wid|] eqn:Hp; simpl.
      * destruct (Hi _ _ Hp) as (_ & row & Hg). rewrite Hg. discriminate.
      * case_decide; simpl; [|destruct (user_is_verified _ _); discriminate].
        destruct (is_valid_bsc_address lib (strip text)); discriminate.
    + simpl. case_decide; simpl; [|destruct (user_is_verified _ _); discriminate].
      destruct (is_valid_bsc_address lib (strip text)); discriminate.
  - unfold withdraw_action. destruct (negb _); [discriminate|]. cbv zeta.
    destruct (Dlt _ _); [discriminate|].
    destruct (match get_user_row _ tid with Some r => or_none (wallet r) | None => None end);
      [|discriminate].
    simpl. destruct admin_ok; discriminate.
  - unfold approve_reject_callback.
    destruct (negb _); [discriminate|].
    destruct (parse_callback lib data) as [[action wid]|]; [|discriminate].
    destruct (get_withdrawal (db w) wid) as [row|]; [|discriminate].
    destruct (negb _); [discriminate|]. cbv zeta.
    destruct (String.eqb action "approve"); discriminate.
Qed.

End Operator.

(** X17. The outcomes of a press on an operator button. An approval
    answers with the user and the amount of a request that was pending and
    leaves the reject intents alone; the request for a reason records the
    intent for a request that was pending and leaves the database alone;
    every other answer (not authorized, invalid data, not found, already
    processed) changes nothing and notifies nobody. *)
Theorem callback_outcomes (lib : Library) (cfg : Config) (w : World)
    (operator : Z) (data : string) :
  let r := approve_reject_callback lib cfg w operator data in
  match reply r with
  | Approved wid tid amt =>
      operator = ADMIN_ID cfg /\
      (exists row, get_withdrawal (db w) wid = Some row /\ status row = pending /\
                   tid = w_telegram_id row /\ amt = amount row) /\
      pending_rejects (world r) = pending_rejects w /\
      awaiting_wallet (world r) = awaiting_wallet w
  | AskRejectReason wid =>
      operator = ADMIN_ID cfg /\
      (exists row, get_withdrawal (db w) wid = Some row /\ status row = pending) /\
      db (world r) = db w /\
      pending_rejects (world r) = <[ADMIN_ID cfg := wid]> (pending_rejects w) /\
      notices r = []
  | _ => world r = w /\ notices r = []
  end.
Proof.
  unfold approve_reject_callback.
  destruct (Z.eqb_spec operator (ADMIN_ID cfg)) as [Ho|Ho]; simpl; [|auto].
  destruct (parse_callback lib data) as [[action wid]|]; simpl; [|auto].
  destruct (get_withdrawal (db w) wid) as [row|] eqn:Hg; simpl; [|auto].
  destruct (bool_decide (status row = pending)) eqn:Hs; simpl; [|auto].
  apply bool_decide_eq_true in Hs.
  destruct (String.eqb action "approve"); simpl.
  - split; [exact Ho|]. split; [|auto]. exists row. auto.
  - split; [exact Ho|]. split; [|auto]. exists row. auto.
Qed.

(** X18. The operator has one reject intent at a time: after Reject on
    one pending request and then on another, the reason typed next rejects
    the second request; the first one stays pending and no intent is left. *)
Theorem reject_reason_goes_to_latest_request (lib : Library) (cfg : Config)
    (w : World) (d1 d2 a1 a2 : string) (w1 w2 : Z) (r1 r2 : Withdrawal)
    (text : string) (sent : option Z) :
  parse_callback lib d1 = Some (a1, w1) -> a1 <> "approve"%string ->
  parse_callback lib d2 = Some (a2, w2) -> a2 <> "approve"%string ->
  get_withdrawal (db w) w1 = Some r1 -> status r1 = pending ->
  get_withdrawal (db w) w2 = Some r2 -> status r2 = pending ->
  w1 <> w2 ->
  let w' := run lib cfg w [EvCallback (ADMIN_ID cfg) d1; EvCallback (ADMIN_ID cfg) d2;
                           EvMessage (ADMIN_ID cfg) text sent] in
  get_withdrawal (db w') w1 = Some r1 /\
  get_withdrawal (db w') w2 = Some (with_status rejected r2) /\
  pending_rejects w' !! ADMIN_ID cfg = None.
Proof.
  intros Hp1 Ha1 Hp2 Ha2 Hg1 Hs1 Hg2 Hs2 Hne. unfold run; simpl.
  rewrite (reject_press lib cfg w d1 a1 w1 r1 Hp1 Ha1 Hg1 Hs1). simpl.
  rewrite (reject_press lib cfg
             (mkWorld (db w) (<[ADMIN_ID cfg := w1]> (pending_rejects w))
                      (awaiting_wallet w)) d2 a2 w2 r2 Hp2 Ha2 Hg2 Hs2). simpl.
  unfold message_handler; simpl. rewrite Z.eqb_refl, lookup_insert_eq. simpl.
  rewrite Hg2. simpl.
  rewrite !get_withdrawal_safe_send, !get_withdrawal_mark.
  case_decide; [congruence|]. case_decide; [|congruence]. rewrite Hg2.
  split; [exact Hg1|]. split; [reflexivity|]. apply lookup_delete_eq.
Qed.

Lemma reject_reason_goes_to_latest_request_witness :
  let w' := run Concrete.pylib default_config
              (world (withdraw_action default_config requested_world alice 2000 true None))
              [EvCallback (ADMIN_ID default_config) "reject:1";
               EvCallback (ADMIN_ID default_config) "reject:2";
               EvMessage (ADMIN_ID default_config) "twice" None] in
  get_withdrawal (db w') 1
  = Some (mkWithdrawal alice (mkDec false 50 (-2)) alice_address pending 1000) /\
  get_withdrawal (db w') 2
  = Some (with_status rejected
            (mkWithdrawal alice (mkDec false 50 (-2)) alice_address pending 2000)) /\
  pending_rejects w' !! ADMIN_ID default_config = None.
Proof.
  apply (reject_reason_goes_to_latest_request Concrete.pylib default_config
           (world (withdraw_action default_config requested_world alice 2000 true None))
           "reject:1" "reject:2" "reject" "reject" 1 2).
  - vm_compute. reflexivity.
  - discriminate.
  - vm_compute. reflexivity.
  - discriminate.
  - vm_compute. reflexivity.
  - reflexivity.
  - vm_compute. reflexivity.
  - reflexivity.
  - lia.
Defined.

(** X19. A reject intent always names a request on file: requests are
    never deleted, so from a world where this holds (the empty one for
    instance) the intent still names one after any updates, and the answer
    "not found or already processed" to a typed reason never occurs. *)
Theorem reject_intent_names_a_request (lib : Library) (cfg : Config) (w : World)
    (es : list Event) (e : Event) :
  intents_sound cfg w ->
  intents_sound cfg (run lib cfg w es) /\
  reply (step lib cfg (run lib cfg w es) e) <> RejectNotFound.
Proof.
  intros Hi. pose proof (run_intents lib cfg es w Hi) as H.
  split; [exact H | apply step_never_not_found; exact H].
Qed.

Lemma reject_intent_names_a_request_witness :
  intents_sound default_config
    (run Concrete.pylib default_config empty_world
       (onboarding ++ fifty_referrals
        ++ [EvWithdraw alice 1000 true None; EvCallback 1000 "reject:1"])) /\
  reply (step Concrete.pylib default_config
           (run Concrete.pylib default_config empty_world
              (onboarding ++ fifty_referrals
               ++ [EvWithdraw alice 1000 true None; EvCallback 1000 "reject:1"]))
           (EvMessage 1000 "no" None)) <> RejectNotFound.
Proof.
  apply (reject_intent_names_a_request Concrete.pylib default_config empty_world).
  intros k wid H. vm_compute in H. discriminate.
Defined.

(** X20. The handlers that only show something ([/balance], the
    referral link, the main menu, [/admin_stats]) write nothing but the id
    of the message they post: the requests, the reject intents, the wallet
    prompts and the ledger columns of every row stay as they are, and nobody
    else is notified. *)
Theorem display_handlers_are_read_only (lib : Library) (cfg : Config) (w : World)
    (e : Event) :
  display_event e = true ->
  let r := step lib cfg w e in
  withdrawals (db (world r)) = withdrawals (db w) /\
  pending_rejects (world r) = pending_rejects w /\
  awaiting_wallet (world r) = awaiting_wallet w /\
  notices r = [] /\
  forall t, ledger_part <$> users (db (world r)) !! t = ledger_part <$> users (db w) !! t.
Proof.
  destruct e; try discriminate; intros _; simpl;
    try (repeat split; [apply safe_send_withdrawals | apply safe_send_ledger]).
  unfold admin_stats_cmd. destruct (negb _); simpl.
  - repeat split.
  - repeat split; [apply safe_send_withdrawals | apply safe_send_ledger].
Qed.

Lemma display_handlers_are_read_only_witness :
  let r := step Concrete.pylib default_config funded_world (EvBalance alice (Some 9)) in
  withdrawals (db (world r)) = withdrawals (db funded_world) /\
  pending_rejects (world r) = pending_rejects funded_world /\
  awaiting_wallet (world r) = awaiting_wallet funded_world /\
  notices r = [] /\
  forall t, ledger_part <$> users (db (world r)) !! t
            = ledger_part <$> users (db funded_world) !! t.
Proof.
  apply (display_handlers_are_read_only Concrete.pylib default_config funded_world
           (EvBalance alice (Some 9))).
  reflexivity.
Defined.

(** X21. The check button either verifies the user or changes nothing.
    With a status of member, administrator or creator both flags are set
    (the YouTube one without any check), a row being created for a user who
    has none, while the balance, the other rows and the requests stay as they
    are; with any other status, or when the membership lookup fails, the
    world is left untouched. *)
Theorem check_both_verifies_or_changes_nothing (w : World) (tid : Z)
    (member : option string) (sent : option Z) :
  let r := check_both_callback w tid member sent in
  match member with
  | Some st =>
      if is_member_status st then
        reply r = VerificationComplete /\
        user_is_verified (db (world r)) tid = true /\
        balance_before (db (world r)) tid = balance_before (db w) tid /\
        withdrawals (db (world r)) = withdrawals (db w) /\
        forall t, t <> tid -> users (db (world r)) !! t = users (db w) !! t
      else world r = w /\ reply r = NotMemberYet
  | None => world r = w /\ reply r = CouldNotVerify
  end.
Proof.
  unfold check_both_callback, is_member_status. destruct member as [st|]; [|auto].
  destruct (String.eqb st "member" || String.eqb st "administrator"
            || String.eqb st "creator"); [|auto].
  simpl. split; [reflexivity|].
  assert (Hrow : users (set_subscribed_flag (set_joined_flag (db w) tid 1) tid 1) !! tid
                 = Some (with_subscribed_yt 1 (with_joined_channel 1
                           (default (new_user None None) (users (db w) !! tid))))).
  { unfold set_subscribed_flag, set_joined_flag.
    rewrite update_user_lookup. case_decide; [|congruence].
    rewrite ensure_user_lookup. case_decide; [|congruence].
    rewrite update_user_lookup. case_decide; [|congruence].
    rewrite ensure_user_lookup. case_decide; [|congruence].
    destruct (users (db w) !! tid); reflexivity. }
  split.
  { unfold user_is_verified, get_user_row. rewrite safe_send_lookup.
    case_decide; [|congruence]. rewrite Hrow. destruct sent; reflexivity. }
  split.
  { unfold balance_before. rewrite safe_send_lookup. case_decide; [|congruence].
    rewrite Hrow. simpl. rewrite balance_stamp. simpl.
    destruct (users (db w) !! tid); reflexivity. }
  split.
  { rewrite safe_send_withdrawals. unfold set_subscribed_flag, set_joined_flag.
    rewrite !update_user_withdrawals, !ensure_user_withdrawals.
    rewrite !update_user_withdrawals, !ensure_user_withdrawals. reflexivity. }
  intros t Ht. rewrite safe_send_lookup. case_decide; [congruence|].
  unfold set_subscribed_flag, set_joined_flag.
  rewrite update_user_lookup. case_decide; [congruence|].
  rewrite ensure_user_lookup. case_decide; [congruence|].
  rewrite update_user_lookup. case_decide; [congruence|].
  rewrite ensure_user_lookup. case_decide; [congruence|]. reflexivity.
Qed.

(** ** Claims in a row, and the wallet prompt *)

Section Flows.

Variable lib : Library.
Variable cfg : Config.

(** A granted claim was made by a verified user with a row, and leaves
    the row of [bonus_granted]. *)
Lemma granted_world (w : World) (tid now now' : Z) (sent : option Z) :
  reply (claim_daily_action lib cfg w tid now now' sent) = BonusGranted ->
  exists u, users (db w) !! tid = Some u /\ row_verified u = true /\
            users (db (world (claim_daily_action lib cfg w tid now now' sent))) !! tid
            = Some (stamp sent (bonus_granted lib cfg now' u)).
Proof.
  destruct (user_is_verified (db w) tid) eqn:Hv.
  - destruct (verified_row _ _ Hv) as (u & Hu & Hj & Hs).
    rewrite (claim_outcome lib cfg w tid now now' sent u Hv Hu).
    assert (Hrow : users (safe_send_and_store
                            (record_last_bonus lib
                               (add_balance (db w) tid (DAILY_BONUS cfg)) tid now')
                            tid sent) !! tid
                   = Some (stamp sent (bonus_granted lib cfg now' u))).
    { rewrite safe_send_lookup. case_decide; [|congruence].
      rewrite (grant_lookup lib cfg (db w) tid tid now' u Hu).
      case_decide; [|congruence]. reflexivity. }
    assert (Hver : row_verified u = true).
    { unfold row_verified. rewrite Hj, Hs. reflexivity. }
    destruct (read_last_bonus lib u) as [[t|t]|]; simpl.
    + destruct (now - t <? td_hours 24); simpl; [discriminate|]. eauto.
    + discriminate.
    + eauto.
  - unfold claim_daily_action. rewrite Hv. simpl. discriminate.
Qed.

Lemma message_not_for_rejection (w : World) (tid : Z) :
  no_reject_intent cfg w tid ->
  (if tid =? ADMIN_ID cfg then pending_rejects w !! ADMIN_ID cfg else None) = None.
Proof.
  intros H. destruct (Z.eqb_spec tid (ADMIN_ID cfg)); [apply H; assumption | reflexivity].
Qed.

Lemma set_wallet_ledger_other (d : Db) (tid t : Z) (a : string) :
  t <> tid -> users (set_wallet d tid a) !! t = users d !! t.
Proof.
  intros Ht. unfold set_wallet. rewrite update_user_lookup.
  case_decide; [congruence|]. rewrite ensure_user_lookup.
  case_decide; [congruence | reflexivity].
Qed.

Lemma set_wallet_row (d : Db) (tid : Z) (a : string) :
  users (set_wallet d tid a) !! tid
  = Some (with_wallet (Some a) (default (new_user None None) (users d !! tid))).
Proof.
  unfold set_wallet. rewrite update_user_lookup. case_decide; [|congruence].
  rewrite ensure_user_lookup. case_decide; [|congruence]. reflexivity.
Qed.

End Flows.

(** X22. Two claims less than 24 hours apart: when a claim was granted
    and recorded at [t0], and the library reads back the timestamp it
    wrote, a claim of the same user made before [t0] plus 24 hours is refused
    and the balance stays as the first claim left it. *)
Theorem second_claim_within_a_day_is_refused (lib : Library) (cfg : Config)
    (w : World) (tid now1 t0 now2 now2' : Z) (sent1 sent2 : option Z) :
  truthy (isoformat lib t0) = true ->
  fromisoformat lib (isoformat lib t0) = Some (Aware t0) ->
  reply (claim_daily_action lib cfg w tid now1 t0 sent1) = BonusGranted ->
  now2 - t0 < td_hours 24 ->
  let w1 := world (claim_daily_action lib cfg w tid now1 t0 sent1) in
  let r2 := claim_daily_action lib cfg w1 tid now2 now2' sent2 in
  (exists h m, reply r2 = CooldownActive h m) /\
  balance_before (db (world r2)) tid = balance_before (db w1) tid.
Proof.
  intros Ht Hp Hg Hlt.
  destruct (granted_world lib cfg w tid now1 t0 sent1 Hg) as (u & Hu & Hver & Hrow).
  cbv zeta.
  set (w1 := world (claim_daily_action lib cfg w tid now1 t0 sent1)) in *.
  assert (Hv1 : user_is_verified (db w1) tid = true).
  { rewrite (user_is_verified_row _ _ _ Hrow), row_verified_stamp. exact Hver. }
  destruct (claim_within_cooldown lib cfg w1 tid now2 now2' sent2 _ t0 Hv1 Hrow
              (granted_row_reads_back lib cfg t0 sent1 u Ht Hp) Hlt)
    as ((h & m & Hr & _) & Hrow2).
  split; [eauto|]. unfold balance_before. rewrite Hrow2, Hrow.
  rewrite !balance_stamp. reflexivity.
Qed.

Lemma second_claim_within_a_day_is_refused_witness :
  let w1 := world (claim_daily_action Concrete.pylib default_config unfunded_world alice
                     1700000000000000 1700000000000000 None) in
  let r2 := claim_daily_action Concrete.pylib default_config w1 alice
              (1700000000000000 + td_hours 23) (1700000000000000 + td_hours 23) None in
  (exists h m, reply r2 = CooldownActive h m) /\
  balance_before (db (world r2)) alice = balance_before (db w1) alice.
Proof.
  apply (second_claim_within_a_day_is_refused Concrete.pylib default_config
           unfunded_world alice 1700000000000000 1700000000000000).
  - vm_compute. reflexivity.
  - vm_compute. reflexivity.
  - vm_compute. reflexivity.
  - vm_compute. reflexivity.
Defined.

(** X23. The wallet prompt followed by a valid address: the stripped
    text is stored as the wallet of the sender (a row being created if there
    was none) and the prompt is used up. *)
Theorem prompt_then_address_stores_it (lib : Library) (cfg : Config) (w : World)
    (tid m : Z) (text : string) (sent : option Z) :
  no_reject_intent cfg w tid ->
  is_valid_bsc_address lib (strip text) = true ->
  let r := message_handler lib cfg (world (set_wallet_prompt w tid (Some m)))
                           tid text sent in
  reply r = WalletSaved (strip text) /\
  (exists u, users (db (world r)) !! tid = Some u /\ wallet u = Some (strip text)) /\
  (tid ∉ awaiting_wallet (world r)).
Proof.
  intros Hn Hval. unfold message_handler, set_wallet_prompt; simpl.
  rewrite (message_not_for_rejection cfg w tid Hn).
  case_decide as Hin;
    [|exfalso; apply Hin, elem_of_union_l, elem_of_singleton; reflexivity].
  simpl. rewrite Hval. simpl. split; [reflexivity|].
  split; [|apply not_elem_of_difference; right; apply elem_of_singleton; reflexivity].
  rewrite safe_send_lookup. case_decide; [|congruence].
  rewrite set_wallet_row. simpl. eexists. split; [reflexivity|].
  rewrite wallet_stamp. reflexivity.
Qed.

Lemma prompt_then_address_stores_it_witness :
  let r := message_handler Concrete.pylib default_config
             (world (set_wallet_prompt empty_world 7 (Some 1))) 7
             ("  " ++ alice_address ++ " ")%string None in
  reply r = WalletSaved (strip ("  " ++ alice_address ++ " ")%string) /\
  (exists u, users (db (world r)) !! 7 = Some u /\
             wallet u = Some (strip ("  " ++ alice_address ++ " ")%string)) /\
  (7 ∉ awaiting_wallet (world r)).
Proof.
  apply (prompt_then_address_stores_it Concrete.pylib default_config empty_world 7 1).
  - intros H. vm_compute in H. discriminate.
  - vm_compute. reflexivity.
Defined.

(** X24. A text message that is not the reason of a rejection stores
    nothing unless it is a valid address sent after the prompt: without the
    prompt, or with a text the validator refuses, the requests and the ledger
    columns of every row stay as they are, and the prompt, if there was one,
    is used up. *)
Theorem text_without_effect (lib : Library) (cfg : Config) (w : World)
    (tid : Z) (text : string) (sent : option Z) :
  no_reject_intent cfg w tid ->
  (tid ∉ awaiting_wallet w) \/ is_valid_bsc_address lib (strip text) = false ->
  let r := message_handler lib cfg w tid text sent in
  withdrawals (db (world r)) = withdrawals (db w) /\
  pending_rejects (world r) = pending_rejects w /\
  (tid ∉ awaiting_wallet (world r)) /\
  notices r = [] /\
  forall t, ledger_part <$> users (db (world r)) !! t = ledger_part <$> users (db w) !! t.
Proof.
  intros Hn Hor. unfold message_handler.
  rewrite (message_not_for_rejection cfg w tid Hn).
  case_decide as Hin; simpl.
  - destruct Hor as [Hout|Hval]; [contradiction|]. rewrite Hval. simpl.
    repeat split; [apply safe_send_withdrawals | | apply safe_send_ledger].
    apply not_elem_of_difference. right. apply elem_of_singleton. reflexivity.
  - repeat split; [apply safe_send_withdrawals | exact Hin | apply safe_send_ledger].
Qed.

Lemma text_without_effect_witness :
  let r := message_handler Concrete.pylib default_config
             (world (set_wallet_prompt funded_world alice (Some 9))) alice
             "0x1234" None in
  withdrawals (db (world r))
  = withdrawals (db (world (set_wallet_prompt funded_world alice (Some 9)))) /\
  pending_rejects (world r)
  = pending_rejects (world (set_wallet_prompt funded_world alice (Some 9))) /\
  (alice ∉ awaiting_wallet (world r)) /\
  notices r = [] /\
  forall t, ledger_part <$> users (db (world r)) !! t
            = ledger_part
                <$> users (db (world (set_wallet_prompt funded_world alice (Some 9)))) !! t.
Proof.
  apply (text_without_effect Concrete.pylib default_config
           (world (set_wallet_prompt funded_world alice (Some 9))) alice "0x1234" None).
  - intros H. vm_compute in H. discriminate.
  - right. vm_compute. reflexivity.
Defined.

(** X25. The validator and the shape of an address. Its verdict does
    not depend on white space around the text; a text it accepts, stripped,
    starts with [0x] and has 42 characters; and without [eth_utils] it
    checks nothing else, whether or not the other forty characters are
    hexadecimal digits. *)
Theorem validator_checks_the_shape (lib : Library) (a : string) :
  is_valid_bsc_address lib (strip a) = is_valid_bsc_address lib a /\
  (is_valid_bsc_address lib a = true ->
   startswith "0x" (strip a) = true /\ len (strip a) = 42) /\
  (eth_utils lib = None ->
   is_valid_bsc_address lib a = startswith "0x" (strip a) && (len (strip a) =? 42)).
Proof.
  split; [apply valid_strip|]. split; [apply valid_shape|].
  intros H. unfold is_valid_bsc_address. rewrite H.
  destruct (startswith "0x" (strip a) && (len (strip a) =? 42)); reflexivity.
Qed.

(** A text of the right shape that is not hexadecimal is accepted
    without [eth_utils]. *)
Lemma validator_checks_the_shape_witness :
  is_valid_bsc_address Concrete.pylib_no_eth not_hex_address
  = startswith "0x" (strip not_hex_address) && (len (strip not_hex_address) =? 42).
Proof.
  apply (proj2 (proj2 (validator_checks_the_shape Concrete.pylib_no_eth not_hex_address))).
  reflexivity.
Defined.

(** ** What the bot writes and reads back: links and buttons *)

Section Tokens.

Lemma all_chars_rev_onto (p : ascii -> bool) (s acc : string) :
  Eip55.all_chars p (rev_onto s acc) = Eip55.all_chars p s && Eip55.all_chars p acc.
Proof.
  revert acc. induction s as [|c r IH]; intros acc; simpl; [reflexivity|].
  rewrite IH. simpl. destruct (p c), (Eip55.all_chars p r); reflexivity.
Qed.

Lemma lstrip_no_space (s : string) : no_space s = true -> lstrip s = s.
Proof.
  unfold no_space. destruct s as [|c r]; simpl; [reflexivity|].
  destruct (is_space c); simpl; [discriminate | reflexivity].
Qed.

Lemma strip_no_space (s : string) : no_space s = true -> strip s = s.
Proof.
  intros H. unfold strip. rewrite (lstrip_no_space s H).
  rewrite lstrip_no_space.
  - apply rev_involutive_s.
  - unfold no_space, rev. rewrite all_chars_rev_onto. simpl. rewrite andb_true_r. exact H.
Qed.

Lemma digit_no_space (c : ascii) : Concrete.is_digit c = true -> is_space c = false.
Proof.
  destruct c as [[] [] [] [] [] [] [] []]; intros H; try reflexivity; discriminate H.
Qed.

Lemma digits_no_space (s : string) : all_digits s = true -> no_space s = true.
Proof.
  unfold all_digits, no_space. induction s as [|c r IH]; simpl; [reflexivity|].
  intros [Hc Hr]%andb_prop. rewrite (digit_no_space c Hc), (IH Hr). reflexivity.
Qed.

Lemma read_digits_value (s : string) (acc : Z) :
  all_digits s = true ->
  Concrete.read_digits s acc
  = acc * 10 ^ Z.of_nat (String.length s) + Z.of_N (digits_value s).
Proof.
  revert acc. induction s as [|c r IH]; intros acc H.
  - simpl. lia.
  - unfold all_digits in H. simpl in H. apply andb_prop in H as [Hc Hr].
    cbn [Concrete.read_digits digits_value String.length]. rewrite (IH _ Hr).
    assert (Hge : (48 <= N_of_ascii c)%N).
    { unfold Concrete.is_digit in Hc. apply andb_prop in Hc as [Hc _].
      apply N.leb_le in Hc. exact Hc. }
    rewrite Nat2Z.inj_succ, Z.pow_succ_r by lia.
    rewrite N2Z.inj_add, N2Z.inj_mul, N2Z.inj_sub by exact Hge.
    rewrite N2Z.inj_pow, nat_N_Z. simpl (Z.of_N 10). simpl (Z.of_N 48). ring.
Qed.

Lemma number_digits (s : string) :
  truthy s = true -> all_digits s = true ->
  Concrete.number s = Some (Z.of_N (digits_value s)).
Proof.
  intros Ht Hd. unfold Concrete.number. unfold all_digits in Hd. rewrite Ht, Hd. simpl.
  rewrite read_digits_value by exact Hd. reflexivity.
Qed.

Lemma int_of_digits (s : string) :
  truthy s = true -> all_digits s = true ->
  Concrete.int_of_string s = Some (Z.of_N (digits_value s)).
Proof.
  intros Ht Hd. unfold Concrete.int_of_string.
  rewrite (strip_no_space s (digits_no_space s Hd)).
  rewrite <- (number_digits s Ht Hd).
  destruct s as [|c r]; [discriminate|].
  assert (Hc : Concrete.is_digit c = true).
  { unfold all_digits in Hd. simpl in Hd. apply andb_prop in Hd as [Hc _]. exact Hc. }
  destruct c as [[] [] [] [] [] [] [] []]; try reflexivity; discriminate Hc.
Qed.

Lemma int_of_minus_digits (s : string) :
  truthy s = true -> all_digits s = true ->
  Concrete.int_of_string (String "-" s) = Some (- Z.of_N (digits_value s)).
Proof.
  intros Ht Hd. unfold Concrete.int_of_string.
  rewrite strip_no_space.
  - rewrite (number_digits s Ht Hd). reflexivity.
  - unfold no_space. simpl. exact (digits_no_space s Hd).
Qed.

(** [int(str(z))] is [z]. *)
Lemma int_of_str_int (z : Z) : Concrete.int_of_string (str_int z) = Some z.
Proof.
  unfold str_int. destruct (Z.ltb_spec z 0) as [Hz|Hz].
  - destruct (digits_spec (Z.to_N (- z))) as (Hd & Ht & Hv).
    rewrite (int_of_minus_digits _ Ht Hd), Hv. f_equal. lia.
  - destruct (digits_spec (Z.to_N z)) as (Hd & Ht & Hv).
    rewrite (int_of_digits _ Ht Hd), Hv. f_equal. lia.
Qed.

Lemma str_int_no_space (z : Z) : no_space (str_int z) = true.
Proof.
  unfold str_int. destruct (z <? 0).
  - destruct (digits_spec (Z.to_N (- z))) as (Hd & _ & _).
    unfold no_space. simpl. exact (digits_no_space _ Hd).
  - destruct (digits_spec (Z.to_N z)) as (Hd & _ & _). exact (digits_no_space _ Hd).
Qed.

(** The text of an integer starts with a digit or with the sign. *)
Lemma str_int_head (z : Z) :
  exists c r, str_int z = String c r /\ Ascii.eqb "=" c = false /\
              Eip55.all_chars (fun a => negb (Ascii.eqb a ":")) (str_int z) = true.
Proof.
  assert (Hcolon : forall s, all_digits s = true ->
            Eip55.all_chars (fun a => negb (Ascii.eqb a ":")) s = true).
  { unfold all_digits. induction s as [|c r IH]; simpl; [reflexivity|].
    intros [Hc Hr]%andb_prop. rewrite (IH Hr), andb_true_r.
    destruct (Ascii.eqb_spec c ":") as [->|]; [discriminate Hc | reflexivity]. }
  assert (Hhead : forall s, truthy s = true -> all_digits s = true ->
            exists c r, s = String c r /\ Ascii.eqb "=" c = false).
  { intros [|c r] Ht Hd; [discriminate|]. exists c, r. split; [reflexivity|].
    unfold all_digits in Hd. simpl in Hd. apply andb_prop in Hd as [Hc _].
    destruct (Ascii.eqb_spec "=" c) as [<-|]; [discriminate Hc | reflexivity]. }
  unfold str_int. destruct (z <? 0).
  - destruct (digits_spec (Z.to_N (- z))) as (Hd & _ & _).
    eexists _, _. split; [reflexivity|]. split; [reflexivity|].
    simpl. exact (Hcolon _ Hd).
  - destruct (digits_spec (Z.to_N z)) as (Hd & Ht & _).
    destruct (Hhead _ Ht Hd) as (c & r & E & Hc). exists c, r.
    split; [exact E|]. split; [exact Hc | exact (Hcolon _ Hd)].
Qed.

Lemma split_colon_free (s cur : string) :
  Eip55.all_chars (fun a => negb (Ascii.eqb a ":")) s = true ->
  split_colon s cur = [(rev cur ++ s)%string].
Proof.
  revert cur. induction s as [|c r IH]; intros cur H.
  - simpl. rewrite app_empty_r. reflexivity.
  - simpl in H. apply andb_prop in H as [Hc Hr]. apply negb_true_iff in Hc.
    cbn [split_colon]. rewrite Hc, (IH _ Hr), rev_cons, app_assoc_s. reflexivity.
Qed.

Lemma parse_ref_token (tid : Z) :
  parse_ref_arg Concrete.pylib [referral_token tid] = Some tid.
Proof.
  unfold parse_ref_arg, referral_token.
  destruct (str_int_head tid) as (c & r & E & Hc & _).
  rewrite strip_no_space
    by (unfold no_space; rewrite !app_cons, app_nil; simpl; apply str_int_no_space).
  rewrite !app_cons, app_nil. cbn [startswith drop Nat.sub].
  rewrite E at 1. cbn [startswith]. rewrite Hc. simpl.
  apply int_of_str_int.
Qed.

Lemma parse_callback_data (action : string) (wid : Z) :
  Eip55.all_chars (fun a => negb (Ascii.eqb a ":")) action = true ->
  parse_callback Concrete.pylib (callback_data action wid) = Some (action, wid).
Proof.
  intros Ha. unfold parse_callback, callback_data.
  destruct (str_int_head wid) as (_ & _ & _ & _ & Hs).
  assert (E : forall cur, split_colon (action ++ ":" ++ str_int wid) cur
                          = [(rev cur ++ action)%string; str_int wid]).
  { induction action as [|c r IH]; intros cur.
    - rewrite app_nil, app_cons, app_nil. cbn [split_colon]. simpl (Ascii.eqb ":" ":").
      cbv iota. rewrite (split_colon_free _ EmptyString Hs), app_empty_r. reflexivity.
    - simpl in Ha. apply andb_prop in Ha as [Hc Hr]. apply negb_true_iff in Hc.
      rewrite app_cons. cbn [split_colon]. rewrite Hc, (IH Hr), rev_cons, app_assoc_s.
      reflexivity. }
  rewrite (E EmptyString). simpl. rewrite int_of_str_int. reflexivity.
Qed.

End Tokens.

(** X26. The link shown by [referral_action] leads back to its owner:
    the start parameter [ref<tid>] is read by [parse_ref_arg] as [tid], so
    when another user opens the link, [tid] (not 0) is told and credited: the
    referral bonus is added to the balance of [tid] and one referral to the
    count, in a row created with the defaults if [tid] had none; and the row
    of the newcomer, if it is created by this [/start], records [tid] as the
    referrer. *)
Theorem referral_link_leads_to_its_owner (cfg : Config) (w : World)
    (tid other : Z) (uname : option string) (sent : option Z) :
  sqlite_integer tid -> sqlite_integer other -> tid <> 0 -> tid <> other ->
  let r := start_cmd Concrete.pylib cfg w other uname [referral_token tid] sent in
  let v := default (new_user None None) (users (db w) !! tid) in
  parse_ref_arg Concrete.pylib [referral_token tid] = Some tid /\
  notices r
  = [(tid, ReferralEarned (REF_BONUS cfg)); (ADMIN_ID cfg, NewUserStarted other)] /\
  users (db (world r)) !! tid
  = Some (with_referrals (referrals v + 1)
            (with_balance (Dadd (balance v) (REF_BONUS cfg)) v)) /\
  balance_before (db (world r)) tid = Dadd (balance_before (db w) tid) (REF_BONUS cfg) /\
  referred_by <$> users (db (world r)) !! other
  = Some (match users (db w) !! other with
          | Some u0 => referred_by u0
          | None => Some tid
          end).
Proof.
  intros _ _ H0 Hne. cbv zeta.
  destruct (start_credits_referrer Concrete.pylib cfg w other tid uname
              [referral_token tid] sent (parse_ref_token tid) H0 Hne)
    as (Hn & Hr & Ho & _).
  split; [apply parse_ref_token|]. split; [exact Hn|]. split; [exact Hr|]. split.
  - unfold balance_before. rewrite Hr. simpl.
    destruct (users (db w) !! tid); reflexivity.
  - rewrite Ho. destruct (users (db w) !! other), sent; reflexivity.
Qed.

(** User 777, who has no row, opens Alice's link. *)
Lemma referral_link_leads_to_its_owner_witness :
  let r := start_cmd Concrete.pylib default_config funded_world 777 None
                     [referral_token alice] None in
  let v := default (new_user None None) (users (db funded_world) !! alice) in
  parse_ref_arg Concrete.pylib [referral_token alice] = Some alice /\
  notices r
  = [(alice, ReferralEarned (REF_BONUS default_config));
     (ADMIN_ID default_config, NewUserStarted 777)] /\
  users (db (world r)) !! alice
  = Some (with_referrals (referrals v + 1)
            (with_balance (Dadd (balance v) (REF_BONUS default_config)) v)) /\
  balance_before (db (world r)) alice
  = Dadd (balance_before (db funded_world) alice) (REF_BONUS default_config) /\
  referred_by <$> users (db (world r)) !! 777
  = Some (match users (db funded_world) !! 777 with
          | Some u0 => referred_by u0
          | None => Some alice
          end).
Proof.
  apply (referral_link_leads_to_its_owner default_config funded_world alice 777);
    unfold sqlite_integer, alice; lia.
Defined.

(** X27. The buttons sent to the operator with a request name that
    request. After an accepted [/withdraw] whose notice reached the operator,
    the id [wid] in the notice was free before and is the id of the pending
    row just written. The data of the Approve button, pressed by the
    operator, marks that row approved and sets the balance of the requesting
    user to zero; the data of the Reject button records the intent to reject
    that row and leaves the database as it is. *)
Theorem request_buttons_name_the_request (cfg : Config) (w : World) (tid now : Z)
    (sent : option Z) (u : User) (a : string) :
  user_is_verified (db w) tid = true -> users (db w) !! tid = Some u ->
  Dlt (balance u) (MIN_WITHDRAW cfg) = false -> or_none (wallet u) = Some a ->
  let r := withdraw_action cfg w tid now true sent in
  exists wid,
    notices r = [(ADMIN_ID cfg, WithdrawRequest wid tid (balance u) a (referrals u))] /\
    get_withdrawal (db w) wid = None /\
    get_withdrawal (db (world r)) wid
    = Some (mkWithdrawal tid (balance u) a pending now) /\
    (let ra := approve_reject_callback Concrete.pylib cfg (world r) (ADMIN_ID cfg)
                 (callback_data "approve" wid) in
     reply ra = Approved wid tid (balance u) /\
     get_withdrawal (db (world ra)) wid
     = Some (mkWithdrawal tid (balance u) a approved now) /\
     balance_before (db (world ra)) tid = Dzero /\
     pending_rejects (world ra) = pending_rejects w) /\
    (let rr := approve_reject_callback Concrete.pylib cfg (world r) (ADMIN_ID cfg)
                 (callback_data "reject" wid) in
     reply rr = AskRejectReason wid /\
     pending_rejects (world rr) !! ADMIN_ID cfg = Some wid /\
     db (world rr) = db (world r)).
Proof.
  intros Hv Hu Hlt Ha. cbv zeta.
  rewrite (withdraw_accepted cfg w tid now true sent u a Hv Hu Hlt Ha).
  set (wid := Z.of_nat (length (withdrawals (db w))) + 1).
  exists wid. split; [reflexivity|].
  assert (Hfree : get_withdrawal (db w) wid = None).
  { unfold get_withdrawal, wid.
    destruct (1 <=? Z.of_nat (length (withdrawals (db w))) + 1); [|reflexivity].
    apply lookup_ge_None_2. lia. }
  assert (Hg : get_withdrawal
                 (safe_send_and_store (requested (db w) tid u a now) tid sent) wid
               = Some (mkWithdrawal tid (balance u) a pending now)).
  { rewrite get_withdrawal_safe_send. unfold get_withdrawal, requested, wid; simpl.
    destruct (Z.leb_spec 1 (Z.of_nat (length (withdrawals (db w))) + 1)); [|lia].
    rewrite lookup_app_r by lia.
    replace (Z.to_nat (Z.of_nat (length (withdrawals (db w))) + 1 - 1)
             - length (withdrawals (db w)))%nat with 0%nat by lia.
    reflexivity. }
  split; [exact Hfree|]. split; [exact Hg|].
  unfold approve_reject_callback. simpl.
  rewrite Z.eqb_refl, !parse_callback_data by reflexivity. simpl.
  rewrite Hg. simpl. split.
  - split; [reflexivity|]. split; [|split; [|reflexivity]].
    + unfold get_withdrawal. rewrite set_balance_withdrawals.
      fold (get_withdrawal
              (mark_withdrawal
                 (safe_send_and_store (requested (db w) tid u a now) tid sent)
                 wid approved) wid).
      rewrite get_withdrawal_mark. case_decide; [|congruence].
      rewrite Hg. reflexivity.
    + unfold balance_before.
      destruct (set_balance_lookup
                  (mark_withdrawal
                     (safe_send_and_store (requested (db w) tid u a now) tid sent)
                     wid approved) tid Dzero) as (x & Hx & Hb).
      rewrite Hx. exact Hb.
  - split; [reflexivity|]. split; [apply lookup_insert_eq | reflexivity].
Qed.

Lemma request_buttons_name_the_request_witness :
  let r := withdraw_action default_config funded_world alice 1000 true (Some 5) in
  exists wid,
    notices r = [(ADMIN_ID default_config,
                  WithdrawRequest wid alice (mkDec false 50 (-2)) alice_address 50)] /\
    get_withdrawal (db funded_world) wid = None /\
    get_withdrawal (db (world r)) wid
    = Some (mkWithdrawal alice (mkDec false 50 (-2)) alice_address pending 1000) /\
    (let ra := approve_reject_callback Concrete.pylib default_config (world r)
                 (ADMIN_ID default_config) (callback_data "approve" wid) in
     reply ra = Approved wid alice (mkDec false 50 (-2)) /\
     get_withdrawal (db (world ra)) wid
     = Some (mkWithdrawal alice (mkDec false 50 (-2)) alice_address approved 1000) /\
     balance_before (db (world ra)) alice = Dzero /\
     pending_rejects (world ra) = pending_rejects funded_world) /\
    (let rr := approve_reject_callback Concrete.pylib default_config (world r)
                 (ADMIN_ID default_config) (callback_data "reject" wid) in
     reply rr = AskRejectReason wid /\
     pending_rejects (world rr) !! ADMIN_ID default_config = Some wid /\
     db (world rr) = db (world r)).
Proof.
  apply (request_buttons_name_the_request default_config funded_world alice 1000 (Some 5)
           (mkUser (Some "alice"%string) (mkDec false 50 (-2)) 50 None
                   (Some alice_address) None 1 1 (Some 4)) alice_address).
  - vm_compute. reflexivity.
  - vm_compute. reflexivity.
  - vm_compute. reflexivity.
  - vm_compute. reflexivity.
Defined.

(** X28. [add_balance] and [set_balance] on the level of rows: the row
    of the user is created with the defaults if there is none, its balance
    becomes the old balance plus the amount (the amount itself for a user
    without a row), respectively the amount given; no other row and no
    request changes, and [ensure_user] on a user who has a row changes
    nothing. *)
Theorem balance_helpers_write_one_row (d : Db) (tid t : Z) (amt : Decimal)
    (un : option string) (r : option Z) :
  users (add_balance d tid amt) !! t
  = (if decide (tid = t)
     then Some (with_balance (Dadd (balance_before d tid) amt)
                             (default (new_user None None) (users d !! tid)))
     else users d !! t) /\
  users (set_balance d tid amt) !! t
  = (if decide (tid = t)
     then Some (with_balance amt (default (new_user None None) (users d !! tid)))
     else users d !! t) /\
  withdrawals (add_balance d tid amt) = withdrawals d /\
  withdrawals (set_balance d tid amt) = withdrawals d /\
  ensure_user (ensure_user d tid un r) tid None None = ensure_user d tid un r.
Proof.
  split.
  { unfold add_balance, get_user_row, balance_before.
    rewrite update_user_lookup. destruct (decide (tid = t)) as [<-|Hne].
    - rewrite !ensure_user_lookup. case_decide; [|congruence].
      destruct (users d !! tid); reflexivity.
    - rewrite ensure_user_lookup. case_decide; [congruence | reflexivity]. }
  split.
  { unfold set_balance. rewrite update_user_lookup. destruct (decide (tid = t)) as [<-|Hne].
    - rewrite ensure_user_lookup. case_decide; [reflexivity | congruence].
    - rewrite ensure_user_lookup. case_decide; [congruence | reflexivity]. }
  split.
  { unfold add_balance. rewrite update_user_withdrawals. apply ensure_user_withdrawals. }
  split; [apply set_balance_withdrawals|].
  assert (H : users (ensure_user d tid un r) !! tid
              = Some (default (new_user un r) (users d !! tid))).
  { rewrite ensure_user_lookup. case_decide; [reflexivity | congruence]. }
  apply (ensure_user_present _ _ _ _ _ H).
Qed.

(** X29. [/balance], [/claim] and [/withdraw] turn an unverified user
    away: the answer asks to verify, nobody is notified, and no request and
    no ledger column of any row changes. *)
Theorem unverified_user_is_turned_away (lib : Library) (cfg : Config) (w : World)
    (e : Event) (tid : Z) :
  gated_event e tid -> user_is_verified (db w) tid = false ->
  let r := step lib cfg w e in
  reply r = NotVerified /\
  notices r = [] /\
  withdrawals (db (world r)) = withdrawals (db w) /\
  forall t, ledger_part <$> users (db (world r)) !! t = ledger_part <$> users (db w) !! t.
Proof.
  intros Hg Hv. destruct e; try contradiction; simpl in Hg; subst tid0; simpl.
  - rewrite Hv. simpl.
    repeat split; [apply safe_send_withdrawals | apply safe_send_ledger].
  - unfold claim_daily_action. rewrite Hv. simpl.
    repeat split; [apply safe_send_withdrawals | apply safe_send_ledger].
  - rewrite (withdraw_not_verified cfg w tid now admin_ok sent Hv). simpl.
    repeat split; [apply safe_send_withdrawals | apply safe_send_ledger].
Qed.

Lemma unverified_user_is_turned_away_witness :
  let r := step Concrete.pylib default_config funded_world (EvClaim 100 5 5 None) in
  reply r = NotVerified /\
  notices r = [] /\
  withdrawals (db (world r)) = withdrawals (db funded_world) /\
  forall t, ledger_part <$> users (db (world r)) !! t
            = ledger_part <$> users (db funded_world) !! t.
Proof.
  apply (unverified_user_is_turned_away Concrete.pylib default_config funded_world
           (EvClaim 100 5 5 None) 100).
  - reflexivity.
  - vm_compute. reflexivity.
Defined.

(** ** The balance written as text and read back *)

Section DecimalText.

Lemma all_chars_app (p : ascii -> bool) (a b : string) :
  Eip55.all_chars p (a ++ b) = Eip55.all_chars p a && Eip55.all_chars p b.
Proof.
  induction a as [|c a IH]; [reflexivity|].
  rewrite app_cons. simpl. rewrite IH. apply andb_assoc.
Qed.

Lemma all_chars_impl (p q : ascii -> bool) (s : string) :
  (forall c, p c = true -> q c = true) ->
  Eip55.all_chars p s = true -> Eip55.all_chars q s = true.
Proof.
  intros Hpq. induction s as [|c r IH]; simpl; [reflexivity|].
  intros [Hc Hr]%andb_prop. rewrite (Hpq c Hc), (IH Hr). reflexivity.
Qed.

Lemma remove_underscores_id (s : string) :
  Eip55.all_chars (fun c => negb (Ascii.eqb c "_")) s = true ->
  remove_underscores s = s.
Proof.
  induction s as [|c r IH]; simpl; [reflexivity|].
  intros [Hc Hr]%andb_prop. apply negb_true_iff in Hc. rewrite Hc, (IH Hr). reflexivity.
Qed.

Lemma before_e_free (a : string) :
  Eip55.all_chars (fun c => negb (is_e c)) a = true ->
  before_e a = a /\ after_e a = None.
Proof.
  induction a as [|c r IH]; simpl; [auto|].
  intros [Hc Hr]%andb_prop. apply negb_true_iff in Hc. rewrite Hc.
  destruct (IH Hr) as [-> ->]. auto.
Qed.

Lemma before_e_app (a x : string) :
  Eip55.all_chars (fun c => negb (is_e c)) a = true ->
  before_e (a ++ String "E" x) = a /\ after_e (a ++ String "E" x) = Some x.
Proof.
  induction a as [|c r IH]; [rewrite app_nil; simpl; auto|].
  rewrite app_cons. simpl.
  intros [Hc Hr]%andb_prop. apply negb_true_iff in Hc. rewrite Hc.
  destruct (IH Hr) as [-> ->]. auto.
Qed.

Lemma signed_int_digits (k : Z) :
  exists sg ds, signed_int k = String sg ds /\ (sg = "-"%char \/ sg = "+"%char) /\
                truthy ds = true /\ all_digits ds = true /\
                Concrete.int_of_string (signed_int k) = Some k.
Proof.
  unfold signed_int. destruct (Z.ltb_spec k 0) as [Hk|Hk].
  - destruct (digits_spec (Z.to_N (- k))) as (Hd & Ht & Hv).
    eexists _, _. split; [reflexivity|]. split; [left; reflexivity|].
    split; [exact Ht|]. split; [exact Hd|].
    rewrite (int_of_minus_digits _ Ht Hd), Hv. f_equal. lia.
  - destruct (digits_spec (Z.to_N k)) as (Hd & Ht & Hv).
    eexists _, _. split; [reflexivity|]. split; [right; reflexivity|].
    split; [exact Ht|]. split; [exact Hd|].
    unfold Concrete.int_of_string. rewrite strip_no_space.
    + rewrite (number_digits _ Ht Hd), Hv. f_equal. lia.
    + unfold no_space. simpl. exact (digits_no_space _ Hd).
Qed.

Lemma read_exponent_signed (k : Z) : read_exponent (signed_int k) = Some k.
Proof.
  destruct (signed_int_digits k) as (sg & ds & E & Hsg & Ht & Hd & Hi).
  unfold read_exponent. rewrite Hi, E.
  destruct Hsg as [-> | ->]; cbv iota beta; rewrite Ht, Hd; reflexivity.
Qed.

Lemma signed_int_chars (p : ascii -> bool) (k : Z) :
  (forall c, Concrete.is_digit c = true -> p c = true) ->
  p "-"%char = true -> p "+"%char = true ->
  Eip55.all_chars p (signed_int k) = true.
Proof.
  intros Hd Hm Hp. destruct (signed_int_digits k) as (sg & ds & E & Hsg & _ & Hds & _).
  rewrite E. simpl. rewrite (all_chars_impl _ p ds Hd Hds), andb_true_r.
  destruct Hsg as [-> | ->]; assumption.
Qed.

Lemma numeral_chars (p : ascii -> bool) (sg : bool) (ip : string)
    (fp : option string) (ex : option Z) :
  (forall c, Concrete.is_digit c = true -> p c = true) ->
  p "."%char = true -> p "-"%char = true -> p "+"%char = true -> p "E"%char = true ->
  all_digits ip = true -> all_digits (default EmptyString fp) = true ->
  Eip55.all_chars p (numeral sg ip fp ex) = true.
Proof.
  intros Hd Hdot Hm Hp He Hip Hfp. unfold numeral. rewrite !all_chars_app.
  repeat (apply andb_true_intro; split).
  - destruct sg; simpl; [rewrite Hm|]; reflexivity.
  - exact (all_chars_impl _ p ip Hd Hip).
  - destruct fp as [f|]; simpl; [|reflexivity].
    rewrite Hdot. exact (all_chars_impl _ p f Hd Hfp).
  - destruct ex as [k|]; simpl; [|reflexivity].
    rewrite He. apply signed_int_chars; assumption.
Qed.

Lemma digit_facts (c : ascii) :
  Concrete.is_digit c = true ->
  is_space c = false /\ Ascii.eqb c "_" = false /\ is_e c = false /\
  split_sign (String c EmptyString) = (false, String c EmptyString) /\
  Ascii.eqb c "i" = false /\ Ascii.eqb "n" c = false /\ Ascii.eqb "s" c = false /\
  Ascii.eqb (lower_char c) "i" = false /\ Ascii.eqb "n" (lower_char c) = false /\
  Ascii.eqb "s" (lower_char c) = false.
Proof.
  destruct c as [[] [] [] [] [] [] [] []]; intros H; try discriminate H;
    repeat split; reflexivity.
Qed.

Lemma split_sign_digit (c : ascii) (r : string) :
  Concrete.is_digit c = true -> split_sign (String c r) = (false, String c r).
Proof.
  destruct c as [[] [] [] [] [] [] [] []]; intros H; try discriminate H; reflexivity.
Qed.

Lemma not_special_digit (c : ascii) (r : string) :
  Concrete.is_digit c = true -> is_special (String c r) = false.
Proof.
  intros H. destruct (digit_facts c H) as (_ & _ & _ & _ & _ & _ & _ & Hi & Hn & Hs).
  unfold is_special, lower. cbn [map_chars String.eqb startswith].
  rewrite Hi, Hn, Hs. reflexivity.
Qed.

(** Reading a number written in its parts. *)
Lemma parse_numeral (sg : bool) (ip : string) (fp : option string) (ex : option Z) :
  truthy ip = true -> all_digits ip = true ->
  all_digits (default EmptyString fp) = true ->
  decimal_of_string (numeral sg ip fp ex)
  = let d := mkDec sg (digits_value (ip ++ default EmptyString fp))
                   (default 0 ex - len (default EmptyString fp)) in
    if representable d then Finite d else Invalid.
Proof.
  intros Ht Hip Hfp. unfold decimal_of_string.
  rewrite strip_no_space.
  2:{ apply numeral_chars; try reflexivity; try assumption.
      intros c Hc. rewrite (proj1 (digit_facts c Hc)). reflexivity. }
  rewrite remove_underscores_id.
  2:{ apply numeral_chars; try reflexivity; try assumption.
      intros c Hc. destruct (digit_facts c Hc) as (_ & -> & _). reflexivity. }
  set (F := match fp with Some f => String "." f | None => EmptyString end).
  set (X := match ex with Some k => String "E" (signed_int k) | None => EmptyString end).
  assert (Hrest : split_sign (numeral sg ip fp ex) = (sg, (ip ++ F ++ X)%string)).
  { unfold numeral. fold F X. destruct sg.
    - rewrite app_cons, app_nil. reflexivity.
    - rewrite app_nil. destruct ip as [|c0 r0]; [discriminate|].
      rewrite app_cons. apply split_sign_digit.
      unfold all_digits in Hip. simpl in Hip. apply andb_prop in Hip as [H _]. exact H. }
  rewrite Hrest. unfold decimal_of_unsigned.
  assert (Hsp : is_special (ip ++ F ++ X) = false).
  { destruct ip as [|c0 r0]; [discriminate|]. rewrite app_cons.
    apply not_special_digit.
    unfold all_digits in Hip. simpl in Hip. apply andb_prop in Hip as [H _]. exact H. }
  rewrite Hsp.
  assert (HM : Eip55.all_chars (fun c => negb (is_e c)) (ip ++ F) = true).
  { rewrite all_chars_app. apply andb_true_intro. split.
    - apply (all_chars_impl _ _ ip) with (2 := Hip).
      intros c Hc. destruct (digit_facts c Hc) as (_ & _ & -> & _). reflexivity.
    - unfold F. destruct fp as [f|]; simpl; [|reflexivity].
      apply (all_chars_impl _ _ f) with (2 := Hfp).
      intros c Hc. destruct (digit_facts c Hc) as (_ & _ & -> & _). reflexivity. }
  assert (HE : before_e (ip ++ F ++ X) = (ip ++ F)%string /\
               match after_e (ip ++ F ++ X) with
               | Some x => read_exponent x
               | None => Some 0
               end = Some (default 0 ex)).
  { rewrite <- app_assoc_s. unfold X. destruct ex as [k|].
    - destruct (before_e_app (ip ++ F) (signed_int k) HM) as [-> ->].
      split; [reflexivity | apply read_exponent_signed].
    - rewrite app_empty_r. destruct (before_e_free (ip ++ F) HM) as [-> ->]. auto. }
  destruct HE as [-> ->].
  assert (HD : before_dot (ip ++ F) = ip /\
               match after_dot (ip ++ F) with Some f => f | None => EmptyString end
               = default EmptyString fp).
  { unfold F. destruct fp as [f|]; simpl.
    - rewrite before_dot_digits, after_dot_digits by exact Hip. auto.
    - rewrite app_empty_r, before_dot_none, after_dot_none by exact Hip. auto. }
  destruct HD as [-> ->].
  rewrite Hip, Hfp, Ht. reflexivity.
Qed.

Lemma truthy_take (n : nat) (s : string) :
  (0 < n)%nat -> truthy s = true -> truthy (take n s) = true.
Proof. destruct n, s; simpl; auto; lia. Qed.

Lemma len_pos (s : string) : truthy s = true -> 1 <= len s.
Proof. destruct s; [discriminate|]. unfold len. simpl. lia. Qed.

(** What [str] writes, in its parts. *)
Lemma Dstr_numeral (d : Decimal) :
  exists ip fp ex,
    Dstr d = numeral (dsign d) ip fp ex /\
    truthy ip = true /\ all_digits ip = true /\
    all_digits (default EmptyString fp) = true /\
    digits_value (ip ++ default EmptyString fp) = dcoef d /\
    default 0 ex - len (default EmptyString fp) = dexp d.
Proof.
  destruct (digits_spec (dcoef d)) as (Hd & Ht & Hv).
  pose proof (len_pos _ Ht) as Hn.
  unfold Dstr. set (ds := digits (dcoef d)) in *.
  destruct ((dexp d <=? 0) && (-6 <? dexp d + len ds)) eqn:Hplain.
  - apply andb_prop in Hplain as [He _]. apply Z.leb_le in He.
    rewrite Z.eqb_refl.
    destruct (Z.leb_spec (dexp d + len ds) 0) as [Hdp|Hdp].
    + exists "0"%string, (Some (repeat_char "0" (Z.to_nat (- (dexp d + len ds))) ++ ds)%string),
        None.
      split; [unfold numeral; rewrite !app_cons, !app_nil; reflexivity|].
      split; [reflexivity|]. split; [reflexivity|]. cbv [default from_option id].
      split; [rewrite all_digits_app, all_digits_zeros; exact Hd|].
      split.
      * rewrite !digits_value_app, digits_value_zeros, Hv. simpl. lia.
      * unfold len in *. rewrite length_app, length_repeat_char. lia.
    + destruct (Z.leb_spec (len ds) (dexp d + len ds)) as [Hle|Hgt].
      * assert (H0 : dexp d = 0) by lia.
        exists (ds ++ repeat_char "0" (Z.to_nat (dexp d + len ds - len ds)))%string, None, None.
        split; [unfold numeral; rewrite !app_nil; reflexivity|].
        split; [apply truthy_app_l; exact Ht|].
        split; [rewrite all_digits_app, all_digits_zeros, Hd; reflexivity|].
        split; [reflexivity|]. cbv [default from_option id].
        replace (Z.to_nat (dexp d + len ds - len ds)) with 0%nat by lia.
        simpl repeat_char. rewrite !app_empty_r. split; [exact Hv | change (len EmptyString) with 0; lia].
      * exists (take (Z.to_nat (dexp d + len ds)) ds),
          (Some (drop (Z.to_nat (dexp d + len ds)) ds)), None.
        split; [unfold numeral; rewrite !app_cons, !app_nil; reflexivity|].
        split; [apply truthy_take; [lia | exact Ht]|].
        split; [apply all_digits_take; exact Hd|]. cbv [default from_option id].
        split; [apply all_digits_drop; exact Hd|].
        rewrite take_drop. split; [exact Hv|].
        unfold len in *. rewrite length_drop. lia.
  - assert (Hsci : 0 < dexp d \/ dexp d + len ds <= -6).
    { apply andb_false_iff in Hplain as [H|H]; [apply Z.leb_gt in H | apply Z.ltb_ge in H];
        lia. }
    destruct (Z.leb_spec 1 0) as [Hbad|_]; [lia|].
    destruct (Z.eqb_spec (dexp d + len ds) 1) as [Heq|Hne]; [lia|].
    destruct (Z.leb_spec (len ds) 1) as [Hle|Hgt].
    + exists (ds ++ repeat_char "0" (Z.to_nat (1 - len ds)))%string, None,
        (Some (dexp d + len ds - 1)).
      split; [unfold numeral; rewrite !app_nil; reflexivity|].
      split; [apply truthy_app_l; exact Ht|].
      split; [rewrite all_digits_app, all_digits_zeros, Hd; reflexivity|].
      split; [reflexivity|]. cbv [default from_option id].
      replace (Z.to_nat (1 - len ds)) with 0%nat by lia.
      simpl repeat_char. rewrite !app_empty_r. split; [exact Hv | change (len EmptyString) with 0; lia].
    + exists (take (Z.to_nat 1) ds), (Some (drop (Z.to_nat 1) ds)),
        (Some (dexp d + len ds - 1)).
      split; [unfold numeral; rewrite !app_cons, !app_nil; reflexivity|].
      split; [apply truthy_take; [lia | exact Ht]|].
      split; [apply all_digits_take; exact Hd|]. cbv [default from_option id].
      split; [apply all_digits_drop; exact Hd|].
      rewrite take_drop. split; [exact Hv|].
      unfold len in *. rewrite length_drop. lia.
Qed.

End DecimalText.

(** X30. The balance written as text is read back as it was: for every
    finite Decimal [d] that Python can hold, [to_decimal(str(d))] is [d],
    with its sign, its digits and its exponent (so also its trailing zeros
    and a negative zero). *)
Theorem balance_text_reads_back (d : Decimal) :
  representable d = true -> to_decimal (AText (Dstr d)) = Some d.
Proof.
  intros Hr. destruct (Dstr_numeral d) as (ip & fp & ex & E & Ht & Hip & Hfp & Hv & He).
  unfold to_decimal. rewrite E, (parse_numeral _ ip fp ex Ht Hip Hfp). cbv zeta.
  rewrite Hv, He. replace (mkDec (dsign d) (dcoef d) (dexp d)) with d by (destruct d; reflexivity).
  rewrite Hr. reflexivity.
Qed.

(** The balance 0.511 is written [0.511]; a bonus of 1E-7 is written in
    scientific notation. *)
Lemma balance_text_reads_back_witness :
  (Dstr (mkDec false 511 (-3)) = "0.511"%string /\
   to_decimal (AText (Dstr (mkDec false 511 (-3)))) = Some (mkDec false 511 (-3))) /\
  (Dstr (mkDec false 1 (-7)) = "1E-7"%string /\
   to_decimal (AText (Dstr (mkDec false 1 (-7)))) = Some (mkDec false 1 (-7))).
Proof.
  split; (split; [reflexivity | apply balance_text_reads_back; reflexivity]).
Defined.
